(** * dialog-ai: the meeting search engine, embedded and verified

    A shallow embedding of [src/chatbot/chatbotSearch/search.py]: the
    temporal parser, the lifecycle-state classifier, the keyword
    extractor, the intent classifiers, the relevance ranker, the search
    orchestrator with its relaxation ladder, and the task resolver.

    Conventions of the embedding.
    - A Python [str] is the list of its code points ([pystr]).  String
      literals of the source are written as UTF-8 literals and decoded
      by [py].
    - [str.lower], [int], [\d], [\w], [\s] and [str.strip] follow the
      Unicode tables of CPython; [str.upper], [str.isdigit] and
      [str.isupper] are only applied to tokens of [[A-Za-z0-9]+] and are
      given on those.
    - Python exceptions are explicit: a computation that can raise
      returns a [result].
    - Rows fetched from the store are Python dicts that the ranker
      mutates in place; they live in a heap and lists hold references. *)

From Stdlib Require Import ZArith NArith String Ascii List Bool Lia.
From Stdlib Require Import Floats.
From stdpp Require Import base option list gmap.
Import ListNotations.

Local Open Scope string_scope.
Local Open Scope list_scope.
Local Open Scope N_scope.

(** ** Tables of the Unicode character database

    What [str.lower], [int] and the classes [\d] and [\w] of [re] look
    up, for version 14.0 of the database (CPython 3.11).  A range is
    given by its first and last code point. *)

Module Unicode.

(** The digit zero of each decimal number system; its nine successors
    are the digits one to nine. *)
Definition decimal_zeros : list N :=
  [
    48; 1632; 1776; 1984; 2406; 2534; 2662; 2790; 2918; 3046; 3174; 3302; 3430; 3558; 3664;
    3792; 3872; 4160; 4240; 6112; 6160; 6470; 6608; 6784; 6800; 6992; 7088; 7232; 7248;
    42528; 43216; 43264; 43472; 43504; 43600; 44016; 65296; 66720; 68912; 69734; 69872;
    69942; 70096; 70384; 70736; 70864; 71248; 71360; 71472; 71904; 72016; 72784; 73040;
    73120; 92768; 92864; 93008; 120782; 120792; 120802; 120812; 120822; 123200; 123632;
    125264; 130032 ].

(** Simple lower-case mappings: [(first, last, step, image of first)]
    maps every [step]-th code point from [first] to [last] to the code
    point at the same offset from the image. *)
Definition lower_table : list (N * N * N * N) :=
  [
    (65, 90, 1, 97); (192, 214, 1, 224); (216, 222, 1, 248); (256, 302, 2, 257);
    (306, 310, 2, 307); (313, 327, 2, 314); (330, 374, 2, 331); (376, 376, 1, 255);
    (377, 381, 2, 378); (385, 385, 1, 595); (386, 388, 2, 387); (390, 390, 1, 596);
    (391, 391, 1, 392); (393, 394, 1, 598); (395, 395, 1, 396); (398, 398, 1, 477);
    (399, 399, 1, 601); (400, 400, 1, 603); (401, 401, 1, 402); (403, 403, 1, 608);
    (404, 404, 1, 611); (406, 406, 1, 617); (407, 407, 1, 616); (408, 408, 1, 409);
    (412, 412, 1, 623); (413, 413, 1, 626); (415, 415, 1, 629); (416, 420, 2, 417);
    (422, 422, 1, 640); (423, 423, 1, 424); (425, 425, 1, 643); (428, 428, 1, 429);
    (430, 430, 1, 648); (431, 431, 1, 432); (433, 434, 1, 650); (435, 437, 2, 436);
    (439, 439, 1, 658); (440, 440, 1, 441); (444, 444, 1, 445); (452, 452, 1, 454);
    (453, 453, 1, 454); (455, 455, 1, 457); (456, 456, 1, 457); (458, 458, 1, 460);
    (459, 475, 2, 460); (478, 494, 2, 479); (497, 497, 1, 499); (498, 500, 2, 499);
    (502, 502, 1, 405); (503, 503, 1, 447); (504, 542, 2, 505); (544, 544, 1, 414);
    (546, 562, 2, 547); (570, 570, 1, 11365); (571, 571, 1, 572); (573, 573, 1, 410);
    (574, 574, 1, 11366); (577, 577, 1, 578); (579, 579, 1, 384); (580, 580, 1, 649);
    (581, 581, 1, 652); (582, 590, 2, 583); (880, 882, 2, 881); (886, 886, 1, 887);
    (895, 895, 1, 1011); (902, 902, 1, 940); (904, 906, 1, 941); (908, 908, 1, 972);
    (910, 911, 1, 973); (913, 929, 1, 945); (931, 939, 1, 963); (975, 975, 1, 983);
    (984, 1006, 2, 985); (1012, 1012, 1, 952); (1015, 1015, 1, 1016); (1017, 1017, 1, 1010);
    (1018, 1018, 1, 1019); (1021, 1023, 1, 891); (1024, 1039, 1, 1104);
    (1040, 1071, 1, 1072); (1120, 1152, 2, 1121); (1162, 1214, 2, 1163);
    (1216, 1216, 1, 1231); (1217, 1229, 2, 1218); (1232, 1326, 2, 1233);
    (1329, 1366, 1, 1377); (4256, 4293, 1, 11520); (4295, 4295, 1, 11559);
    (4301, 4301, 1, 11565); (5024, 5103, 1, 43888); (5104, 5109, 1, 5112);
    (7312, 7354, 1, 4304); (7357, 7359, 1, 4349); (7680, 7828, 2, 7681);
    (7838, 7838, 1, 223); (7840, 7934, 2, 7841); (7944, 7951, 1, 7936);
    (7960, 7965, 1, 7952); (7976, 7983, 1, 7968); (7992, 7999, 1, 7984);
    (8008, 8013, 1, 8000); (8025, 8031, 2, 8017); (8040, 8047, 1, 8032);
    (8072, 8079, 1, 8064); (8088, 8095, 1, 8080); (8104, 8111, 1, 8096);
    (8120, 8121, 1, 8112); (8122, 8123, 1, 8048); (8124, 8124, 1, 8115);
    (8136, 8139, 1, 8050); (8140, 8140, 1, 8131); (8152, 8153, 1, 8144);
    (8154, 8155, 1, 8054); (8168, 8169, 1, 8160); (8170, 8171, 1, 8058);
    (8172, 8172, 1, 8165); (8184, 8185, 1, 8056); (8186, 8187, 1, 8060);
    (8188, 8188, 1, 8179); (8486, 8486, 1, 969); (8490, 8490, 1, 107); (8491, 8491, 1, 229);
    (8498, 8498, 1, 8526); (8544, 8559, 1, 8560); (8579, 8579, 1, 8580);
    (9398, 9423, 1, 9424); (11264, 11311, 1, 11312); (11360, 11360, 1, 11361);
    (11362, 11362, 1, 619); (11363, 11363, 1, 7549); (11364, 11364, 1, 637);
    (11367, 11371, 2, 11368); (11373, 11373, 1, 593); (11374, 11374, 1, 625);
    (11375, 11375, 1, 592); (11376, 11376, 1, 594); (11378, 11378, 1, 11379);
    (11381, 11381, 1, 11382); (11390, 11391, 1, 575); (11392, 11490, 2, 11393);
    (11499, 11501, 2, 11500); (11506, 11506, 1, 11507); (42560, 42604, 2, 42561);
    (42624, 42650, 2, 42625); (42786, 42798, 2, 42787); (42802, 42862, 2, 42803);
    (42873, 42875, 2, 42874); (42877, 42877, 1, 7545); (42878, 42886, 2, 42879);
    (42891, 42891, 1, 42892); (42893, 42893, 1, 613); (42896, 42898, 2, 42897);
    (42902, 42920, 2, 42903); (42922, 42922, 1, 614); (42923, 42923, 1, 604);
    (42924, 42924, 1, 609); (42925, 42925, 1, 620); (42926, 42926, 1, 618);
    (42928, 42928, 1, 670); (42929, 42929, 1, 647); (42930, 42930, 1, 669);
    (42931, 42931, 1, 43859); (42932, 42946, 2, 42933); (42948, 42948, 1, 42900);
    (42949, 42949, 1, 642); (42950, 42950, 1, 7566); (42951, 42953, 2, 42952);
    (42960, 42960, 1, 42961); (42966, 42968, 2, 42967); (42997, 42997, 1, 42998);
    (65313, 65338, 1, 65345); (66560, 66599, 1, 66600); (66736, 66771, 1, 66776);
    (66928, 66964, 2, 66967); (66929, 66937, 2, 66968); (66941, 66953, 2, 66980);
    (66957, 66961, 2, 66996); (66965, 66965, 1, 67004); (68736, 68786, 1, 68800);
    (71840, 71871, 1, 71872); (93760, 93791, 1, 93792); (125184, 125217, 1, 125218) ].

(** Code points with the property Case_Ignorable. *)
Definition case_ignorable_table : list (N * N) :=
  [
    (39, 39); (46, 46); (58, 58); (94, 94); (96, 96); (168, 168); (173, 173); (175, 175);
    (180, 180); (183, 184); (688, 879); (884, 885); (890, 890); (900, 901); (903, 903);
    (1155, 1161); (1369, 1369); (1375, 1375); (1425, 1469); (1471, 1471); (1473, 1474);
    (1476, 1477); (1479, 1479); (1524, 1524); (1536, 1541); (1552, 1562); (1564, 1564);
    (1600, 1600); (1611, 1631); (1648, 1648); (1750, 1757); (1759, 1768); (1770, 1773);
    (1807, 1807); (1809, 1809); (1840, 1866); (1958, 1968); (2027, 2037); (2042, 2042);
    (2045, 2045); (2070, 2093); (2137, 2139); (2184, 2184); (2192, 2193); (2200, 2207);
    (2249, 2306); (2362, 2362); (2364, 2364); (2369, 2376); (2381, 2381); (2385, 2391);
    (2402, 2403); (2417, 2417); (2433, 2433); (2492, 2492); (2497, 2500); (2509, 2509);
    (2530, 2531); (2558, 2558); (2561, 2562); (2620, 2620); (2625, 2626); (2631, 2632);
    (2635, 2637); (2641, 2641); (2672, 2673); (2677, 2677); (2689, 2690); (2748, 2748);
    (2753, 2757); (2759, 2760); (2765, 2765); (2786, 2787); (2810, 2815); (2817, 2817);
    (2876, 2876); (2879, 2879); (2881, 2884); (2893, 2893); (2901, 2902); (2914, 2915);
    (2946, 2946); (3008, 3008); (3021, 3021); (3072, 3072); (3076, 3076); (3132, 3132);
    (3134, 3136); (3142, 3144); (3146, 3149); (3157, 3158); (3170, 3171); (3201, 3201);
    (3260, 3260); (3263, 3263); (3270, 3270); (3276, 3277); (3298, 3299); (3328, 3329);
    (3387, 3388); (3393, 3396); (3405, 3405); (3426, 3427); (3457, 3457); (3530, 3530);
    (3538, 3540); (3542, 3542); (3633, 3633); (3636, 3642); (3654, 3662); (3761, 3761);
    (3764, 3772); (3782, 3782); (3784, 3789); (3864, 3865); (3893, 3893); (3895, 3895);
    (3897, 3897); (3953, 3966); (3968, 3972); (3974, 3975); (3981, 3991); (3993, 4028);
    (4038, 4038); (4141, 4144); (4146, 4151); (4153, 4154); (4157, 4158); (4184, 4185);
    (4190, 4192); (4209, 4212); (4226, 4226); (4229, 4230); (4237, 4237); (4253, 4253);
    (4348, 4348); (4957, 4959); (5906, 5908); (5938, 5939); (5970, 5971); (6002, 6003);
    (6068, 6069); (6071, 6077); (6086, 6086); (6089, 6099); (6103, 6103); (6109, 6109);
    (6155, 6159); (6211, 6211); (6277, 6278); (6313, 6313); (6432, 6434); (6439, 6440);
    (6450, 6450); (6457, 6459); (6679, 6680); (6683, 6683); (6742, 6742); (6744, 6750);
    (6752, 6752); (6754, 6754); (6757, 6764); (6771, 6780); (6783, 6783); (6823, 6823);
    (6832, 6862); (6912, 6915); (6964, 6964); (6966, 6970); (6972, 6972); (6978, 6978);
    (7019, 7027); (7040, 7041); (7074, 7077); (7080, 7081); (7083, 7085); (7142, 7142);
    (7144, 7145); (7149, 7149); (7151, 7153); (7212, 7219); (7222, 7223); (7288, 7293);
    (7376, 7378); (7380, 7392); (7394, 7400); (7405, 7405); (7412, 7412); (7416, 7417);
    (7468, 7530); (7544, 7544); (7579, 7679); (8125, 8125); (8127, 8129); (8141, 8143);
    (8157, 8159); (8173, 8175); (8189, 8190); (8203, 8207); (8216, 8217); (8228, 8228);
    (8231, 8231); (8234, 8238); (8288, 8292); (8294, 8303); (8305, 8305); (8319, 8319);
    (8336, 8348); (8400, 8432); (11388, 11389); (11503, 11505); (11631, 11631);
    (11647, 11647); (11744, 11775); (11823, 11823); (12293, 12293); (12330, 12333);
    (12337, 12341); (12347, 12347); (12441, 12446); (12540, 12542); (40981, 40981);
    (42232, 42237); (42508, 42508); (42607, 42610); (42612, 42621); (42623, 42623);
    (42652, 42655); (42736, 42737); (42752, 42785); (42864, 42864); (42888, 42890);
    (42994, 42996); (43000, 43001); (43010, 43010); (43014, 43014); (43019, 43019);
    (43045, 43046); (43052, 43052); (43204, 43205); (43232, 43249); (43263, 43263);
    (43302, 43309); (43335, 43345); (43392, 43394); (43443, 43443); (43446, 43449);
    (43452, 43453); (43471, 43471); (43493, 43494); (43561, 43566); (43569, 43570);
    (43573, 43574); (43587, 43587); (43596, 43596); (43632, 43632); (43644, 43644);
    (43696, 43696); (43698, 43700); (43703, 43704); (43710, 43711); (43713, 43713);
    (43741, 43741); (43756, 43757); (43763, 43764); (43766, 43766); (43867, 43871);
    (43881, 43883); (44005, 44005); (44008, 44008); (44013, 44013); (64286, 64286);
    (64434, 64450); (65024, 65039); (65043, 65043); (65056, 65071); (65106, 65106);
    (65109, 65109); (65279, 65279); (65287, 65287); (65294, 65294); (65306, 65306);
    (65342, 65342); (65344, 65344); (65392, 65392); (65438, 65439); (65507, 65507);
    (65529, 65531); (66045, 66045); (66272, 66272); (66422, 66426); (67456, 67461);
    (67463, 67504); (67506, 67514); (68097, 68099); (68101, 68102); (68108, 68111);
    (68152, 68154); (68159, 68159); (68325, 68326); (68900, 68903); (69291, 69292);
    (69446, 69456); (69506, 69509); (69633, 69633); (69688, 69702); (69744, 69744);
    (69747, 69748); (69759, 69761); (69811, 69814); (69817, 69818); (69821, 69821);
    (69826, 69826); (69837, 69837); (69888, 69890); (69927, 69931); (69933, 69940);
    (70003, 70003); (70016, 70017); (70070, 70078); (70089, 70092); (70095, 70095);
    (70191, 70193); (70196, 70196); (70198, 70199); (70206, 70206); (70367, 70367);
    (70371, 70378); (70400, 70401); (70459, 70460); (70464, 70464); (70502, 70508);
    (70512, 70516); (70712, 70719); (70722, 70724); (70726, 70726); (70750, 70750);
    (70835, 70840); (70842, 70842); (70847, 70848); (70850, 70851); (71090, 71093);
    (71100, 71101); (71103, 71104); (71132, 71133); (71219, 71226); (71229, 71229);
    (71231, 71232); (71339, 71339); (71341, 71341); (71344, 71349); (71351, 71351);
    (71453, 71455); (71458, 71461); (71463, 71467); (71727, 71735); (71737, 71738);
    (71995, 71996); (71998, 71998); (72003, 72003); (72148, 72151); (72154, 72155);
    (72160, 72160); (72193, 72202); (72243, 72248); (72251, 72254); (72263, 72263);
    (72273, 72278); (72281, 72283); (72330, 72342); (72344, 72345); (72752, 72758);
    (72760, 72765); (72767, 72767); (72850, 72871); (72874, 72880); (72882, 72883);
    (72885, 72886); (73009, 73014); (73018, 73018); (73020, 73021); (73023, 73029);
    (73031, 73031); (73104, 73105); (73109, 73109); (73111, 73111); (73459, 73460);
    (78896, 78904); (92912, 92916); (92976, 92982); (92992, 92995); (94031, 94031);
    (94095, 94111); (94176, 94177); (94179, 94180); (110576, 110579); (110581, 110587);
    (110589, 110590); (113821, 113822); (113824, 113827); (118528, 118573);
    (118576, 118598); (119143, 119145); (119155, 119170); (119173, 119179);
    (119210, 119213); (119362, 119364); (121344, 121398); (121403, 121452);
    (121461, 121461); (121476, 121476); (121499, 121503); (121505, 121519);
    (122880, 122886); (122888, 122904); (122907, 122913); (122915, 122916);
    (122918, 122922); (123184, 123197); (123566, 123566); (123628, 123631);
    (125136, 125142); (125252, 125259); (127995, 127999); (917505, 917505);
    (917536, 917631); (917760, 917999) ].

(** Code points with the property Cased that are not case-ignorable. *)
Definition cased_table : list (N * N) :=
  [
    (65, 90); (97, 122); (170, 170); (181, 181); (186, 186); (192, 214); (216, 246);
    (248, 442); (444, 447); (452, 659); (661, 687); (880, 883); (886, 887); (891, 893);
    (895, 895); (902, 902); (904, 906); (908, 908); (910, 929); (931, 1013); (1015, 1153);
    (1162, 1327); (1329, 1366); (1376, 1416); (4256, 4293); (4295, 4295); (4301, 4301);
    (4304, 4346); (4349, 4351); (5024, 5109); (5112, 5117); (7296, 7304); (7312, 7354);
    (7357, 7359); (7424, 7467); (7531, 7543); (7545, 7578); (7680, 7957); (7960, 7965);
    (7968, 8005); (8008, 8013); (8016, 8023); (8025, 8025); (8027, 8027); (8029, 8029);
    (8031, 8061); (8064, 8116); (8118, 8124); (8126, 8126); (8130, 8132); (8134, 8140);
    (8144, 8147); (8150, 8155); (8160, 8172); (8178, 8180); (8182, 8188); (8450, 8450);
    (8455, 8455); (8458, 8467); (8469, 8469); (8473, 8477); (8484, 8484); (8486, 8486);
    (8488, 8488); (8490, 8493); (8495, 8500); (8505, 8505); (8508, 8511); (8517, 8521);
    (8526, 8526); (8544, 8575); (8579, 8580); (9398, 9449); (11264, 11387); (11390, 11492);
    (11499, 11502); (11506, 11507); (11520, 11557); (11559, 11559); (11565, 11565);
    (42560, 42605); (42624, 42651); (42786, 42863); (42865, 42887); (42891, 42894);
    (42896, 42954); (42960, 42961); (42963, 42963); (42965, 42969); (42997, 42998);
    (43002, 43002); (43824, 43866); (43872, 43880); (43888, 43967); (64256, 64262);
    (64275, 64279); (65313, 65338); (65345, 65370); (66560, 66639); (66736, 66771);
    (66776, 66811); (66928, 66938); (66940, 66954); (66956, 66962); (66964, 66965);
    (66967, 66977); (66979, 66993); (66995, 67001); (67003, 67004); (68736, 68786);
    (68800, 68850); (71840, 71903); (93760, 93823); (119808, 119892); (119894, 119964);
    (119966, 119967); (119970, 119970); (119973, 119974); (119977, 119980);
    (119982, 119993); (119995, 119995); (119997, 120003); (120005, 120069);
    (120071, 120074); (120077, 120084); (120086, 120092); (120094, 120121);
    (120123, 120126); (120128, 120132); (120134, 120134); (120138, 120144);
    (120146, 120485); (120488, 120512); (120514, 120538); (120540, 120570);
    (120572, 120596); (120598, 120628); (120630, 120654); (120656, 120686);
    (120688, 120712); (120714, 120744); (120746, 120770); (120772, 120779);
    (122624, 122633); (122635, 122654); (125184, 125251); (127280, 127305);
    (127312, 127337); (127344, 127369) ].

(** Alphanumeric code points and the underscore: the class [\w]. *)
Definition word_table : list (N * N) :=
  [
    (48, 57); (65, 90); (95, 95); (97, 122); (170, 170); (178, 179); (181, 181); (185, 186);
    (188, 190); (192, 214); (216, 246); (248, 705); (710, 721); (736, 740); (748, 748);
    (750, 750); (880, 884); (886, 887); (890, 893); (895, 895); (902, 902); (904, 906);
    (908, 908); (910, 929); (931, 1013); (1015, 1153); (1162, 1327); (1329, 1366);
    (1369, 1369); (1376, 1416); (1488, 1514); (1519, 1522); (1568, 1610); (1632, 1641);
    (1646, 1647); (1649, 1747); (1749, 1749); (1765, 1766); (1774, 1788); (1791, 1791);
    (1808, 1808); (1810, 1839); (1869, 1957); (1969, 1969); (1984, 2026); (2036, 2037);
    (2042, 2042); (2048, 2069); (2074, 2074); (2084, 2084); (2088, 2088); (2112, 2136);
    (2144, 2154); (2160, 2183); (2185, 2190); (2208, 2249); (2308, 2361); (2365, 2365);
    (2384, 2384); (2392, 2401); (2406, 2415); (2417, 2432); (2437, 2444); (2447, 2448);
    (2451, 2472); (2474, 2480); (2482, 2482); (2486, 2489); (2493, 2493); (2510, 2510);
    (2524, 2525); (2527, 2529); (2534, 2545); (2548, 2553); (2556, 2556); (2565, 2570);
    (2575, 2576); (2579, 2600); (2602, 2608); (2610, 2611); (2613, 2614); (2616, 2617);
    (2649, 2652); (2654, 2654); (2662, 2671); (2674, 2676); (2693, 2701); (2703, 2705);
    (2707, 2728); (2730, 2736); (2738, 2739); (2741, 2745); (2749, 2749); (2768, 2768);
    (2784, 2785); (2790, 2799); (2809, 2809); (2821, 2828); (2831, 2832); (2835, 2856);
    (2858, 2864); (2866, 2867); (2869, 2873); (2877, 2877); (2908, 2909); (2911, 2913);
    (2918, 2927); (2929, 2935); (2947, 2947); (2949, 2954); (2958, 2960); (2962, 2965);
    (2969, 2970); (2972, 2972); (2974, 2975); (2979, 2980); (2984, 2986); (2990, 3001);
    (3024, 3024); (3046, 3058); (3077, 3084); (3086, 3088); (3090, 3112); (3114, 3129);
    (3133, 3133); (3160, 3162); (3165, 3165); (3168, 3169); (3174, 3183); (3192, 3198);
    (3200, 3200); (3205, 3212); (3214, 3216); (3218, 3240); (3242, 3251); (3253, 3257);
    (3261, 3261); (3293, 3294); (3296, 3297); (3302, 3311); (3313, 3314); (3332, 3340);
    (3342, 3344); (3346, 3386); (3389, 3389); (3406, 3406); (3412, 3414); (3416, 3425);
    (3430, 3448); (3450, 3455); (3461, 3478); (3482, 3505); (3507, 3515); (3517, 3517);
    (3520, 3526); (3558, 3567); (3585, 3632); (3634, 3635); (3648, 3654); (3664, 3673);
    (3713, 3714); (3716, 3716); (3718, 3722); (3724, 3747); (3749, 3749); (3751, 3760);
    (3762, 3763); (3773, 3773); (3776, 3780); (3782, 3782); (3792, 3801); (3804, 3807);
    (3840, 3840); (3872, 3891); (3904, 3911); (3913, 3948); (3976, 3980); (4096, 4138);
    (4159, 4169); (4176, 4181); (4186, 4189); (4193, 4193); (4197, 4198); (4206, 4208);
    (4213, 4225); (4238, 4238); (4240, 4249); (4256, 4293); (4295, 4295); (4301, 4301);
    (4304, 4346); (4348, 4680); (4682, 4685); (4688, 4694); (4696, 4696); (4698, 4701);
    (4704, 4744); (4746, 4749); (4752, 4784); (4786, 4789); (4792, 4798); (4800, 4800);
    (4802, 4805); (4808, 4822); (4824, 4880); (4882, 4885); (4888, 4954); (4969, 4988);
    (4992, 5007); (5024, 5109); (5112, 5117); (5121, 5740); (5743, 5759); (5761, 5786);
    (5792, 5866); (5870, 5880); (5888, 5905); (5919, 5937); (5952, 5969); (5984, 5996);
    (5998, 6000); (6016, 6067); (6103, 6103); (6108, 6108); (6112, 6121); (6128, 6137);
    (6160, 6169); (6176, 6264); (6272, 6276); (6279, 6312); (6314, 6314); (6320, 6389);
    (6400, 6430); (6470, 6509); (6512, 6516); (6528, 6571); (6576, 6601); (6608, 6618);
    (6656, 6678); (6688, 6740); (6784, 6793); (6800, 6809); (6823, 6823); (6917, 6963);
    (6981, 6988); (6992, 7001); (7043, 7072); (7086, 7141); (7168, 7203); (7232, 7241);
    (7245, 7293); (7296, 7304); (7312, 7354); (7357, 7359); (7401, 7404); (7406, 7411);
    (7413, 7414); (7418, 7418); (7424, 7615); (7680, 7957); (7960, 7965); (7968, 8005);
    (8008, 8013); (8016, 8023); (8025, 8025); (8027, 8027); (8029, 8029); (8031, 8061);
    (8064, 8116); (8118, 8124); (8126, 8126); (8130, 8132); (8134, 8140); (8144, 8147);
    (8150, 8155); (8160, 8172); (8178, 8180); (8182, 8188); (8304, 8305); (8308, 8313);
    (8319, 8329); (8336, 8348); (8450, 8450); (8455, 8455); (8458, 8467); (8469, 8469);
    (8473, 8477); (8484, 8484); (8486, 8486); (8488, 8488); (8490, 8493); (8495, 8505);
    (8508, 8511); (8517, 8521); (8526, 8526); (8528, 8585); (9312, 9371); (9450, 9471);
    (10102, 10131); (11264, 11492); (11499, 11502); (11506, 11507); (11517, 11517);
    (11520, 11557); (11559, 11559); (11565, 11565); (11568, 11623); (11631, 11631);
    (11648, 11670); (11680, 11686); (11688, 11694); (11696, 11702); (11704, 11710);
    (11712, 11718); (11720, 11726); (11728, 11734); (11736, 11742); (11823, 11823);
    (12293, 12295); (12321, 12329); (12337, 12341); (12344, 12348); (12353, 12438);
    (12445, 12447); (12449, 12538); (12540, 12543); (12549, 12591); (12593, 12686);
    (12690, 12693); (12704, 12735); (12784, 12799); (12832, 12841); (12872, 12879);
    (12881, 12895); (12928, 12937); (12977, 12991); (13312, 19903); (19968, 42124);
    (42192, 42237); (42240, 42508); (42512, 42539); (42560, 42606); (42623, 42653);
    (42656, 42735); (42775, 42783); (42786, 42888); (42891, 42954); (42960, 42961);
    (42963, 42963); (42965, 42969); (42994, 43009); (43011, 43013); (43015, 43018);
    (43020, 43042); (43056, 43061); (43072, 43123); (43138, 43187); (43216, 43225);
    (43250, 43255); (43259, 43259); (43261, 43262); (43264, 43301); (43312, 43334);
    (43360, 43388); (43396, 43442); (43471, 43481); (43488, 43492); (43494, 43518);
    (43520, 43560); (43584, 43586); (43588, 43595); (43600, 43609); (43616, 43638);
    (43642, 43642); (43646, 43695); (43697, 43697); (43701, 43702); (43705, 43709);
    (43712, 43712); (43714, 43714); (43739, 43741); (43744, 43754); (43762, 43764);
    (43777, 43782); (43785, 43790); (43793, 43798); (43808, 43814); (43816, 43822);
    (43824, 43866); (43868, 43881); (43888, 44002); (44016, 44025); (44032, 55203);
    (55216, 55238); (55243, 55291); (63744, 64109); (64112, 64217); (64256, 64262);
    (64275, 64279); (64285, 64285); (64287, 64296); (64298, 64310); (64312, 64316);
    (64318, 64318); (64320, 64321); (64323, 64324); (64326, 64433); (64467, 64829);
    (64848, 64911); (64914, 64967); (65008, 65019); (65136, 65140); (65142, 65276);
    (65296, 65305); (65313, 65338); (65345, 65370); (65382, 65470); (65474, 65479);
    (65482, 65487); (65490, 65495); (65498, 65500); (65536, 65547); (65549, 65574);
    (65576, 65594); (65596, 65597); (65599, 65613); (65616, 65629); (65664, 65786);
    (65799, 65843); (65856, 65912); (65930, 65931); (66176, 66204); (66208, 66256);
    (66273, 66299); (66304, 66339); (66349, 66378); (66384, 66421); (66432, 66461);
    (66464, 66499); (66504, 66511); (66513, 66517); (66560, 66717); (66720, 66729);
    (66736, 66771); (66776, 66811); (66816, 66855); (66864, 66915); (66928, 66938);
    (66940, 66954); (66956, 66962); (66964, 66965); (66967, 66977); (66979, 66993);
    (66995, 67001); (67003, 67004); (67072, 67382); (67392, 67413); (67424, 67431);
    (67456, 67461); (67463, 67504); (67506, 67514); (67584, 67589); (67592, 67592);
    (67594, 67637); (67639, 67640); (67644, 67644); (67647, 67669); (67672, 67702);
    (67705, 67742); (67751, 67759); (67808, 67826); (67828, 67829); (67835, 67867);
    (67872, 67897); (67968, 68023); (68028, 68047); (68050, 68096); (68112, 68115);
    (68117, 68119); (68121, 68149); (68160, 68168); (68192, 68222); (68224, 68255);
    (68288, 68295); (68297, 68324); (68331, 68335); (68352, 68405); (68416, 68437);
    (68440, 68466); (68472, 68497); (68521, 68527); (68608, 68680); (68736, 68786);
    (68800, 68850); (68858, 68899); (68912, 68921); (69216, 69246); (69248, 69289);
    (69296, 69297); (69376, 69415); (69424, 69445); (69457, 69460); (69488, 69505);
    (69552, 69579); (69600, 69622); (69635, 69687); (69714, 69743); (69745, 69746);
    (69749, 69749); (69763, 69807); (69840, 69864); (69872, 69881); (69891, 69926);
    (69942, 69951); (69956, 69956); (69959, 69959); (69968, 70002); (70006, 70006);
    (70019, 70066); (70081, 70084); (70096, 70106); (70108, 70108); (70113, 70132);
    (70144, 70161); (70163, 70187); (70272, 70278); (70280, 70280); (70282, 70285);
    (70287, 70301); (70303, 70312); (70320, 70366); (70384, 70393); (70405, 70412);
    (70415, 70416); (70419, 70440); (70442, 70448); (70450, 70451); (70453, 70457);
    (70461, 70461); (70480, 70480); (70493, 70497); (70656, 70708); (70727, 70730);
    (70736, 70745); (70751, 70753); (70784, 70831); (70852, 70853); (70855, 70855);
    (70864, 70873); (71040, 71086); (71128, 71131); (71168, 71215); (71236, 71236);
    (71248, 71257); (71296, 71338); (71352, 71352); (71360, 71369); (71424, 71450);
    (71472, 71483); (71488, 71494); (71680, 71723); (71840, 71922); (71935, 71942);
    (71945, 71945); (71948, 71955); (71957, 71958); (71960, 71983); (71999, 71999);
    (72001, 72001); (72016, 72025); (72096, 72103); (72106, 72144); (72161, 72161);
    (72163, 72163); (72192, 72192); (72203, 72242); (72250, 72250); (72272, 72272);
    (72284, 72329); (72349, 72349); (72368, 72440); (72704, 72712); (72714, 72750);
    (72768, 72768); (72784, 72812); (72818, 72847); (72960, 72966); (72968, 72969);
    (72971, 73008); (73030, 73030); (73040, 73049); (73056, 73061); (73063, 73064);
    (73066, 73097); (73112, 73112); (73120, 73129); (73440, 73458); (73648, 73648);
    (73664, 73684); (73728, 74649); (74752, 74862); (74880, 75075); (77712, 77808);
    (77824, 78894); (82944, 83526); (92160, 92728); (92736, 92766); (92768, 92777);
    (92784, 92862); (92864, 92873); (92880, 92909); (92928, 92975); (92992, 92995);
    (93008, 93017); (93019, 93025); (93027, 93047); (93053, 93071); (93760, 93846);
    (93952, 94026); (94032, 94032); (94099, 94111); (94176, 94177); (94179, 94179);
    (94208, 100343); (100352, 101589); (101632, 101640); (110576, 110579); (110581, 110587);
    (110589, 110590); (110592, 110882); (110928, 110930); (110948, 110951);
    (110960, 111355); (113664, 113770); (113776, 113788); (113792, 113800);
    (113808, 113817); (119520, 119539); (119648, 119672); (119808, 119892);
    (119894, 119964); (119966, 119967); (119970, 119970); (119973, 119974);
    (119977, 119980); (119982, 119993); (119995, 119995); (119997, 120003);
    (120005, 120069); (120071, 120074); (120077, 120084); (120086, 120092);
    (120094, 120121); (120123, 120126); (120128, 120132); (120134, 120134);
    (120138, 120144); (120146, 120485); (120488, 120512); (120514, 120538);
    (120540, 120570); (120572, 120596); (120598, 120628); (120630, 120654);
    (120656, 120686); (120688, 120712); (120714, 120744); (120746, 120770);
    (120772, 120779); (120782, 120831); (122624, 122654); (123136, 123180);
    (123191, 123197); (123200, 123209); (123214, 123214); (123536, 123565);
    (123584, 123627); (123632, 123641); (124896, 124902); (124904, 124907);
    (124909, 124910); (124912, 124926); (124928, 125124); (125127, 125135);
    (125184, 125251); (125259, 125259); (125264, 125273); (126065, 126123);
    (126125, 126127); (126129, 126132); (126209, 126253); (126255, 126269);
    (126464, 126467); (126469, 126495); (126497, 126498); (126500, 126500);
    (126503, 126503); (126505, 126514); (126516, 126519); (126521, 126521);
    (126523, 126523); (126530, 126530); (126535, 126535); (126537, 126537);
    (126539, 126539); (126541, 126543); (126545, 126546); (126548, 126548);
    (126551, 126551); (126553, 126553); (126555, 126555); (126557, 126557);
    (126559, 126559); (126561, 126562); (126564, 126564); (126567, 126570);
    (126572, 126578); (126580, 126583); (126585, 126588); (126590, 126590);
    (126592, 126601); (126603, 126619); (126625, 126627); (126629, 126633);
    (126635, 126651); (127232, 127244); (130032, 130041); (131072, 173791);
    (173824, 177976); (177984, 178205); (178208, 183969); (183984, 191456);
    (194560, 195101); (196608, 201546) ].

(** Membership in a table of ranges in ascending order. *)
Fixpoint in_ranges (rs : list (N * N)) (c : N) : bool :=
  match rs with
  | [] => false
  | (lo, hi) :: rs' =>
      if c <? lo then false else if c <=? hi then true else in_ranges rs' c
  end.

End Unicode.

(** ** Python strings *)

Module PyStr.

Abbreviation pystr := (list N).

Fixpoint bytes_of (s : string) : list N :=
  match s with
  | EmptyString => []
  | String a s' => N_of_ascii a :: bytes_of s'
  end.

(** UTF-8 decoding of a literal (well-formed input only). *)
Fixpoint utf8_decode (bs : list N) : pystr :=
  match bs with
  | [] => []
  | b0 :: r =>
      if b0 <? 128 then b0 :: utf8_decode r
      else if b0 <? 224 then
        match r with
        | b1 :: r1 => ((b0 - 192) * 64 + (b1 - 128)) :: utf8_decode r1
        | _ => []
        end
      else if b0 <? 240 then
        match r with
        | b1 :: b2 :: r2 =>
            ((b0 - 224) * 4096 + (b1 - 128) * 64 + (b2 - 128)) :: utf8_decode r2
        | _ => []
        end
      else
        match r with
        | b1 :: b2 :: b3 :: r3 =>
            ((b0 - 240) * 262144 + (b1 - 128) * 4096 + (b2 - 128) * 64 + (b3 - 128))
              :: utf8_decode r3
        | _ => []
        end
  end.

Definition py (s : string) : pystr := utf8_decode (bytes_of s).

Definition eqb (a b : pystr) : bool := bool_decide (a = b).

(** [s.startswith(p)] *)
Fixpoint startswith (s p : pystr) : bool :=
  match p, s with
  | [], _ => true
  | c :: p', x :: s' => (x =? c) && startswith s' p'
  | _ :: _, [] => false
  end.

(** [sub in s] *)
Fixpoint contains (s sub : pystr) : bool :=
  startswith s sub ||
  match s with
  | [] => false
  | _ :: s' => contains s' sub
  end.

(** [s.endswith(p)] *)
Definition endswith (s p : pystr) : bool := startswith (rev s) (rev p).

(** [any(k in s for k in ks)] *)
Definition contains_any (s : pystr) (ks : list pystr) : bool :=
  existsb (contains s) ks.

Definition is_ascii_upper (c : N) : bool := (65 <=? c) && (c <=? 90).
Definition is_ascii_lower (c : N) : bool := (97 <=? c) && (c <=? 122).
Definition is_ascii_digit (c : N) : bool := (48 <=? c) && (c <=? 57).
Definition is_ascii_alnum (c : N) : bool :=
  is_ascii_upper c || is_ascii_lower c || is_ascii_digit c.
(** [가-힣] *)
Definition is_hangul (c : N) : bool := (44032 <=? c) && (c <=? 55203).

(** The lower-case mapping of one code point out of context; U+0130
    alone maps to two code points. *)
Fixpoint lower_in (t : list (N * N * N * N)) (c : N) : N :=
  match t with
  | [] => c
  | (lo, hi, step, image) :: t' =>
      if c <? lo then c
      else if (c <=? hi) && ((c - lo) mod step =? 0) then image + (c - lo)
      else lower_in t' c
  end.
Definition to_lower_full (c : N) : pystr :=
  if c =? 304 then [105; 775] else [lower_in Unicode.lower_table c].

Definition case_ignorable (c : N) : bool := Unicode.in_ranges Unicode.case_ignorable_table c.
Definition cased (c : N) : bool := Unicode.in_ranges Unicode.cased_table c.

(** No cased letter follows, case-ignorable code points skipped. *)
Fixpoint no_cased_ahead (s : pystr) : bool :=
  match s with
  | [] => true
  | c :: s' => if case_ignorable c then no_cased_ahead s' else negb (cased c)
  end.

(** [s.lower()].  A capital sigma (U+03A3) becomes the final sigma
    U+03C2 when a cased letter precedes it and none follows, and U+03C3
    otherwise; [before] tells whether the nearest code point to the left
    that is not case-ignorable is cased. *)
Fixpoint lower_from (before : bool) (s : pystr) : pystr :=
  match s with
  | [] => []
  | c :: s' =>
      (if c =? 931 then [if before && no_cased_ahead s' then 962 else 963]
       else to_lower_full c)
      ++ lower_from (if case_ignorable c then before else cased c) s'
  end.
Definition lower (s : pystr) : pystr := lower_from false s.

(** [s.upper()] on a token of [[A-Za-z0-9]+]. *)
Definition upper_char (c : N) : N := if is_ascii_lower c then c - 32 else c.
Definition upper (s : pystr) : pystr := map upper_char s.

(** A decimal digit of any script, [\d], and its value. *)
Definition zero_of (c : N) : option N :=
  find (fun z => (z <=? c) && (c <? z + 10)) Unicode.decimal_zeros.
Definition is_decimal (c : N) : bool :=
  match zero_of c with Some _ => true | None => false end.
Definition decimal_value (c : N) : N :=
  match zero_of c with Some z => c - z | None => 0 end.

(** [str.isspace] on one code point, the table of CPython. *)
Definition is_space (c : N) : bool :=
  ((9 <=? c) && (c <=? 13)) || ((28 <=? c) && (c <=? 32)) ||
  (c =? 133) || (c =? 160) || (c =? 5760) ||
  ((8192 <=? c) && (c <=? 8202)) || (c =? 8232) || (c =? 8233) ||
  (c =? 8239) || (c =? 8287) || (c =? 12288).

Fixpoint lstrip (s : pystr) : pystr :=
  match s with
  | c :: s' => if is_space c then lstrip s' else s
  | [] => []
  end.
Definition rstrip (s : pystr) : pystr := rev (lstrip (rev s)).
Definition strip (s : pystr) : pystr := rstrip (lstrip s).

(** [s.isdigit()] and [s.isupper()] on ASCII alphanumeric tokens. *)
Definition isdigit (s : pystr) : bool :=
  negb (bool_decide (s = [])) && forallb is_ascii_digit s.
Definition isupper (s : pystr) : bool :=
  existsb is_ascii_upper s && negb (existsb is_ascii_lower s).

(** [sep.join(xs)] *)
Fixpoint join (sep : pystr) (xs : list pystr) : pystr :=
  match xs with
  | [] => []
  | [x] => x
  | x :: xs' => x ++ sep ++ join sep xs'
  end.

(** [int(s)] on a run of decimal digits. *)
Definition int_of_digits (s : pystr) : Z :=
  fold_left (fun acc c => (acc * 10 + Z.of_N (decimal_value c))%Z) s 0%Z.

(** [str(n)] for a natural number, most significant digit first. *)
Fixpoint digits_fuel (fuel : nat) (n : N) (acc : pystr) : pystr :=
  match fuel with
  | O => acc
  | S f =>
      let acc' := (48 + n mod 10) :: acc in
      if n <? 10 then acc' else digits_fuel f (n / 10) acc'
  end.
Definition str_of_N (n : N) : pystr := digits_fuel (S (N.to_nat (N.log2 n))) n [].

End PyStr.
Export PyStr.

(** ** Regular expressions

    The fragment of Python's [re] that the source uses, with the
    backtracking semantics of the library: alternatives are tried left
    to right, repetition is greedy, [search] returns the leftmost
    match. *)

Module Re.

Inductive re : Type :=
| Eps
| Lit (c : N)
| Cls (p : N -> bool)
| Seq (r1 r2 : re)
| Alt (r1 r2 : re)
| Star (r : re)
| Grp (i : nat) (r : re)
| Bol
| Eol.

(** Captured groups, most recent first. *)
Definition caps := list (nat * pystr).

Section Run.
Context {R : Type}.

(** [run r pos s c k]: match [r] at offset [pos], where [s] is the rest
    of the subject, then continue with [k]. *)
Fixpoint run (r : re) (pos : nat) (s : pystr) (c : caps)
    (k : nat -> pystr -> caps -> option R) {struct r} : option R :=
  match r with
  | Eps => k pos s c
  | Lit a =>
      match s with
      | x :: s' => if x =? a then k (S pos) s' c else None
      | [] => None
      end
  | Cls p =>
      match s with
      | x :: s' => if p x then k (S pos) s' c else None
      | [] => None
      end
  | Seq r1 r2 => run r1 pos s c (fun pos' s' c' => run r2 pos' s' c' k)
  | Alt r1 r2 =>
      match run r1 pos s c k with
      | Some x => Some x
      | None => run r2 pos s c k
      end
  | Star r1 =>
      (fix loop (n : nat) (pos : nat) (s : pystr) (c : caps) : option R :=
         match n with
         | O => k pos s c
         | S n' =>
             match run r1 pos s c
                     (fun pos' s' c' =>
                        if (pos <? pos')%nat then loop n' pos' s' c' else None) with
             | Some x => Some x
             | None => k pos s c
             end
         end) (length s) pos s c
  | Grp i r1 =>
      run r1 pos s c (fun pos' s' c' => k pos' s' ((i, take (pos' - pos) s) :: c'))
  | Bol => if (pos =? 0)%nat then k pos s c else None
  | Eol =>
      match s with
      | [] => k pos s c
      | [10] => k pos s c
      | _ => None
      end
  end.
End Run.

(** What the pattern means: [matches r pos w rest] when [r] matches the
    word [w] at offset [pos], with [rest] the text after it. *)
Inductive matches : re -> nat -> pystr -> pystr -> Prop :=
| M_Eps pos rest : matches Eps pos [] rest
| M_Lit a pos rest : matches (Lit a) pos [a] rest
| M_Cls p x pos rest : p x = true -> matches (Cls p) pos [x] rest
| M_Seq r1 r2 pos w1 w2 rest :
    matches r1 pos w1 (w2 ++ rest) ->
    matches r2 (pos + length w1)%nat w2 rest ->
    matches (Seq r1 r2) pos (w1 ++ w2) rest
| M_AltL r1 r2 pos w rest : matches r1 pos w rest -> matches (Alt r1 r2) pos w rest
| M_AltR r1 r2 pos w rest : matches r2 pos w rest -> matches (Alt r1 r2) pos w rest
| M_Star0 r pos rest : matches (Star r) pos [] rest
| M_StarS r pos w1 w2 rest :
    w1 <> [] ->
    matches r pos w1 (w2 ++ rest) ->
    matches (Star r) (pos + length w1)%nat w2 rest ->
    matches (Star r) pos (w1 ++ w2) rest
| M_Grp i r pos w rest : matches r pos w rest -> matches (Grp i r) pos w rest
| M_Bol rest : matches Bol 0 [] rest
| M_Eol pos rest : rest = [] \/ rest = [10] -> matches Eol pos [] rest.

(** A continuation whose success does not depend on the groups. *)
Definition blind {R : Type} (k : nat -> pystr -> caps -> option R) : Prop :=
  forall pos s c1 c2, is_Some (k pos s c1) -> is_Some (k pos s c2).

(** A match: start offset, end offset, groups. *)
Record rmatch := mkMatch { m_start : nat; m_end : nat; m_caps : caps }.

Definition match_at (r : re) (pos : nat) (s : pystr) : option rmatch :=
  run r pos s [] (fun pos' _ c => Some (mkMatch pos pos' c)).

(** [re.search] from offset [pos]: the leftmost match. *)
Fixpoint search_from (r : re) (pos : nat) (s : pystr) : option rmatch :=
  match match_at r pos s with
  | Some m => Some m
  | None =>
      match s with
      | [] => None
      | _ :: s' => search_from r (S pos) s'
      end
  end.

Definition search (r : re) (s : pystr) : option rmatch := search_from r 0 s.

(** [re.match]: a match at offset 0 only. *)
Definition rematch (r : re) (s : pystr) : option rmatch := match_at r 0 s.

Definition found (o : option rmatch) : bool :=
  match o with Some _ => true | None => false end.

(** [m.group(i)] for a group that took part in the match. *)
Fixpoint group (c : caps) (i : nat) : pystr :=
  match c with
  | [] => []
  | (j, t) :: c' => if (i =? j)%nat then t else group c' i
  end.

(** [m.group(0)] *)
Definition group0 (s : pystr) (m : rmatch) : pystr :=
  take (m_end m - m_start m) (drop (m_start m) s).

(** Pattern combinators. *)
Fixpoint str (s : pystr) : re :=
  match s with
  | [] => Eps
  | [c] => Lit c
  | c :: s' => Seq (Lit c) (str s')
  end.
Definition lit (s : string) : re := str (py s).
Definition opt (r : re) : re := Alt r Eps.
Definition plus (r : re) : re := Seq r (Star r).
Fixpoint seqs (rs : list re) : re :=
  match rs with
  | [] => Eps
  | [r] => r
  | r :: rs' => Seq r (seqs rs')
  end.
Fixpoint alts (rs : list re) : re :=
  match rs with
  | [] => Cls (fun _ => false)
  | [r] => r
  | r :: rs' => Alt r (alts rs')
  end.
(** [(a|b|c)] over literals *)
Definition words (ws : list string) : re := alts (map lit ws).
(** [.] does not match a newline. *)
Definition dot : re := Cls (fun c => negb (c =? 10)).
(** [\d] *)
Definition digit : re := Cls is_decimal.
Definition space : re := Cls is_space.
(** [[abc]] *)
Definition oneof (s : string) : re :=
  Cls (fun c => existsb (N.eqb c) (py s)).
(** [\d{1,2}] *)
Definition digit12 : re := Seq digit (opt digit).

(** [re.findall] of a repeated character class: the maximal runs. *)
Fixpoint runs_acc (p : N -> bool) (acc : pystr) (s : pystr) : list pystr :=
  match s with
  | [] => match acc with [] => [] | _ => [acc] end
  | x :: s' =>
      if p x then runs_acc p (acc ++ [x]) s'
      else match acc with [] => [] | _ => [acc] end ++ runs_acc p [] s'
  end.
(** [re.findall(r'[p]+', s)] *)
Definition findall_runs (p : N -> bool) (s : pystr) : list pystr := runs_acc p [] s.
(** [re.findall(r'[p]{n,}', s)] *)
Definition findall_runs_min (p : N -> bool) (n : nat) (s : pystr) : list pystr :=
  filter (fun t => (n <= length t)%nat) (findall_runs p s).

(** [re.sub(r, '', s)]: delete every non-overlapping match of a pattern
    that matches no empty string. *)
Fixpoint sub_empty_fuel (fuel : nat) (r : re) (pos : nat) (s : pystr) : pystr :=
  match fuel with
  | O => s
  | S f =>
      match s with
      | [] => []
      | x :: s' =>
          match match_at r pos s with
          | Some m =>
              if (m_start m <? m_end m)%nat
              then sub_empty_fuel f r (m_end m) (drop (m_end m - m_start m) s)
              else x :: sub_empty_fuel f r (S pos) s'
          | None => x :: sub_empty_fuel f r (S pos) s'
          end
      end
  end.
Definition sub_empty (r : re) (s : pystr) : pystr := sub_empty_fuel (length s) r 0 s.

End Re.
Export Re.

(** ** Lifecycle state classifier: [parse_status_from_query] *)

Module Status.

Inductive status : Type := SCHEDULED | RECORDING | COMPLETED | CANCELLED.

#[export] Instance status_eq_dec : EqDecision status.
Proof. solve_decision. Defined.

(** A sentence-final ending [w\??$]. *)
Definition final_ending (w : string) : re := seqs [lit w; opt (lit "?"); Eol].

Definition past_final_endings : list string :=
  ["했어"; "있었어"; "였어"; "더라"; "했나"; "있었나"; "였나"; "됐어"; "했는지"; "있었는지"].

Definition past_adnominal : list string := ["였던"; "했던"].

Definition past_tense_patterns : list re :=
  map final_ending past_final_endings ++
  map (fun w => seqs [lit w; space]) past_adnominal.

Definition future_final_patterns : list re :=
  [ seqs [lit "할"; Star space; lit "거야"; opt (lit "?"); Eol];
    final_ending "할까";
    final_ending "있을까";
    final_ending "될까" ].

Definition future_planned_patterns : list re :=
  [ seqs [lit "할"; Star space; lit "예정"];
    seqs [lit "있을"; Star space; lit "예정"] ].

Definition future_tense_patterns : list re :=
  future_final_patterns ++ future_planned_patterns.

Definition any_search (ps : list re) (s : pystr) : bool :=
  existsb (fun p => found (search p s)) ps.

Definition scheduled_keywords : list pystr :=
  map py ["예정"; "예정된"; "앞으로"; "다가오는"; "예약"; "예약된"; "미래"; "다음"].
Definition completed_keywords : list pystr :=
  map py ["완료"; "완료된"; "끝난"; "지난"; "과거"; "했던"; "했었던"].
Definition recording_keywords : list pystr :=
  map py ["진행중"; "진행 중"; "현재"; "녹화중"; "녹화 중"; "진행되는"; "하는 중"].
Definition cancelled_keywords : list pystr :=
  map py ["취소"; "취소된"; "무산"; "무산된"].

(** Priority 3 of the source: the explicit keyword sets, in order. *)
Definition keyword_status (query_lower : pystr) : option status :=
  if contains_any query_lower scheduled_keywords then Some SCHEDULED
  else if contains_any query_lower completed_keywords then Some COMPLETED
  else if contains_any query_lower recording_keywords then Some RECORDING
  else if contains_any query_lower cancelled_keywords then Some CANCELLED
  else None.

Definition parse_status_from_query (query : pystr) : option status :=
  let query_lower := lower query in
  if any_search past_tense_patterns query_lower then Some COMPLETED
  else if any_search future_tense_patterns query_lower then Some SCHEDULED
  else keyword_status query_lower.

(** The classifier as the specification words it: only sentence-final
    endings count as tense evidence. *)
Definition sentence_final_past (query : pystr) : bool :=
  any_search (map final_ending past_final_endings) (lower query).
Definition sentence_final_future (query : pystr) : bool :=
  any_search future_final_patterns (lower query).
Definition status_as_specified (query : pystr) : option status :=
  if sentence_final_past query then Some COMPLETED
  else if sentence_final_future query then Some SCHEDULED
  else keyword_status (lower query).

(** The evidence the tense patterns look for, said without patterns.
    [w] ends the sentence: after it come at most a question mark and a
    final newline. *)
Definition ends_sentence_with (s w : pystr) : Prop :=
  exists pre q tail,
    s = pre ++ w ++ q ++ tail /\ (q = [] \/ q = py "?") /\ (tail = [] \/ tail = [10%N]).
(** [w] occurs in [s]. *)
Definition occurs (s w : pystr) : Prop := exists pre post, s = pre ++ w ++ post.
(** [w] occurs in [s] followed by a white-space character. *)
Definition occurs_before_space (s w : pystr) : Prop :=
  exists c, is_space c = true /\ occurs s (w ++ [c]).

Definition past_evidence (s : pystr) : Prop :=
  (exists w, w ∈ past_final_endings /\ ends_sentence_with s (py w))
  \/ (exists w, w ∈ past_adnominal /\ occurs_before_space s (py w)).

Definition future_evidence (s : pystr) : Prop :=
  (exists ws, forallb is_space ws = true
              /\ ends_sentence_with s (py "할" ++ ws ++ py "거야"))
  \/ (exists w, w ∈ ["할까"; "있을까"; "될까"] /\ ends_sentence_with s (py w))
  \/ (exists w ws, w ∈ ["할"; "있을"] /\ forallb is_space ws = true
                   /\ occurs s (py w ++ ws ++ py "예정")).

End Status.

(** ** Keyword extractor: [extract_keywords_from_query] *)

Module Keywords.

(** [^(w1|w2|..).*(t1|t2|..)?$] *)
Definition starting (ws tails : list string) : re :=
  seqs [Bol; words ws; Star dot; opt (words tails); Eol].
(** [.+(w1|w2|..)$] (the same language with a leading [^] under [re.match]) *)
Definition ending (ws : list string) : re := seqs [plus dot; words ws; Eol].
(** [^(w1|w2|..)$] *)
Definition exactly (ws : list string) : re := seqs [Bol; words ws; Eol].

Definition meaningless_patterns : list re :=
  [ (* dates and times *)
    starting ["오늘"; "어제"; "모레"; "그제"; "내일"] ["은"; "는"; "에"; "의"; "도"; "만"];
    starting ["이번주"; "지난주"; "다음주"; "저번주"] ["은"; "는"; "에"; "의"; "도"; "만"];
    starting ["이번달"; "지난달"; "다음달"; "저번달"] ["은"; "는"; "에"; "의"; "도"; "만"];
    starting ["최근"; "요즘"; "근래"; "최근에"; "요즘에"] ["은"; "는"; "에"; "의"];
    starting ["올해"; "작년"; "내년"; "재작년"] ["은"; "는"; "에"; "의"];
    seqs [Bol; words ["이번"; "지난"; "다음"; "저번"; "그"; "이"; "저"]; Star dot;
          words ["주"; "달"; "년"; "해"]; Eol];
    (* meeting words on their own *)
    seqs [Bol; words ["회의"; "미팅"; "회의록"; "세미나"; "워크샵"];
          opt (words ["가"; "이"; "은"; "는"; "을"; "를"; "에"; "의"; "있었"; "있나"; "였"; "인"]);
          Eol];
    (* states *)
    starting ["예정"; "완료"; "진행"; "끝난"; "지난"; "과거"; "미래"] ["된"; "되어"; "이"; "인"; "의"];
    starting ["진행중"; "진행"; "완료"; "예정"; "끝"] ["이"; "인"];
    (* interrogatives *)
    starting ["뭐"; "무엇"; "무슨"; "어떤"; "어느"]
             ["가"; "를"; "에"; "야"; "지"; "야"; "였지"; "였어"; "있었지"; "인지"];
    starting ["언제"; "어디"; "누가"; "누구"; "왜"; "어떻게"; "어찌"] ["가"; "를"; "에"; "서"; "인지"];
    starting ["몇"; "얼마"; "어느"] ["개"; "명"; "번"; "시"; "분"; "일"; "인지"];
    (* verb and adjective endings *)
    ending ["었어"; "었나"; "었니"; "었는지"; "었을까"; "었을"; "었던"];
    ending ["있어"; "있나"; "있니"; "있는지"; "있을까"; "있을"; "있는"; "있던"];
    ending ["했어"; "했나"; "했니"; "했는지"; "했을까"; "했을"; "했던"; "함"];
    ending ["이야"; "이니"; "인지"; "일까"; "인가"; "이었"; "이었어"];
    ending ["하는"; "하니"; "할까"; "할지"; "하지"; "한"; "하던"];
    ending ["되는"; "되니"; "될까"; "될지"; "되지"; "된"; "되던"];
    ending ["나"; "니"; "지"; "까"; "가"; "냐"; "냐고"];
    ending ["개야"; "번이야"; "거야"; "거니"; "뭐야"; "뭔가"; "뭐지"; "있어"];
    (* time spans *)
    exactly ["동안"; "사이"; "중"; "때"; "무렵"; "경"; "쯤"; "간"; "시"; "분"; "초"];
    starting ["년"; "월"; "일"; "주"] ["간"; "동안"; "사이"; "중"; "에"; "에는"; "에도"];
    (* particles *)
    seqs [Bol; plus dot;
          words ["가"; "이"; "은"; "는"; "을"; "를"; "에"; "의"; "와"; "과"; "로"; "으로"; "부터";
                 "까지"; "만"; "도"; "조차"; "마저"; "부터"; "한테"; "께"; "에게"]; Eol];
    seqs [Bol; plus dot;
          words ["라고"; "이라고"; "라는"; "이라는"; "처럼"; "같이"; "마냥"; "듯이"; "대로"]; Eol];
    seqs [Bol; plus dot; words ["에서"; "에게"; "한테서"; "로부터"]; Eol];
    seqs [Bol; plus dot; words ["동안"; "사이"; "중"; "까지"]; Eol];
    (* demonstratives and pronouns *)
    starting ["이"; "그"; "저"; "요"; "저것"; "이것"; "그것"] ["가"; "이"; "은"; "는"; "을"; "를"];
    starting ["여기"; "거기"; "저기"; "어디"] ["서"; "에"; "로"; "가"];
    exactly ["이렇게"; "그렇게"; "저렇게"; "어떻게"];
    (* adverbs *)
    exactly ["좀"; "약간"; "조금"; "많이"; "아주"; "완전"; "정말"; "진짜"; "매우"; "꽤"; "제법";
             "대단히"; "상당히"; "굉장히"; "엄청"; "너무"; "되게"; "무척"; "퍽"; "참"];
    exactly ["아마"; "혹시"; "만약"; "절대"; "결코"; "전혀"; "별로"];
    exactly ["빨리"; "천천히"; "갑자기"; "슬슬"; "서서히"];
    (* connectives *)
    exactly ["그리고"; "그러나"; "하지만"; "그런데"; "근데"; "그래서"; "따라서"; "그러므로";
             "그렇지만"; "그치만"];
    exactly ["그럼"; "그래"; "그치"; "맞아"; "맞지"; "응"; "네"; "예"; "아니"];
    (* request verbs *)
    starting ["찾아"; "알려"; "보여"; "말해"; "설명"; "가르쳐"; "검색"; "얘기"; "이야기"]
             ["줘"; "주세요"; "봐"; "주"; "줄래"; "주실래"];
    exactly ["줘"; "아줘"; "해줘"];
    (* existence verbs *)
    seqs [Bol; words ["있"; "없"; "계시"]; plus dot;
          words ["어"; "었어"; "나"; "니"; "을까"; "는지"; "던"; "다"; "십니까"]; Eol];
    exactly ["있어"; "없어"; "없나"; "없니"];
    starting ["하나"; "둘"; "셋"; "한개"; "두개"; "몇개"] ["밖에"; "만"; "뿐"];
    (* guesses *)
    starting ["거"; "것"; "게"] ["야"; "인가"; "인지"; "냐"; "까"];
    exactly ["건가"; "건지"; "거나"; "거든"; "거야"; "걸까"];
    (* recollection *)
    ending ["였더라"; "였지"; "더라"; "였나"; "였어"; "였는지"; "었더라"; "었지"];
    starting ["기억"; "생각"] ["나"; "안나"; "못"; "해"; "하니"];
    (* other stopwords *)
    exactly ["관련"; "대해"; "관해"; "대한"; "관한"];
    exactly ["내용"; "정보"; "사항"; "항목"; "자료"; "데이터"];
    exactly ["전부"; "모두"; "다"; "전체"; "모든"; "각"; "모"];
    exactly ["하나"; "둘"; "셋"; "여러"; "몇몇"];
    exactly ["위해"; "위한"; "대로"; "만큼"; "처럼"] ].

Definition is_meaningless (token : pystr) : bool :=
  existsb (fun pattern => found (rematch pattern token)) meaningless_patterns.

(** [re.search(rf'{token}\s*[월일년]', utterance)] *)
Definition date_digits (token utterance : pystr) : bool :=
  found (search (seqs [str token; Star space; oneof "월일년"]) utterance).

(** The loop over the alphanumeric tokens: what it appends to [tokens]. *)
Fixpoint english_keywords (utterance : pystr) (english_tokens : list pystr) : list pystr :=
  match english_tokens with
  | [] => []
  | token :: rest =>
      if isdigit token && date_digits token utterance
      then english_keywords utterance rest
      else if (2 <=? length token)%nat
      then upper token :: english_keywords utterance rest
      else if isupper token
      then token :: english_keywords utterance rest
      else english_keywords utterance rest
  end.

(** Compound splitting: [token[:-2]] for a token that ends in the word
    for "meeting" or "related" and is longer than it. *)
Definition split_compound (token : pystr) : pystr :=
  if endswith token (py "회의") && (2 <? length token)%nat
  then take (length token - 2) token
  else if endswith token (py "관련") && (2 <? length token)%nat
  then take (length token - 2) token
  else token.

(** [list(dict.fromkeys(l))]: the first occurrence of each key, in order. *)
Fixpoint fromkeys_from (seen : list pystr) (l : list pystr) : list pystr :=
  match l with
  | [] => []
  | x :: l' =>
      if bool_decide (x ∈ seen) then fromkeys_from seen l'
      else x :: fromkeys_from (x :: seen) l'
  end.
Definition fromkeys (l : list pystr) : list pystr := fromkeys_from [] l.

Definition extract_keywords_from_query (utterance : pystr) : list pystr :=
  let tokens := findall_runs_min is_hangul 2 utterance in
  let english_tokens := findall_runs is_ascii_alnum utterance in
  let tokens := tokens ++ english_keywords utterance english_tokens in
  let processed_tokens := map split_compound tokens in
  let keywords := filter (fun token => is_meaningless token = false) processed_tokens in
  fromkeys keywords.

(** The extractor run again on its own output, joined into a sentence. *)
Definition rerun (utterance : pystr) : list pystr :=
  extract_keywords_from_query (join (py " ") (extract_keywords_from_query utterance)).

End Keywords.

(** ** Exceptions *)

Module Exn.

Inductive exn : Type :=
| ValueError | OverflowError | KeyError | IndexError | TypeError | AttributeError
| UnboundLocalError | StoreError (code : Z) | CollaboratorError (code : Z).

Inductive result (A : Type) : Type :=
| Ok (a : A)
| Raise (e : exn).
Arguments Ok {A} a.
Arguments Raise {A} e.

Definition bind {A B : Type} (c : result A) (f : A -> result B) : result B :=
  match c with
  | Ok a => f a
  | Raise e => Raise e
  end.

(** [try: c  except ValueError: h] *)
Definition except_ValueError {A : Type} (c : result A) (h : result A) : result A :=
  match c with
  | Raise ValueError => h
  | _ => c
  end.

(** [try: c  except Exception as e: h e] *)
Definition except_Exception {A : Type} (c : result A) (h : exn -> result A) : result A :=
  match c with
  | Raise e => h e
  | Ok a => Ok a
  end.

Definition returns {A : Type} (c : result A) : Prop := exists a, c = Ok a.

End Exn.
Export Exn.

#[export] Instance result_ret : MRet result := fun A a => Ok a.
#[export] Instance result_bind : MBind result := fun A B f c => bind c f.
#[export] Instance result_fmap : FMap result :=
  fun A B f c => match c with Ok a => Ok (f a) | Raise e => Raise e end.

(** ** The calendar: [datetime] and [timedelta] in whole days *)

Module Calendar.
Local Open Scope Z_scope.

Record datetime : Type := mkDatetime {
  year : Z; month : Z; day : Z;
  hour : Z; minute : Z; second : Z; microsecond : Z }.

#[export] Instance datetime_eq_dec : EqDecision datetime.
Proof. solve_decision. Defined.

Definition MINYEAR : Z := 1.
Definition MAXYEAR : Z := 9999.
Definition MAXORDINAL : Z := 3652059.

Definition is_leap (y : Z) : bool :=
  (y mod 4 =? 0) && (negb (y mod 100 =? 0) || (y mod 400 =? 0)).

Definition days_in_month (y m : Z) : Z :=
  if m =? 2 then (if is_leap y then 29 else 28)
  else if (m =? 4) || (m =? 6) || (m =? 9) || (m =? 11) then 30
  else 31.

(** [_DAYS_BEFORE_MONTH] *)
Definition days_before_month_table (m : Z) : Z :=
  match m with
  | 1 => 0 | 2 => 31 | 3 => 59 | 4 => 90 | 5 => 120 | 6 => 151
  | 7 => 181 | 8 => 212 | 9 => 243 | 10 => 273 | 11 => 304 | 12 => 334
  | _ => 365
  end.

Definition days_before_year (y : Z) : Z :=
  let y1 := y - 1 in y1 * 365 + y1 / 4 - y1 / 100 + y1 / 400.

Definition days_before_month (y m : Z) : Z :=
  days_before_month_table m + (if (2 <? m) && is_leap y then 1 else 0).

Definition ymd2ord (y m d : Z) : Z :=
  days_before_year y + days_before_month y m + d.

(** [_ord2ymd] of the reference implementation. *)
Definition ord2ymd (n : Z) : Z * Z * Z :=
  let n := n - 1 in
  let n400 := n / 146097 in let n := n mod 146097 in
  let y := n400 * 400 + 1 in
  let n100 := n / 36524 in let n := n mod 36524 in
  let n4 := n / 1461 in let n := n mod 1461 in
  let n1 := n / 365 in let n := n mod 365 in
  let y := y + n100 * 100 + n4 * 4 + n1 in
  if (n1 =? 4) || (n100 =? 4) then (y - 1, 12, 31)
  else
    let leapyear := (n1 =? 3) && (negb (n4 =? 24) || (n100 =? 3)) in
    let m := Z.shiftr (n + 50) 5 in
    let preceding := days_before_month_table m + (if (2 <? m) && leapyear then 1 else 0) in
    if n <? preceding then
      let m := m - 1 in
      let preceding :=
        preceding - ((if m =? 2 then 28
                      else if (m =? 4) || (m =? 6) || (m =? 9) || (m =? 11) then 30
                      else 31)
                     + (if (m =? 2) && leapyear then 1 else 0)) in
      (y, m, n - preceding + 1)
    else (y, m, n - preceding + 1).

Definition valid_date (y m d : Z) : bool :=
  (MINYEAR <=? y) && (y <=? MAXYEAR) && (1 <=? m) && (m <=? 12) &&
  (1 <=? d) && (d <=? days_in_month y m).

Definition valid_time (h mi s us : Z) : bool :=
  (0 <=? h) && (h <=? 23) && (0 <=? mi) && (mi <=? 59) &&
  (0 <=? s) && (s <=? 59) && (0 <=? us) && (us <=? 999999).

Definition valid_datetime (t : datetime) : bool :=
  valid_date (year t) (month t) (day t) &&
  valid_time (hour t) (minute t) (second t) (microsecond t).

(** [datetime(y, m, d, h, mi, s)]: raises ValueError on a date that
    does not exist. *)
Definition make_datetime (y m d h mi s : Z) : result datetime :=
  if valid_date y m d && valid_time h mi s 0
  then Ok (mkDatetime y m d h mi s 0)
  else Raise ValueError.

(** [t.replace(hour=h, minute=mi, second=s)] *)
Definition replace_hms (t : datetime) (h mi s : Z) : result datetime :=
  if valid_time h mi s (microsecond t)
  then Ok (mkDatetime (year t) (month t) (day t) h mi s (microsecond t))
  else Raise ValueError.

(** [t.replace(year=y, month=m, day=d)] *)
Definition replace_ymd (t : datetime) (y m d : Z) : result datetime :=
  if valid_date y m d
  then Ok (mkDatetime y m d (hour t) (minute t) (second t) (microsecond t))
  else Raise ValueError.

Definition toordinal (t : datetime) : Z := ymd2ord (year t) (month t) (day t).

(** [t + timedelta(days=n)] *)
Definition add_days (t : datetime) (n : Z) : result datetime :=
  let o := toordinal t + n in
  if (0 <? o) && (o <=? MAXORDINAL)
  then let '(y, m, d) := ord2ymd o in
       Ok (mkDatetime y m d (hour t) (minute t) (second t) (microsecond t))
  else Raise OverflowError.

(** [t.weekday()]: Monday is 0. *)
Definition weekday (t : datetime) : Z := (toordinal t + 6) mod 7.

(** [t.date()] *)
Definition date_of (t : datetime) : Z * Z * Z := (year t, month t, day t).

(** The days of one 400-year cycle, numbered from 0, are read back from
    their dates. *)
Definition cycle_days : Z := 146097.
(** [p] holds of the [n] integers from [z] on. *)
Fixpoint all_from (n : nat) (z : Z) (p : Z -> bool) : bool :=
  match n with
  | O => true
  | S n' => p z && all_from n' (z + 1) p
  end.
Definition cycle_ok : bool :=
  all_from (Z.to_nat cycle_days) 0
           (fun r => let '(y, m, d) := ord2ymd (1 + r) in
                     (ymd2ord y m d =? 1 + r) && valid_date y m d && (y <=? 400)).

(** Microseconds since 0001-01-01T00:00:00. *)
Definition to_microseconds (t : datetime) : Z :=
  ((((toordinal t - 1) * 24 + hour t) * 60 + minute t) * 60 + second t) * 1000000
  + microsecond t.

(** Chronological order. *)
Definition dt_le (a b : datetime) : Prop := to_microseconds a <= to_microseconds b.

End Calendar.

(** ** Temporal expression parser: [parse_date_from_query] *)

Module DateParser.
Import Calendar.
Local Open Scope Z_scope.

Inductive kind : Type := relative | absolute | range.

#[export] Instance kind_eq_dec : EqDecision kind.
Proof. solve_decision. Defined.

(** The [result] dict of the source; [recent_flag] is the key that only
    the "recently" window sets. *)
Record date_info : Type := mkInfo {
  type : option kind;
  start_date : option datetime;
  end_date : option datetime;
  original : option pystr;
  recent_flag : bool }.

Definition no_date : date_info := mkInfo None None None None false.

Definition info (k : kind) (s e : datetime) (o : pystr) : date_info :=
  mkInfo (Some k) (Some s) (Some e) (Some o) false.

Definition str_of_Z (z : Z) : pystr := str_of_N (Z.to_N z).

(** [N월\s*N일] with two groups numbered from [i]. *)
Definition month_day (i : nat) : list re :=
  [Grp i digit12; lit "월"; Star space; Grp (S i) digit12; lit "일"].

Definition range_patterns : list (re * nat) :=
  [ (seqs (month_day 1 ++ [Star space; lit "부터"; Star space] ++ month_day 3), 4%nat);
    (seqs (month_day 1 ++ [Star space; lit "부터"; Star space; lit "오늘"; opt (lit "까지")]), 2%nat);
    (seqs (month_day 1 ++ [Star space; oneof "-~"; Star space] ++ month_day 3), 4%nat);
    (seqs (month_day 1 ++ [Star space; oneof "-~"; Star space; lit "오늘"]), 2%nat) ].

(** [match.groups()] *)
Definition groups (m : rmatch) (n : nat) : list pystr :=
  map (group (m_caps m)) (seq 1 n).

(** The body of the loop over [range_patterns] for one matching pattern:
    [None] when the [try] block ended in [pass]. *)
Definition range_body (today : datetime) (query : pystr) (m : rmatch) (n : nat)
  : result (option date_info) :=
  let gs := groups m n in
  if contains (group0 query m) (py "오늘") then
    match gs with
    | g0 :: g1 :: _ =>
        let start_month := int_of_digits g0 in
        let start_day := int_of_digits g1 in
        let y := year today in
        except_ValueError
          (start ← make_datetime y start_month start_day 0 0 0;
           e ← replace_hms today 23 59 59;
           Ok (Some (info range start e
                 (str_of_Z start_month ++ py "월 " ++ str_of_Z start_day ++ py "일부터 오늘"))))
          (Ok None)
    | _ => Raise IndexError
    end
  else
    match gs with
    | [g0; g1; g2; g3] =>
        let start_month := int_of_digits g0 in
        let start_day := int_of_digits g1 in
        let end_month := int_of_digits g2 in
        let end_day := int_of_digits g3 in
        let y := year today in
        except_ValueError
          (start ← make_datetime y start_month start_day 0 0 0;
           e ← make_datetime y end_month end_day 23 59 59;
           Ok (Some (info range start e
                 (str_of_Z start_month ++ py "월 " ++ str_of_Z start_day ++ py "일부터 "
                  ++ str_of_Z end_month ++ py "월 " ++ str_of_Z end_day ++ py "일"))))
          (Ok None)
    | _ => Raise ValueError
    end.

Fixpoint range_loop (today : datetime) (query : pystr) (ps : list (re * nat))
  : result (option date_info) :=
  match ps with
  | [] => Ok None
  | (pattern, n) :: rest =>
      match search pattern query with
      | Some m =>
          r ← range_body today query m n;
          match r with
          | Some i => Ok (Some i)
          | None => range_loop today query rest
          end
      | None => range_loop today query rest
      end
  end.

(** Last day of the month that [first_of_next] starts, at 23:59:59. *)
Definition day_before_at_end (first_of_next : datetime) : result datetime :=
  d ← add_days first_of_next (-1);
  replace_hms d 23 59 59.

(** The named relative windows. *)
Definition relative_stage (today : datetime) (query : pystr) : result (option date_info) :=
  let has w := contains query (py w) in
  if has "오늘" then
    s ← replace_hms today 0 0 0;
    e ← replace_hms today 23 59 59;
    Ok (Some (info relative s e (py "오늘")))
  else if has "어제" then
    yesterday ← add_days today (-1);
    s ← replace_hms yesterday 0 0 0;
    e ← replace_hms yesterday 23 59 59;
    Ok (Some (info relative s e (py "어제")))
  else if has "이번주" || has "이번 주" then
    start_of_week ← add_days today (- weekday today);
    end_of_week ← add_days start_of_week 6;
    s ← replace_hms start_of_week 0 0 0;
    e ← replace_hms end_of_week 23 59 59;
    Ok (Some (info relative s e (py "이번주")))
  else if has "지난주" || has "지난 주" || has "저번주" || has "저번 주" then
    start_of_last_week ← add_days today (- (weekday today + 7));
    end_of_last_week ← add_days start_of_last_week 6;
    s ← replace_hms start_of_last_week 0 0 0;
    e ← replace_hms end_of_last_week 23 59 59;
    Ok (Some (info relative s e (py "지난주")))
  else if has "이번달" || has "이번 달" then
    d1 ← replace_ymd today (year today) (month today) 1;
    start_of_month ← replace_hms d1 0 0 0;
    end_of_month ←
      (if month today =? 12 then
         d ← replace_ymd today (year today) 12 31;
         replace_hms d 23 59 59
       else
         next_month ← replace_ymd today (year today) (month today + 1) 1;
         day_before_at_end next_month);
    Ok (Some (info relative start_of_month end_of_month (py "이번달")))
  else if has "지난달" || has "지난 달" || has "저번달" || has "저번 달" then
    last_month ←
      (if month today =? 1 then replace_ymd today (year today - 1) 12 1
       else replace_ymd today (year today) (month today - 1) 1);
    start_of_last_month ← replace_hms last_month 0 0 0;
    first ← replace_ymd today (year today) (month today) 1;
    end_of_last_month ← day_before_at_end first;
    Ok (Some (info relative start_of_last_month end_of_last_month (py "지난달")))
  else if has "최근" || has "요즘" then
    last_week ← add_days today (-14);
    s ← replace_hms last_week 0 0 0;
    e ← replace_hms today 23 59 59;
    Ok (Some (mkInfo (Some relative) (Some s) (Some e) (Some (py "최근")) true))
  else Ok None.

(** First and last instant of a month of year [y]; the [try] body shared
    by the month-only and the month-to-month rules. *)
Definition month_end (y m : Z) : result datetime :=
  if m =? 12 then make_datetime y 12 31 23 59 59
  else
    next_month ← make_datetime y (m + 1) 1 0 0 0;
    day_before_at_end next_month.

Definition month_only_pattern : re := seqs [Grp 1 digit12; lit "월"].
Definition month_day_pattern : re :=
  seqs [digit12; lit "월"; Star space; digit12; lit "일"].

Definition month_only_stage (today : datetime) (query : pystr) : result (option date_info) :=
  match search month_only_pattern query with
  | Some m =>
      if contains query (py "월") && negb (found (search month_day_pattern query)) then
        let mo := int_of_digits (group (m_caps m) 1) in
        let y := year today in
        except_ValueError
          (start ← make_datetime y mo 1 0 0 0;
           e ← month_end y mo;
           Ok (Some (info range start e (str_of_Z mo ++ py "월"))))
          (Ok None)
      else Ok None
  | None => Ok None
  end.

Definition digit4 : re := seqs [digit; digit; digit; digit].

(** [date_patterns], with [true] for the pattern that carries a year. *)
Definition date_patterns : list (re * bool) :=
  [ (seqs ([Grp 1 digit4; lit "년"; Star space] ++ month_day 2), true);
    (seqs (month_day 1), false) ].

Fixpoint date_loop (today : datetime) (query : pystr) (ps : list (re * bool))
  : result (option date_info) :=
  match ps with
  | [] => Ok None
  | (pattern, with_year) :: rest =>
      match search pattern query with
      | Some m =>
          let '(y, mo, d) :=
            if with_year
            then (int_of_digits (group (m_caps m) 1), int_of_digits (group (m_caps m) 2),
                  int_of_digits (group (m_caps m) 3))
            else (year today, int_of_digits (group (m_caps m) 1),
                  int_of_digits (group (m_caps m) 2)) in
          r ← except_ValueError
                 (target ← make_datetime y mo d 0 0 0;
                  s ← replace_hms target 0 0 0;
                  e ← replace_hms target 23 59 59;
                  Ok (Some (info absolute s e (group0 query m))))
                 (Ok None);
          match r with
          | Some i => Ok (Some i)
          | None => date_loop today query rest
          end
      | None => date_loop today query rest
      end
  end.

Definition month_range_patterns : list re :=
  [ seqs [Grp 1 digit12; lit "월"; Star space; lit "~"; Star space; Grp 2 digit12; lit "월"];
    seqs [Grp 1 digit12; lit "월부터"; Star space; Grp 2 digit12; lit "월까지"] ].

Fixpoint month_range_loop (today : datetime) (query : pystr) (ps : list re)
  : result (option date_info) :=
  match ps with
  | [] => Ok None
  | pattern :: rest =>
      match search pattern query with
      | Some m =>
          let start_month := int_of_digits (group (m_caps m) 1) in
          let end_month := int_of_digits (group (m_caps m) 2) in
          let y := year today in
          r ← except_ValueError
                 (start ← make_datetime y start_month 1 0 0 0;
                  e ← month_end y end_month;
                  Ok (Some (info range start e (group0 query m))))
                 (Ok None);
          match r with
          | Some i => Ok (Some i)
          | None => month_range_loop today query rest
          end
      | None => month_range_loop today query rest
      end
  end.

(** The rules in the order the source tries them. *)
Definition stages : list (datetime -> pystr -> result (option date_info)) :=
  [ fun today query => range_loop today query range_patterns;
    relative_stage;
    fun today query => range_loop today query range_patterns;
    month_only_stage;
    fun today query => date_loop today query date_patterns;
    fun today query => month_range_loop today query month_range_patterns ].

Fixpoint first_stage (today : datetime) (query : pystr)
    (ss : list (datetime -> pystr -> result (option date_info))) : result date_info :=
  match ss with
  | [] => Ok no_date
  | stage :: rest =>
      r ← stage today query;
      match r with
      | Some i => Ok i
      | None => first_stage today query rest
      end
  end.

(** [today] is [datetime.now()]. *)
Definition parse_date_from_query (today : datetime) (query : pystr) : result date_info :=
  first_stage today query stages.

(** A query of the form "<month>월 <day>일부터 <month2>월 <day2>일". *)
Definition range_query (m1 d1 m2 d2 : Z) : pystr :=
  str_of_Z m1 ++ py "월 " ++ str_of_Z d1 ++ py "일부터 "
  ++ str_of_Z m2 ++ py "월 " ++ str_of_Z d2 ++ py "일".

(** What the first range pattern reads in such a query: the four
    numbers, when the match does not hold the word for "today". *)
Definition range_reading (query : pystr) : option (list Z) :=
  match range_patterns with
  | (pattern, n) :: _ =>
      match search pattern query with
      | Some m =>
          if contains (group0 query m) (py "오늘") then None
          else Some (map int_of_digits (groups m n))
      | None => None
      end
  | [] => None
  end.

Definition months : list Z := seqZ 1 12.
Definition days : list Z := seqZ 1 31.

(** Every pair of a month and a day number is read back from its query. *)
Definition range_readings_ok : bool :=
  forallb (fun m1 => forallb (fun d1 => forallb (fun m2 => forallb (fun d2 =>
    bool_decide (range_reading (range_query m1 d1 m2 d2) = Some [m1; d1; m2; d2]))
    days) months) days) months.

(** [datetime.now()] far enough from the ends of the calendar. *)
Definition sane_now (today : datetime) : Prop :=
  valid_datetime today = true /\ 2 <= year today <= 9998.

End DateParser.

(** ** Python lists: stable sorting *)

Module PyList.

Section Sorted.
Context {A K : Type} (le : K -> K -> bool) (key : A -> K).

Fixpoint insert_sorted (x : A) (l : list A) : list A :=
  match l with
  | [] => [x]
  | y :: l' => if le (key x) (key y) then x :: l else y :: insert_sorted x l'
  end.

(** [sorted(l, key=key)] with [le] the order of the keys; for
    [reverse=True], [le] is the converse order.  The sort is stable. *)
Definition sorted_by (l : list A) : list A := foldr insert_sorted [] l.
End Sorted.

(** [l[i]], raising IndexError out of range. *)
Definition index {A : Type} (l : list A) (i : nat) : result A :=
  match l !! i with
  | Some x => Ok x
  | None => Raise IndexError
  end.

End PyList.
Export PyList.

(** ** Meeting rows and the heap they live in *)

Module Rows.
Import Calendar.

(** A non-negative binary64: the number [m * 2 ^ e], or [float('inf')]. *)
Inductive distance : Type :=
| Finite (m e : Z)
| Infinite.

(** [a <= b] on such floats. *)
Definition distance_le (a b : distance) : bool :=
  match a, b with
  | Finite m1 e1, Finite m2 e2 =>
      let e := Z.min e1 e2 in
      (m1 * 2 ^ (e1 - e) <=? m2 * 2 ^ (e2 - e))%Z
  | Finite _ _, Infinite => true
  | Infinite, Infinite => true
  | Infinite, Finite _ _ => false
  end.

(** [n / d] on Python integers with [0 <= n] and [0 < d]: the binary64
    nearest to the quotient, ties to even, with a mantissa of 53 bits. *)
Definition true_divide (n d : Z) : distance :=
  (if n =? 0 then Finite 0 0
   else
     let s := 55 + Z.log2 d - Z.log2 n in
     let num := if 0 <=? s then n * 2 ^ s else n in
     let den := if 0 <=? s then d else d * 2 ^ (- s) in
     let q := num / den in
     let r := num mod den in
     let extra := Z.log2 q - 52 in
     let m := q / 2 ^ extra in
     let low := q mod 2 ^ extra in
     let half := 2 ^ (extra - 1) in
     let up := (half <? low) || ((low =? half) && (negb (r =? 0) || Z.odd m)) in
     Finite (if up then m + 1 else m) (extra - s))%Z.

(** [abs((a - b).total_seconds())] *)
Definition seconds_between (a b : datetime) : distance :=
  true_divide (Z.abs (to_microseconds a - to_microseconds b)) 1000000.

(** A row of the meeting query, every column a key of the dict ([None]
    is the NULL of the store), and the keys the engine attaches to the
    dict while ranking ([None]: the key is absent). *)
Record meeting : Type := mkMeeting {
  row_id : Z;
  title : option pystr;
  description : option pystr;
  summary : option pystr;
  scheduled_at : option datetime;
  status : pystr;
  relevance_score : option Z;
  time_distance : option distance;
  keyword_score : option Z;
  participants : option (list pystr) }.

Definition set_relevance_score (v : Z) (m : meeting) : meeting :=
  mkMeeting (row_id m) (title m) (description m) (summary m) (scheduled_at m) (status m)
            (Some v) (time_distance m) (keyword_score m) (participants m).
Definition set_time_distance (v : option distance) (m : meeting) : meeting :=
  mkMeeting (row_id m) (title m) (description m) (summary m) (scheduled_at m) (status m)
            (relevance_score m) v (keyword_score m) (participants m).
Definition set_keyword_score (v : Z) (m : meeting) : meeting :=
  mkMeeting (row_id m) (title m) (description m) (summary m) (scheduled_at m) (status m)
            (relevance_score m) (time_distance m) (Some v) (participants m).
Definition set_participants (v : list pystr) (m : meeting) : meeting :=
  mkMeeting (row_id m) (title m) (description m) (summary m) (scheduled_at m) (status m)
            (relevance_score m) (time_distance m) (keyword_score m) (Some v).

(** A row as the store returns it. *)
Definition fetched (i : Z) (t d s : option pystr) (at_ : option datetime) (st : pystr)
  : meeting :=
  mkMeeting i t d s at_ st None None None None.

(** References to dicts. *)
Abbreviation loc := nat.
Abbreviation heap := (gmap nat meeting).

Definition read (h : heap) (l : loc) : result meeting :=
  match h !! l with
  | Some m => Ok m
  | None => Raise TypeError
  end.

(** Every reference of the list denotes a dict. *)
Definition live (h : heap) (ms : list loc) : Prop :=
  forall l, l ∈ ms -> is_Some (h !! l).

(** [m['relevance_score']], [m['time_distance']] *)
Definition get_relevance_score (m : meeting) : result Z :=
  match relevance_score m with Some v => Ok v | None => Raise KeyError end.
Definition get_time_distance (m : meeting) : result distance :=
  match time_distance m with Some v => Ok v | None => Raise KeyError end.

(** [x or ''] *)
Definition or_empty (x : option pystr) : pystr := default [] x.

(** A computation that reads and updates dicts and may raise; the heap
    it leaves is part of the outcome, also when it raises. *)
Definition M (A : Type) : Type := heap -> heap * result A.

#[export] Instance M_ret : MRet M := fun A a h => (h, Ok a).
#[export] Instance M_bind : MBind M := fun A B k c h =>
  match c h with
  | (h', Ok a) => k a h'
  | (h', Raise e) => (h', Raise e)
  end.

(** The dict behind a reference, an update of it, a pure step. *)
Definition get (l : loc) : M meeting := fun h => (h, read h l).
Definition put (l : loc) (m : meeting) : M unit := fun h => (<[l := m]> h, Ok tt).
Definition lift {A : Type} (r : result A) : M A := fun h => (h, r).

End Rows.

(** ** Relevance ranker: [calculate_relevance], [search_with_persona] *)

Module Persona.
Import Calendar Rows.
Local Open Scope Z_scope.

Definition job_keywords (user_job : pystr) : list pystr :=
  if eqb user_job (py "PROJECT_MANAGER") then
    map py ["기획"; "전략"; "로드맵"; "목표"; "계획"; "일정"; "마일스톤";
            "프로젝트"; "pm"; "po"; "스프린트"; "스케줄"; "리소스"]
  else if eqb user_job (py "FRONTEND_DEVELOPER") then
    map py ["프론트엔드"; "프론트"; "ui"; "ux"; "react"; "vue"; "화면";
            "인터페이스"; "디자인"; "frontend"; "fe"; "컴포넌트"; "반응형"]
  else if eqb user_job (py "BACKEND_DEVELOPER") then
    map py ["백엔드"; "backend"; "api"; "서버"; "데이터베이스"; "spring";
            "node"; "개발팀"; "be"; "fastapi"; "rest"; "배포"; "인프라";
            "성능"; "아키텍처"]
  else if eqb user_job (py "DATABASE_ADMINISTRATOR") then
    map py ["데이터베이스"; "database"; "db"; "sql"; "쿼리"; "최적화";
            "인덱스"; "mysql"; "데이터"; "dba"; "스키마"; "마이그레이션"]
  else if eqb user_job (py "SECURITY_DEVELOPER") then
    map py ["보안"; "security"; "취약점"; "암호화"; "인증"; "권한";
            "ssl"; "방화벽"; "점검"; "보안점검"; "취약점점검"]
  else [].

(** The +10 / +5 / +3 weighting of one keyword against a row. *)
Definition keyword_points (t s d keyword_lower : pystr) : Z :=
  (if contains t keyword_lower then 10 else 0)
  + (if negb (bool_decide (s = [])) && contains s keyword_lower then 5 else 0)
  + (if negb (bool_decide (d = [])) && contains d keyword_lower then 3 else 0).

Definition calculate_relevance (m : meeting) (user_job : pystr) : Z :=
  let keywords := job_keywords user_job in
  let t := lower (or_empty (title m)) in
  let d := lower (or_empty (description m)) in
  let s := lower (or_empty (summary m)) in
  fold_left (fun score keyword => score + keyword_points t s d (lower keyword)) keywords 0.

(** [abs((scheduled_at - current_time).total_seconds())], or
    [float('inf')] for a row without a schedule. *)
Definition distance_from (current_time : datetime) (at_ : option datetime) : distance :=
  match at_ with
  | Some t => seconds_between t current_time
  | None => Infinite
  end.

(** Step 1 of the ranker, for one row: attach the two keys. *)
Definition decorate (current_time : datetime) (user_job : pystr) (m : meeting) : meeting :=
  set_time_distance (Some (distance_from current_time (scheduled_at m)))
    (set_relevance_score (calculate_relevance m user_job) m).

Fixpoint decorate_all (current_time : datetime) (user_job : pystr) (ms : list loc)
  : M unit :=
  match ms with
  | [] => mret tt
  | l :: rest =>
      m ← get l;
      _ ← put l (decorate current_time user_job m);
      decorate_all current_time user_job rest
  end.

(** [int(len(scores) * 0.3)]: the product is within an ulp of 3n/10 and
    never rounds across an integer, so the truncation is the quotient. *)
Definition threshold_index (n : nat) : nat := (3 * n / 10)%nat.

(** A reference with the two keys read from its dict. *)
Definition keyed : Type := loc * Z * distance.
Definition k_loc (x : keyed) : loc := x.1.1.
Definition k_score (x : keyed) : Z := x.1.2.
Definition k_distance (x : keyed) : distance := x.2.

Definition read_keys (l : loc) : M keyed :=
  m ← get l;
  s ← lift (get_relevance_score m);
  d ← lift (get_time_distance m);
  mret (l, s, d).

Fixpoint read_all (ms : list loc) : M (list keyed) :=
  match ms with
  | [] => mret []
  | l :: rest =>
      x ← read_keys l;
      xs ← read_all rest;
      mret (x :: xs)
  end.

(** Step 2: the threshold the two tiers are split at. *)
Definition threshold_of (xs : list keyed) : Z :=
  let scores := sorted_by Z.geb (fun s => s) (map k_score xs) in
  default 0 (scores !! threshold_index (length scores)).

Definition high_relevance (xs : list keyed) : list keyed :=
  filter (fun x => threshold_of xs <= k_score x) xs.
Definition low_relevance (xs : list keyed) : list keyed :=
  filter (fun x => k_score x < threshold_of xs) xs.

(** Steps 3 to 5: the final order. *)
Definition final_sorted (xs : list keyed) : list keyed :=
  sorted_by distance_le k_distance (high_relevance xs)
  ++ sorted_by Z.geb k_score (low_relevance xs).

(** [int(m['time_distance'] / 86400)] of the report on the first three
    rows: an infinite distance has an infinite quotient, which has no
    integer; the integer of a finite one is only printed. *)
Definition days_diff (time_distance : distance) : result unit :=
  match time_distance with
  | Finite _ _ => Ok tt
  | Infinite => Raise OverflowError
  end.

Fixpoint report_after (ms : list loc) : M unit :=
  match ms with
  | [] => mret tt
  | l :: rest =>
      m ← get l;
      d ← lift (get_time_distance m);
      _ ← lift (days_diff d);
      report_after rest
  end.

(** The closing loop: [del meeting['time_distance']]. *)
Fixpoint strip_all (ms : list loc) : M unit :=
  match ms with
  | [] => mret tt
  | l :: rest =>
      m ← get l;
      _ ← put l (set_time_distance None m);
      strip_all rest
  end.

Definition search_with_persona (current_time : datetime) (meetings : list loc)
    (user_job : pystr) : M (list loc) :=
  _ ← decorate_all current_time user_job meetings;
  xs ← read_all meetings;
  let final := map k_loc (final_sorted xs) in
  _ ← report_after (take 3 final);
  _ ← strip_all final;
  mret final.

(** A row as the ranker leaves it: the score attached, the distance
    removed. *)
Definition ranked_row (user_job : pystr) (m : meeting) : meeting :=
  set_time_distance None (set_relevance_score (calculate_relevance m user_job) m).

(** The order as the specification words it: the tiers are split at the
    30th percentile of the scores, the score at index [int(0.3 n)] of the
    ascending score list, so that the tier sorted by time holds the top
    70% and the tier sorted by score the bottom 30%. *)
Definition percentile_30 (xs : list keyed) : Z :=
  let scores := sorted_by Z.leb (fun s => s) (map k_score xs) in
  default 0 (scores !! threshold_index (length scores)).
Definition order_as_specified (xs : list keyed) : list keyed :=
  sorted_by distance_le k_distance (filter (fun x => percentile_30 xs <= k_score x) xs)
  ++ sorted_by Z.geb k_score (filter (fun x => k_score x < percentile_30 xs) xs).
Definition ranking_as_specified (current_time : datetime) (meetings : list loc)
    (user_job : pystr) : M (list loc) :=
  _ ← decorate_all current_time user_job meetings;
  xs ← read_all meetings;
  mret (map k_loc (order_as_specified xs)).

End Persona.

(** ** [difflib.SequenceMatcher(None, a, b).ratio()] *)

Module Difflib.

(** [b2j]: the indices of [b] at which [x] occurs, ascending. *)
Definition indices_of (b : pystr) (x : N) : list nat :=
  map fst (filter (fun p => bool_decide (p.2 = x)) (zip (seq 0 (length b)) b)).

(** With [autojunk], an element that fills more than 1% of a sequence
    of 200 elements or more is dropped from [b2j]. *)
Definition popular (b : pystr) (x : N) : bool :=
  let n := length b in
  (200 <=? n)%nat && (n / 100 + 1 <? length (indices_of b x))%nat.

Definition b2j (b : pystr) (x : N) : list nat :=
  if popular b x then [] else indices_of b x.

(** [j2len.get(j, 0)] *)
Fixpoint j2len_get (j2len : list (nat * nat)) (j : nat) : nat :=
  match j2len with
  | [] => 0
  | (j', k) :: rest => if (j =? j')%nat then k else j2len_get rest j
  end.

Definition best : Type := nat * nat * nat.

(** The inner loop of [find_longest_match] over the occurrences of
    [a[i]] in [b]: returns [newj2len] and the best block so far. *)
Fixpoint scan_js (i blo bhi : nat) (j2len : list (nat * nat)) (js : list nat)
    (newj2len : list (nat * nat)) (bst : best) : list (nat * nat) * best :=
  match js with
  | [] => (newj2len, bst)
  | j :: rest =>
      if (j <? blo)%nat then scan_js i blo bhi j2len rest newj2len bst
      else if (bhi <=? j)%nat then (newj2len, bst)
      else
        let k := S (match j with O => 0 | S j' => j2len_get j2len j' end) in
        let bst' := if (bst.2 <? k)%nat then ((i + 1 - k)%nat, (j + 1 - k)%nat, k) else bst in
        scan_js i blo bhi j2len rest ((j, k) :: newj2len) bst'
  end.

Fixpoint scan_is (a b : pystr) (blo bhi : nat) (is_ : list nat)
    (j2len : list (nat * nat)) (bst : best) : best :=
  match is_ with
  | [] => bst
  | i :: rest =>
      match a !! i with
      | Some x =>
          let '(newj2len, bst') := scan_js i blo bhi j2len (b2j b x) [] bst in
          scan_is a b blo bhi rest newj2len bst'
      | None => bst
      end
  end.

(** The two extension loops over matching elements on either side (no
    element is junk when [isjunk] is [None]). *)
Fixpoint extend_left (fuel : nat) (a b : pystr) (alo blo : nat) (bst : best) : best :=
  match fuel with
  | O => bst
  | S f =>
      let '(bi, bj, bk) := bst in
      if (alo <? bi)%nat && (blo <? bj)%nat &&
         bool_decide (a !! (bi - 1)%nat = b !! (bj - 1)%nat)
      then extend_left f a b alo blo ((bi - 1)%nat, (bj - 1)%nat, S bk)
      else bst
  end.

Fixpoint extend_right (fuel : nat) (a b : pystr) (ahi bhi : nat) (bst : best) : best :=
  match fuel with
  | O => bst
  | S f =>
      let '(bi, bj, bk) := bst in
      if (bi + bk <? ahi)%nat && (bj + bk <? bhi)%nat &&
         bool_decide (a !! (bi + bk)%nat = b !! (bj + bk)%nat)
      then extend_right f a b ahi bhi (bi, bj, S bk)
      else bst
  end.

Definition find_longest_match (a b : pystr) (alo ahi blo bhi : nat) : best :=
  let bst := scan_is a b blo bhi (seq alo (ahi - alo)) [] (alo, blo, 0%nat) in
  let bst := extend_left (length a) a b alo blo bst in
  extend_right (length a) a b ahi bhi bst.

(** [get_matching_blocks], as the tree of the sub-ranges the work queue
    of the source visits; the terminating dummy block is left out. *)
Fixpoint matching_blocks (fuel : nat) (a b : pystr) (alo ahi blo bhi : nat) : list best :=
  match fuel with
  | O => []
  | S f =>
      let '(i, j, k) := find_longest_match a b alo ahi blo bhi in
      match k with
      | O => []
      | S _ =>
          (i, j, k)
          :: (if (alo <? i)%nat && (blo <? j)%nat
              then matching_blocks f a b alo i blo j else [])
          ++ (if (i + k <? ahi)%nat && (j + k <? bhi)%nat
              then matching_blocks f a b (i + k)%nat ahi (j + k)%nat bhi else [])
      end
  end.

(** The number of matched elements, [M]. *)
Definition matches (a b : pystr) : nat :=
  foldr (fun x acc => (x.2 + acc)%nat) 0%nat
        (matching_blocks (S (length a)) a b 0 (length a) 0 (length b)).

Definition float_of_nat (n : nat) : float := PrimFloat.of_uint63 (Uint63.of_Z (Z.of_nat n)).

(** [_calculate_ratio]: [2.0 * matches / length], or [1.0] for two empty
    sequences; binary64 arithmetic. *)
Definition ratio (a b : pystr) : float :=
  let len := (length a + length b)%nat in
  match len with
  | O => 1%float
  | S _ => (2 * float_of_nat (matches a b) / float_of_nat len)%float
  end.

(** The same ratio as an exact fraction (numerator, denominator). *)
Definition exact_ratio (a b : pystr) : Z * Z :=
  let len := (length a + length b)%nat in
  match len with
  | O => (1, 1)%Z
  | S _ => (2 * Z.of_nat (matches a b), Z.of_nat len)%Z
  end.

End Difflib.

(** ** Search orchestrator: statements, scoring, relaxation ladder *)

Module Search.
Import Calendar Rows DateParser.
Local Open Scope Z_scope.

(** A bound parameter of a statement. *)
Inductive param : Type :=
| PStr (s : pystr)
| PTime (t : datetime)
| PInt (z : Z).

#[export] Instance param_eq_dec : EqDecision param.
Proof. solve_decision. Defined.

(** The fixed head of a statement, up to its layout:
    - [MeetingsWhere]: SELECT m.*, mr.summary, mr.agenda, mr.purpose,
      mr.importance_level, mr.importance_reason FROM meeting m LEFT JOIN
      meeting_result mr ON m.id = mr.meeting_id INNER JOIN participant p
      ON m.id = p.meeting_id WHERE 1=1
    - [MeetingsOfRequester]: the same with WHERE p.name = %s
    - [CountWhere]: SELECT COUNT(DISTINCT m.id) as count over the same
      joins, WHERE 1=1
    - [Literal text]: a statement given by its whole text *)
Inductive head : Type :=
| MeetingsWhere | MeetingsOfRequester | CountWhere
| Literal (text : pystr).

#[export] Instance head_eq_dec : EqDecision head.
Proof. solve_decision. Defined.

(** A statement under construction: the text appended to the head and
    the parameter list. *)
Record statement : Type := mkStatement {
  st_head : head;
  st_text : pystr;
  st_params : list param }.

#[export] Instance statement_eq_dec : EqDecision statement.
Proof. solve_decision. Defined.

(** [query += text; params.extend(ps)] *)
Definition add (text : string) (ps : list param) (q : statement) : statement :=
  mkStatement (st_head q) (st_text q ++ py text) (st_params q ++ ps).
Definition add_text (text : pystr) (ps : list param) (q : statement) : statement :=
  mkStatement (st_head q) (st_text q ++ text) (st_params q ++ ps).
Definition add_if (b : bool) (text : string) (ps : list param) (q : statement) : statement :=
  if b then add text ps q else q.

(** Truth value of an optional string. *)
Definition truthy (x : option pystr) : bool :=
  match x with
  | Some (_ :: _) => true
  | _ => false
  end.

(** One keyword group and its three parameters. *)
Definition keyword_group : pystr :=
  py "(m.title LIKE %s OR m.description LIKE %s OR mr.summary LIKE %s)".
Definition like (keyword : pystr) : param := PStr (py "%" ++ keyword ++ py "%").
Definition keyword_params (keywords : list pystr) : list param :=
  flat_map (fun keyword => [like keyword; like keyword; like keyword]) keywords.

(** [keyword_conditions]: one group for each keyword. *)
Definition keyword_groups (keywords : list pystr) : list pystr :=
  map (fun _ => keyword_group) keywords.

(** [" AND (" + joiner.join(keyword_conditions) + ")"] *)
Definition add_keywords (joiner : string) (keywords : list pystr) (q : statement) : statement :=
  add_text (py " AND (" ++ join (py joiner) (keyword_groups keywords) ++ py ")")
           (keyword_params keywords) q.

Definition add_date_bounds (date_info : option date_info) (q : statement) : statement :=
  let q :=
    match date_info with
    | Some di =>
        match start_date di with
        | Some s => add " AND scheduled_at >= %s" [PTime s] q
        | None => q
        end
    | None => q
    end in
  match date_info with
  | Some di =>
      match end_date di with
      | Some e => add " AND scheduled_at <= %s" [PTime e] q
      | None => q
      end
  | None => q
  end.

(** [datetime.now().replace(hour=0, minute=0, second=0, microsecond=0)] *)
Definition midnight (now : datetime) : datetime :=
  mkDatetime (year now) (month now) (day now) 0 0 0 0.

(** The bounds collapse to exactly "today". *)
Definition is_today_query (now : datetime) (date_info : option date_info) : bool :=
  match date_info with
  | Some di =>
      match start_date di, end_date di with
      | Some s, Some e =>
          bool_decide (date_of s = date_of e) && bool_decide (date_of e = date_of now)
      | _, _ => false
      end
  | None => false
  end.

(** The lifecycle condition of the primary statement. *)
Definition add_status (now : datetime) (status : option pystr) (today_query : bool)
    (q : statement) : statement :=
  match status with
  | Some st =>
      if truthy status && negb today_query then
        if eqb st (py "SCHEDULED")
        then add " AND status = %s AND scheduled_at >= %s" [PStr st; PTime (midnight now)] q
        else if eqb st (py "COMPLETED")
        then add " AND status = %s AND scheduled_at < %s" [PStr st; PTime (midnight now)] q
        else add " AND status = %s" [PStr st] q
      else q
  | None => q
  end.

(** Rung 0: the primary statement. *)
Definition primary_statement (now : datetime) (user_name : option pystr)
    (keywords : list pystr) (date_info : option date_info) (status : option pystr)
    (selected_meeting_id : option Z) : statement :=
  let q := mkStatement MeetingsWhere [] [] in
  let q := match user_name with
           | Some n => if truthy user_name then add " AND p.name = %s" [PStr n] q else q
           | None => q
           end in
  let q := match keywords with
           | [] => q
           | _ => if (1 <? length keywords)%nat
                  then add_keywords " AND " keywords q
                  else add_keywords " OR " keywords q
           end in
  let q := add_date_bounds date_info q in
  let q := add_status now status (is_today_query now date_info) q in
  let q := match selected_meeting_id with
           | Some i => if i =? 0 then q else add " AND m.id = %s" [PInt i] q
           | None => q
           end in
  add " GROUP BY m.id ORDER BY scheduled_at DESC LIMIT 50" [] q.

(** Rung 1: the statement of the first relaxation. *)
Definition rung1_statement (user_name : option pystr) (keywords : list pystr)
    (date_info : option date_info) : statement :=
  let q := mkStatement MeetingsWhere [] [] in
  let q := match user_name with
           | Some n => if truthy user_name then add " AND p.name = %s" [PStr n] q else q
           | None => q
           end in
  let q := match keywords with
           | [] => q
           | _ => add_keywords " OR " keywords q
           end in
  let q := add_date_bounds date_info q in
  add " GROUP BY m.id ORDER BY scheduled_at DESC LIMIT 50" [] q.

(** [status_kr.get(s, s)] and [status_kr.get(s, '')] *)
Definition status_kr (s : pystr) : option pystr :=
  if eqb s (py "COMPLETED") then Some (py "완료된")
  else if eqb s (py "SCHEDULED") then Some (py "예정된")
  else if eqb s (py "RECORDING") then Some (py "진행중")
  else None.
Definition status_label (s : pystr) : pystr := default s (status_kr s).

(** The message of rung 1 for a single row found. *)
Definition rung1_single_message (status : option pystr) (found_status detail : pystr) : pystr :=
  match status with
  | Some st =>
      if truthy status then
        py "❌ " ++ status_label st ++ py " 회의는 없어요.

하지만 " ++ found_status ++ py " 회의가 있습니다! 📌

" ++ detail ++ py "

이 회의를 확인해보시겠어요?"
      else
        py "✅ " ++ found_status ++ py " 회의를 찾았어요! 📌

" ++ detail ++ py "

이 회의를 확인해보시겠어요?"
  | None =>
        py "✅ " ++ found_status ++ py " 회의를 찾았어요! 📌

" ++ detail ++ py "

이 회의를 확인해보시겠어요?"
  end.

(** The message of rung 1 for several rows; [statuses] is
    [list(set(m['status'] for m in meetings_fallback))]. *)
Definition rung1_found_status_text (status : option pystr) (statuses : list pystr) : pystr :=
  let statuses :=
    match status with
    | Some st => if truthy status
                 then filter (fun s => s <> st) statuses
                 else statuses
    | None => statuses
    end in
  let found_statuses := map status_label statuses in
  match found_statuses with
  | [] => py "다른"
  | _ => join (py "/") found_statuses
  end.

Definition rung1_multi_message (status : option pystr) (statuses : list pystr)
    (detail : pystr) : pystr :=
  let found_status_text := rung1_found_status_text status statuses in
  match status with
  | Some st =>
      if truthy status then
        py "❌ " ++ status_label st ++ py " 회의는 없어요.

하지만 " ++ found_status_text ++ py " 회의들이 있습니다! 📋

" ++ detail
      else py "✅ " ++ found_status_text ++ py " 회의들을 찾았어요! 📋

" ++ detail
  | None => py "✅ " ++ found_status_text ++ py " 회의들을 찾았어요! 📋

" ++ detail
  end.

(** *** Keyword-match scoring and collapse-to-single *)

(** [meeting.get('title', '').lower()]: a NULL title has no [lower]. *)
Definition title_lower (m : meeting) : result pystr :=
  match title m with
  | Some t => Ok (lower t)
  | None => Raise AttributeError
  end.

Definition keyword_match_score (keywords : list pystr) (m : meeting) : Z :=
  let t := lower (or_empty (title m)) in
  let d := lower (or_empty (description m)) in
  let s := lower (or_empty (summary m)) in
  fold_left
    (fun score keyword =>
       score + (if contains t (lower keyword) then 10 else 0)
             + (if contains s (lower keyword) then 5 else 0)
             + (if contains d (lower keyword) then 3 else 0))
    keywords 0.

Definition score_of (m : meeting) : Z := default 0 (keyword_score m).

(** [re.sub(r'회의|미팅', '', text).strip()] *)
Definition remove_meeting_word (text : pystr) : pystr :=
  strip (sub_empty (words ["회의"; "미팅"]) text).

(** [max(l, key)]: the first element with the greatest key. *)
Fixpoint max_by {A : Type} (key : A -> float) (x : A) (l : list A) : A :=
  match l with
  | [] => x
  | y :: l' => if PrimFloat.ltb (key x) (key y) then max_by key y l' else max_by key x l'
  end.

Definition float_ge (a b : float) : bool := PrimFloat.leb b a.

#[warnings="-inexact-float"]
Definition similarity_floor : float := 0.7%float.
#[warnings="-inexact-float"]
Definition similarity_gap : float := 0.2%float.

(** The collapse step on the scored, sorted rows. *)
Definition collapse_to_single (user_query : pystr) (meetings : list meeting)
  : result (list meeting) :=
  match meetings with
  | m0 :: _ :: _ =>
      let user_query_clean := remove_meeting_word (strip (lower user_query)) in
      similarities ←
        mapM (fun m =>
                t ← title_lower m;
                let title_original := strip t in
                let title_clean := remove_meeting_word title_original in
                Ok (m, Difflib.ratio user_query_clean title_clean))
             meetings;
      match similarities with
      | s0 :: rest =>
          let best_match := max_by snd s0 rest in
          let best_ratio := best_match.2 in
          if float_ge best_ratio similarity_floor then
            second ← index (sorted_by float_ge snd similarities) 1;
            let ratio_diff := (best_ratio - second.2)%float in
            if float_ge ratio_diff similarity_gap
            then Ok [best_match.1]
            else Ok meetings
          else Ok meetings
      | [] => Raise ValueError
      end
  | _ => Ok meetings
  end.

(** The keyword branch: score every row, sort by score, collapse. *)
Definition keyword_rank (user_query : pystr) (keywords : list pystr)
    (meetings : list meeting) : result (list meeting) :=
  let scored := map (fun m => set_keyword_score (keyword_match_score keywords m) m) meetings in
  let sorted := sorted_by Z.geb score_of scored in
  collapse_to_single user_query sorted.

End Search.

(** ** The engine's collaborators and its entry points *)

Module Engine.
Import Calendar Rows DateParser Search.
Local Open Scope Z_scope.

(** What [parse_query_intent] of the language-model client returns. *)
Record parsed : Type := mkParsed {
  p_intent : option pystr;
  p_keywords : option (list pystr);
  p_date_range : option pystr;
  p_status : option pystr }.

(** The collaborators of the engine.  Each call may raise.

    Modelled from the spec: [get_db_connection] of
    [chatbotSearch/database.py], which is not part of the sources: a
    context manager that yields a connection, or a false value when the
    store cannot be reached, releases the connection on exit and lets
    the exceptions of its body through.  [connect n] tells whether the
    [n]-th [with get_db_connection()] of a request yields a connection. *)
Record env : Type := mkEnv {
  ENABLE_PERSONA : bool;
  now : datetime;
  connect : nat -> bool;
  (* the store: one function for each statement shape the engine executes *)
  select_user_name : Z -> result (option pystr);
  select_participant_names : result (list pystr);
  select_meetings : statement -> result (list meeting);
  select_participants : Z -> result (list pystr);
  select_titles : option Z -> result (list pystr);
  select_count : statement -> result (option Z);
  select_test_count : result unit;
  (* formatting *)
  format_single_meeting : meeting -> result pystr;
  format_single_meeting_with_persona : meeting -> pystr -> result pystr;
  format_multiple_meetings_short :
    list meeting -> pystr -> option nat -> option date_info -> option pystr -> result pystr;
  (* the language-model client *)
  parse_query_intent : pystr -> result parsed;
  (* iteration order of [set(xs)]: some enumeration of its elements *)
  set_iteration : list pystr -> list pystr }.

(** [list(set(xs))] enumerates the distinct elements of [xs], in an
    order of its own. *)
Definition set_like (e : env) : Prop :=
  forall xs, NoDup (set_iteration e xs) /\ forall x, x ∈ set_iteration e xs <-> x ∈ xs.

(** What an entry point hands back: a [(message, records)] tuple, the
    count object of the statistics path, or [None]. *)
Inductive pyvalue : Type :=
| Pair (message : pystr) (records : list meeting)
| CountObject (count : Z) (meetings : list meeting)
| PyNone.

Definition pair_shaped (v : result pyvalue) : Prop :=
  exists message records, v = Ok (Pair message records).

(** The two shapes the entry points build: every [return] of the search
    entry point is a tuple; the statistics variant returns its count
    object or [None]. *)
Definition answer : Type := pystr * list meeting.
Definition count_answer : Type := option (Z * list meeting).

Definition value_of_answer (a : answer) : pyvalue := Pair a.1 a.2.
Definition value_of_count (a : count_answer) : pyvalue :=
  match a with
  | Some (count, meetings) => CountObject count meetings
  | None => PyNone
  end.

(** [search_with_persona] on rows fresh from the store: each row is its
    own dict, held by the list alone. *)
Definition rank_rows (now : datetime) (rows : list meeting) (user_job : pystr)
  : result (list meeting) :=
  let ls := seq 0 (length rows) in
  let h : heap := list_to_map (zip ls rows) in
  let '(h', r) := Persona.search_with_persona now ls user_job h in
  final ← r;
  mapM (read h') final.

(** [if ENABLE_PERSONA and user_job and len(meetings) > 1: ...] *)
Definition persona_sorted (e : env) (user_job : option pystr) (meetings : list meeting)
  : result (list meeting) :=
  match user_job with
  | Some job =>
      if ENABLE_PERSONA e && truthy user_job && (1 <? length meetings)%nat
      then rank_rows (now e) meetings job
      else Ok meetings
  | None => Ok meetings
  end.

(** [len(meetings) if len(meetings) > n else None] *)
Definition total_over (n : nat) (meetings : list meeting) : option nat :=
  if (n <? length meetings)%nat then Some (length meetings) else None.

Definition single_detail (e : env) (user_job : option pystr) (m : meeting) : result pystr :=
  match user_job with
  | Some job =>
      if ENABLE_PERSONA e && truthy user_job
      then format_single_meeting_with_persona e m job
      else format_single_meeting e m
  | None => format_single_meeting e m
  end.

(** [str(x)] of an optional string inside an f-string. *)
Definition str_opt (x : option pystr) : pystr := default (py "None") x.

Definition original_of (date_info : option date_info) : option pystr :=
  match date_info with
  | Some di => original di
  | None => None
  end.

(** *** The requester lookup *)

(** The block under [if user_id:], on the first connection of the
    request: the name of the requester and the other participants named
    in the query. *)
Definition lookup_requester (e : env) (user_query : pystr) (user_id : Z)
  : result (option pystr * list pystr) :=
  if connect e 0 then
    user_name ← select_user_name e user_id;
    all_participant_names ← select_participant_names e;
    Ok (user_name,
        filter (fun name => contains user_query name
                            && negb (bool_decide (Some name = user_name)))
               all_participant_names)
  else Ok (None, []).

(** *** List-style request *)

Definition list_patterns : list pystr :=
  map py ["뭐"; "목록"; "리스트"; "전체"; "모든"; "다"; "보여"; "알려"; "있어"; "있나"; "있니"].

Definition is_list_request (user_query : pystr) : bool :=
  let query_lower := lower user_query in
  contains_any query_lower (map py ["회의"; "미팅"])
  && contains_any query_lower list_patterns
  && (length user_query <=? 20)%nat.

(** The statement head of the listing paths with the requester and the
    other participants named in the query. *)
Definition requester_statement (user_name : pystr) (participant_names_in_query : list pystr)
  : statement :=
  let q := mkStatement MeetingsOfRequester [] [PStr user_name] in
  match participant_names_in_query with
  | [] => q
  | _ =>
      add_text
        (py " AND m.id IN (SELECT meeting_id FROM participant WHERE name IN ("
         ++ join (py ", ") (map (fun _ => py "%s") participant_names_in_query) ++ py "))")
        (map PStr participant_names_in_query) q
  end.

Definition list_statement (user_name : option pystr) (participant_names_in_query : list pystr)
    (list_keywords : list pystr) (date_info : option date_info) (status : option pystr)
  : result statement :=
  match user_name with
  | Some n =>
      if truthy user_name then
        let q := requester_statement n participant_names_in_query in
        let q := match list_keywords with
                 | [] => q
                 | _ => add_keywords " OR " list_keywords q
                 end in
        match date_info with
        | None => Raise AttributeError
        | Some di =>
            let q := match start_date di with
                     | Some s => add " AND m.scheduled_at >= %s" [PTime s] q
                     | None => q
                     end in
            let q := match end_date di with
                     | Some t => add " AND m.scheduled_at <= %s" [PTime t] q
                     | None => q
                     end in
            let q := match status with
                     | Some st => if truthy status then add " AND m.status = %s" [PStr st] q
                                  else q
                     | None => q
                     end in
            Ok (add " GROUP BY m.id ORDER BY m.scheduled_at DESC LIMIT 20" [] q)
        end
      else
        match list_keywords, date_info with
        | [], None => Raise AttributeError
        | _, _ => Raise UnboundLocalError
        end
  | None =>
      match list_keywords, date_info with
      | [], None => Raise AttributeError
      | _, _ => Raise UnboundLocalError
      end
  end.

Definition attach_participants (e : env) (m : meeting) : result meeting :=
  names ← select_participants e (row_id m);
  Ok (set_participants names m).

Definition list_request (e : env) (user_query : pystr) (date_info : option date_info)
    (status user_job user_name : option pystr) (participant_names_in_query : list pystr)
  : result answer :=
  let list_keywords := Keywords.extract_keywords_from_query user_query in
  q ← list_statement user_name participant_names_in_query list_keywords date_info status;
  meetings ← select_meetings e q;
  meetings ← mapM (attach_participants e) meetings;
  match meetings with
  | [] =>
      match original_of date_info with
      | Some (c :: o) => Ok (py "❌ " ++ (c :: o) ++ py "에 회의가 없어요.", [])
      | _ => Ok (py "아직 회의가 없어요! 😊", [])
      end
  | _ =>
      meetings ← persona_sorted e user_job meetings;
      match meetings with
      | [m] =>
          meeting_detail ← single_detail e user_job m;
          Ok (meeting_detail, meetings)
      | _ =>
          message ← format_multiple_meetings_short e (take 10 meetings) user_query
                      (total_over 10 meetings) date_info None;
          Ok (message, meetings)
      end
  end.

(** *** Date-only request *)

Definition date_only_statement (user_name : option pystr)
    (participant_names_in_query : list pystr) (date_info : date_info) : result statement :=
  match user_name with
  | Some n =>
      if truthy user_name then
        let q := requester_statement n participant_names_in_query in
        let q := add_date_bounds (Some date_info) q in
        Ok (add " GROUP BY m.id ORDER BY scheduled_at DESC LIMIT 20" [] q)
      else Raise UnboundLocalError
  | None => Raise UnboundLocalError
  end.

Definition date_only_request (e : env) (user_query : pystr) (date_info : date_info)
    (user_job user_name : option pystr) (participant_names_in_query : list pystr)
  : result answer :=
  q ← date_only_statement user_name participant_names_in_query date_info;
  meetings ← select_meetings e q;
  _ ← match meetings with
      | [] => select_test_count e
      | _ => Ok tt
      end;
  match meetings with
  | [] => Ok (py "❌ " ++ str_opt (original date_info) ++ py "에 회의가 없어요.", [])
  | _ =>
      meetings ← persona_sorted e user_job meetings;
      message ← format_multiple_meetings_short e (take 10 meetings) user_query
                  (total_over 10 meetings) (Some date_info) None;
      Ok (message, meetings)
  end.


(** *** Statistics variant: [search_meeting_count], [format_count_result] *)

(** [s.replace(old, new)] for a non-empty [old]. *)
Fixpoint replace_fuel (fuel : nat) (s old new : pystr) : pystr :=
  match fuel with
  | O => s
  | S f =>
      match s with
      | [] => []
      | x :: s' =>
          if startswith s old
          then new ++ replace_fuel f (drop (length old) s) old new
          else x :: replace_fuel f s' old new
      end
  end.
Definition replace (s old new : pystr) : pystr := replace_fuel (length s) s old new.

Definition joins_text : pystr :=
  py " FROM meeting m LEFT JOIN meeting_result mr ON m.id = mr.meeting_id INNER JOIN participant p ON m.id = p.meeting_id".
Definition columns_text : pystr :=
  py "SELECT m.*, mr.summary, mr.agenda, mr.purpose, mr.importance_level, mr.importance_reason".

Definition head_text (h : head) : pystr :=
  match h with
  | MeetingsWhere => columns_text ++ joins_text ++ py " WHERE 1=1"
  | MeetingsOfRequester => columns_text ++ joins_text ++ py " WHERE p.name = %s"
  | CountWhere => py "SELECT COUNT(DISTINCT m.id) as count" ++ joins_text ++ py " WHERE 1=1"
  | Literal text => text
  end.

(** The text handed to [cursor.execute]. *)
Definition full_text (q : statement) : pystr := head_text (st_head q) ++ st_text q.

Definition count_statement (now : datetime) (keywords : list pystr)
    (date_info : option date_info) (status user_name : option pystr) : result statement :=
  let q := mkStatement CountWhere [] [] in
  let q := match user_name with
           | Some n => if truthy user_name then add " AND p.name = %s" [PStr n] q else q
           | None => q
           end in
  let q := match keywords with
           | [] => q
           | _ => add_keywords " OR " keywords q
           end in
  match date_info with
  | None => Raise AttributeError
  | Some di =>
      let q := add_date_bounds date_info q in
      let user_specified_date := bool_decide (type di <> None) in
      match status with
      | Some st =>
          if truthy status then
            if eqb st (py "SCHEDULED") then
              let q := add " AND status = %s" [PStr st] q in
              Ok (add_if (negb user_specified_date) " AND scheduled_at >= %s"
                         [PTime (midnight now)] q)
            else if eqb st (py "COMPLETED") then
              let q := add " AND status = %s" [PStr st] q in
              Ok (add_if (negb user_specified_date) " AND scheduled_at < %s"
                         [PTime (midnight now)] q)
            else Ok (add " AND status = %s" [PStr st] q)
          else Ok q
      | None => Ok q
      end
  end.

(** The detail statement: the count statement after
    [.replace("COUNT( * ) as count", "scheduled_at, title, ...")], ordered. *)
Definition detail_statement (q : statement) : statement :=
  mkStatement
    (Literal (replace (full_text q) (py "COUNT(*) as count")
                (py "scheduled_at, title, description, summary, id, status, host_user_id")))
    (py " ORDER BY scheduled_at DESC") (st_params q).

Definition count_body (e : env) (keywords : list pystr) (date_info : option date_info)
    (status user_job user_name : option pystr) : result count_answer :=
  q ← count_statement (now e) keywords date_info status user_name;
  r ← select_count e q;
  let count := default 0 r in
  meetings ← select_meetings e (detail_statement q);
  meetings ←
    match keywords with
    | [] => persona_sorted e user_job meetings
    | _ => Ok meetings
    end;
  Ok (Some (count, meetings)).

(** [conn]: the index of the connection this call opens. *)
Definition search_meeting_count (e : env) (conn : nat) (keywords : list pystr)
    (date_info : option date_info) (status user_job user_name : option pystr)
  : result count_answer :=
  if connect e conn then
    except_Exception (count_body e keywords date_info status user_job user_name)
                     (fun _ => Ok None)
  else Ok None.

(** [%m], [%d] of [strftime] *)
Definition pad2 (z : Z) : pystr :=
  if z <? 10 then py "0" ++ str_of_Z z else str_of_Z z.

(** A line of the list; [m.get('title', '제목없음')] is the title of any
    row that has the key, [None] included. *)
Definition count_line (m : meeting) : pystr :=
  let date_str :=
    match scheduled_at m with
    | Some t => pad2 (month t) ++ py "월 " ++ pad2 (day t) ++ py "일"
    | None => py "날짜미정"
    end in
  py "- " ++ str_opt (title m) ++ py " (" ++ date_str ++ py ")".

Definition format_count_result (count : Z) (meetings : list meeting) : answer :=
  if count =? 0 then (py "해당 조건의 회의를 찾을 수 없었어요. 😢", [])
  else
    let date_summary := join (py "
") (map count_line (take 10 meetings)) in
    (py "총 " ++ str_of_Z count ++ py "개의 회의가 있어요! 📊

" ++ date_summary ++ py "

" ++ (if 10 <? count then py "..." else []), meetings).


(** *** The primary search and the relaxation ladder *)

(** The exact-title check on a result of several rows. *)
Fixpoint exact_title_loop (user_query_lower : pystr) (all rest : list meeting)
  : result (list meeting) :=
  match rest with
  | [] => Ok all
  | m :: rest' =>
      t ← title_lower m;
      if eqb user_query_lower (strip t) then Ok [m]
      else exact_title_loop user_query_lower all rest'
  end.

Definition exact_title (user_query : pystr) (meetings : list meeting)
  : result (list meeting) :=
  if (1 <? length meetings)%nat
  then exact_title_loop (strip (lower user_query)) meetings meetings
  else Ok meetings.

(** Exactly one ranking mode applies. *)
Definition ranked (e : env) (user_query : pystr) (keywords : list pystr)
    (user_job : option pystr) (meetings : list meeting) : result (list meeting) :=
  match keywords with
  | _ :: _ =>
      if (1 <? length meetings)%nat then keyword_rank user_query keywords meetings
      else persona_sorted e user_job meetings
  | [] => persona_sorted e user_job meetings
  end.

(** Rung 1: drop the lifecycle state. *)
Definition rung1 (e : env) (user_query : pystr) (keywords : list pystr)
    (date_info : option date_info) (status user_job user_name : option pystr)
  : result (option answer) :=
  if truthy status then
    meetings_fallback ← select_meetings e (rung1_statement user_name keywords date_info);
    match meetings_fallback with
    | [] => Ok None
    | [m] =>
        detail ← single_detail e user_job m;
        Ok (Some (rung1_single_message status (status_label (Rows.status m)) detail,
                  meetings_fallback))
    | _ =>
        let statuses := set_iteration e (map Rows.status meetings_fallback) in
        detail ← format_multiple_meetings_short e (take 5 meetings_fallback) user_query
                   (total_over 5 meetings_fallback) date_info None;
        Ok (Some (rung1_multi_message status statuses detail, meetings_fallback))
    end
  else Ok None.

(** Fuzzy correction of one keyword against the words of the titles. *)
Definition best_word (keyword : pystr) (all_words : list pystr) : option pystr :=
  (fold_left
     (fun acc word =>
        let ratio := Difflib.ratio keyword word in
        if PrimFloat.ltb acc.2 ratio && float_ge ratio similarity_floor
        then (Some word, ratio) else acc)
     all_words (None, 0%float)).1.

Definition correct_keyword (e : env) (user_id : option Z) (keyword : pystr) : result pystr :=
  all_titles ← select_titles e (match user_id with
                               | Some uid => if uid =? 0 then None else Some uid
                               | None => None
                               end);
  let all_words := set_iteration e (flat_map (findall_runs is_hangul) all_titles) in
  Ok (default keyword (best_word keyword all_words)).

(** The filter on filler and calendar-unit words. *)
Definition meaningful (keywords : list pystr) : list pystr :=
  let ks := filter (fun k => negb (bool_decide
              (k ∈ map py ["있어"; "없어"; "뭐"; "거"; "것"; "회의"]))) keywords in
  filter (fun k => negb (contains_any k (map py ["일"; "월"; "주"; "년"]))) ks.

Definition rung2_statement (user_name : option pystr) (meaningful_keywords : list pystr)
    (status : option pystr) : statement :=
  let q := mkStatement MeetingsWhere [] [] in
  let q := match user_name with
           | Some n => if truthy user_name then add " AND p.name = %s" [PStr n] q else q
           | None => q
           end in
  let q := add_keywords " OR " meaningful_keywords q in
  let q := match status with
           | Some st => if truthy status then add " AND status = %s" [PStr st] q else q
           | None => q
           end in
  add " GROUP BY m.id ORDER BY scheduled_at DESC LIMIT 50" [] q.

(** [s.split('\n')] *)
Fixpoint split_lines_acc (acc : pystr) (s : pystr) : list pystr :=
  match s with
  | [] => [acc]
  | c :: s' => if (c =? 10)%N then acc :: split_lines_acc [] s'
               else split_lines_acc (acc ++ [c]) s'
  end.
Definition split_lines (s : pystr) : list pystr := split_lines_acc [] s.

(** The header line and the "show the rest" line are cut from the list. *)
Definition strip_header (detail : pystr) : pystr :=
  if startswith detail (py "네, ") then
    join (py "
") (filter (fun line => negb (contains line (py "나머지 보여줘")))
               (drop 1 (split_lines detail)))
  else detail.

Definition rung2_message (date_info : date_info) (status : option pystr)
    (meaningful_keywords : list pystr) (detail : pystr) : pystr :=
  let keyword_str := join (py ", ") meaningful_keywords in
  let original_date := str_opt (original date_info) in
  let status_text := match status with
                     | Some st => if truthy status then default [] (status_kr st) else []
                     | None => []
                     end in
  py "[FALLBACK_SUCCESS]" ++
  py "❌ " ++ original_date ++ py "에 " ++ status_text ++ py " '" ++ keyword_str
  ++ py "' 회의가 없어요. 😢

하지만 다른 날짜에 '" ++ keyword_str ++ py "' 회의가 있어요! 📋
" ++ detail.

(** Rung 2: drop the date, correct the keywords. *)
Definition rung2 (e : env) (user_query : pystr) (keywords : list pystr)
    (date_info : option date_info) (status user_job user_name : option pystr)
    (user_id : option Z) : result (option answer) :=
  match date_info with
  | Some di =>
      match start_date di with
      | Some _ =>
          corrected_keywords ← mapM (correct_keyword e user_id) keywords;
          let meaningful_keywords := meaningful corrected_keywords in
          match meaningful_keywords with
          | [] => Ok None
          | _ =>
              meetings_fallback ←
                select_meetings e (rung2_statement user_name meaningful_keywords status);
              match meetings_fallback with
              | [] => Ok None
              | _ =>
                  meetings_fallback ← persona_sorted e user_job meetings_fallback;
                  except_Exception
                    (detail ← format_multiple_meetings_short e (take 5 meetings_fallback)
                                user_query (total_over 5 meetings_fallback) None status;
                     Ok (Some (rung2_message di status meaningful_keywords
                                             (strip_header detail),
                               meetings_fallback)))
                    (fun _ => Ok None)
              end
          end
      | None => Ok None
      end
  | None => Ok None
  end.

(** The message of the final failure, by the most specific context. *)
Definition final_failure (keywords : list pystr) (date_info : option date_info)
    (status : option pystr) : pystr :=
  let date_str := original_of date_info in
  match keywords with
  | [] =>
      if truthy date_str then
        match status with
        | Some st =>
            if truthy status
            then py "❌ " ++ str_opt date_str ++ py "에 " ++ status_label st ++ py " 회의가 없어요."
            else py "❌ " ++ str_opt date_str ++ py "에 회의가 없어요."
        | None => py "❌ " ++ str_opt date_str ++ py "에 회의가 없어요."
        end
      else
        match status with
        | Some st =>
            if truthy status then py "❌ " ++ status_label st ++ py " 회의가 없어요."
            else py "❌ 회의를 찾을 수 없어요."
        | None => py "❌ 회의를 찾을 수 없어요."
        end
  | _ =>
      match meaningful keywords with
      | [] =>
          if truthy date_str then py "❌ " ++ str_opt date_str ++ py "에 회의가 없어요."
          else py "❌ 조건에 맞는 회의를 찾을 수 없어요."
      | keyword_str_list =>
          let keyword_str := join (py ", ") keyword_str_list in
          if truthy date_str
          then py "❌ " ++ str_opt date_str ++ py " '" ++ keyword_str ++ py "' 관련 회의가 없어요."
          else py "❌ '" ++ keyword_str ++ py "' 관련 회의를 찾을 수 없어요."
      end
  end.

(** From the primary statement to the answer. *)
Definition ladder (e : env) (user_query : pystr) (keywords : list pystr)
    (date_info : option date_info) (status user_job : option pystr)
    (selected_meeting_id user_id : option Z) (user_name : option pystr)
  : result answer :=
  meetings ← select_meetings e
    (primary_statement (now e) user_name keywords date_info status selected_meeting_id);
  meetings ← exact_title user_query meetings;
  meetings ← ranked e user_query keywords user_job meetings;
  match meetings with
  | [] =>
      r1 ← rung1 e user_query keywords date_info status user_job user_name;
      match r1 with
      | Some v => Ok v
      | None =>
          r2 ← rung2 e user_query keywords date_info status user_job user_name user_id;
          match r2 with
          | Some v => Ok v
          | None => Ok (final_failure keywords date_info status, [])
          end
      end
  | [m] =>
      let date_prefix :=
        match original_of date_info with
        | Some (c :: o) => py "✅ " ++ (c :: o) ++ py "에 진행한 회의는 1개입니다.

"
        | _ => []
        end in
      meeting_detail ← single_detail e user_job m;
      Ok (date_prefix ++ meeting_detail, meetings)
  | _ =>
      message ← format_multiple_meetings_short e meetings user_query
                  (Some (length meetings)) date_info status;
      Ok (message, meetings)
  end.

Definition get_off_topic_response : pystr :=
  py "죄송해요, 저는 회의록 검색 전용 챗봇이에요! 🗂️

다음과 같은 질문만 도와드릴 수 있어요:
✅ 마케팅 회의 있었어?
✅ 이번주 기획 회의록 찾아줘
✅ 디자인 논의 내용 알려줘
✅ 최근 개발 미팅 정리해줘

회의록 검색이 필요하시면 '회의', '미팅', '회의록' 같은
단어와 함께 질문해주세요! 😊".

(** [a or b] on optional strings and on lists *)
Definition or_else (a b : option pystr) : option pystr := if truthy a then a else b.

(** The body of the [try] block of [search_meetings_direct]; [conn] is
    the index of the connection it runs on. *)
Definition search_body (e : env) (conn : nat) (user_query : pystr)
    (date_info : option date_info) (status user_job : option pystr)
    (selected_meeting_id user_id : option Z) (user_name : option pystr)
    (participant_names_in_query : list pystr) : result answer :=
  if is_list_request user_query then
    list_request e user_query date_info status user_job user_name participant_names_in_query
  else
    let keywords := Keywords.extract_keywords_from_query user_query in
    match keywords, truthy status, date_info with
    | [], false, Some di =>
        date_only_request e user_query di user_job user_name participant_names_in_query
    | _, _, _ =>
        let is_count := contains_any user_query (map py ["몇"; "개수"; "횟수"; "번"; "총"]) in
        let needs_llm :=
          bool_decide (keywords = []) || negb (truthy status) || is_count in
        if needs_llm then
          if contains_any user_query (map py ["회의"; "미팅"; "회의록"; "논의"; "발표"; "보고"])
          then
            parsed ← parse_query_intent e user_query;
            if bool_decide (p_intent parsed = Some (py "count_meetings")) then
              result ← search_meeting_count e (S conn)
                         (match keywords with
                          | [] => default [] (p_keywords parsed)
                          | _ => keywords
                          end)
                         date_info (or_else status (p_status parsed)) user_job user_name;
              match result with
              | Some (count, meetings) => Ok (format_count_result count meetings)
              | None => Ok (py "회의를 찾을 수 없었어요. 😢", [])
              end
            else
              let keywords := match keywords with
                              | [] => default [] (p_keywords parsed)
                              | _ => keywords
                              end in
              date_info ←
                match date_info, p_date_range parsed with
                | None, Some (c :: r) =>
                    di ← parse_date_from_query (now e) (c :: r);
                    Ok (Some di)
                | _, _ => Ok date_info
                end;
              let status := or_else status (p_status parsed) in
              ladder e user_query keywords date_info status user_job selected_meeting_id
                     user_id user_name
          else
            match keywords, truthy status with
            | [], false => Ok (get_off_topic_response, [])
            | _, _ =>
                ladder e user_query keywords date_info status user_job selected_meeting_id
                       user_id user_name
            end
        else
          ladder e user_query keywords date_info status user_job selected_meeting_id
                 user_id user_name
    end.

(** The part of [search_meetings_direct] under its main connection. *)
Definition search_guarded (e : env) (conn : nat) (user_query : pystr)
    (date_info : option date_info) (status user_job : option pystr)
    (selected_meeting_id user_id : option Z) (user_name : option pystr)
    (participant_names_in_query : list pystr) : result answer :=
  if connect e conn then
    except_Exception
      (search_body e conn user_query date_info status user_job selected_meeting_id user_id
                   user_name participant_names_in_query)
      (fun _ => Ok (py "검색 중 오류가 발생했어요.", []))
  else Ok (py "데이터베이스 연결 실패", []).

(** The entry point.  The [from .database import get_db_connection]
    inside [if user_id:] makes the name a local of the function: when
    [user_id] is [None] or 0 the import is skipped and the
    [with get_db_connection()] of the main connection, which stands
    before the [try], finds the name unbound.  Otherwise the lookup runs
    on the first connection, outside the [try] as well, and the search
    on the second. *)
Definition search_meetings_direct (e : env) (user_query : pystr)
    (date_info : option date_info) (status user_job : option pystr)
    (selected_meeting_id user_id : option Z) : result answer :=
  match user_id with
  | Some uid =>
      if uid =? 0 then Raise UnboundLocalError
      else
        r ← lookup_requester e user_query uid;
        search_guarded e 1 user_query date_info status user_job
                       selected_meeting_id user_id r.1 r.2
  | None => Raise UnboundLocalError
  end.

End Engine.

(** ** Task/assignee resolver: [search_tasks], [fetch_action_items],
       [merge_tasks_and_actions] *)

Module Tasks.
Local Open Scope Z_scope.

(** A DATE column. *)
Record date : Type := mkDate { d_year : Z; d_month : Z; d_day : Z }.

#[export] Instance date_eq_dec : EqDecision date.
Proof. solve_decision. Defined.

Definition date_lt (a b : date) : bool :=
  (d_year a <? d_year b)
  || ((d_year a =? d_year b)
      && ((d_month a <? d_month b)
          || ((d_month a =? d_month b) && (d_day a <? d_day b)))).
Definition date_le (a b : date) : bool := negb (date_lt b a).

(** Zero-padded decimal of a given width. *)
Definition pad (width : nat) (z : Z) : pystr :=
  let s := str_of_N (Z.to_N z) in
  repeat 48%N (width - length s) ++ s.

(** [str(d)]: ISO format. *)
Definition str_date (d : date) : pystr :=
  pad 4 (d_year d) ++ py "-" ++ pad 2 (d_month d) ++ py "-" ++ pad 2 (d_day d).

(** [a <= b] on strings: lexicographic by code point. *)
Fixpoint str_le (a b : pystr) : bool :=
  match a, b with
  | [], _ => true
  | _ :: _, [] => false
  | x :: a', y :: b' => (x <? y)%N || ((x =? y)%N && str_le a' b')
  end.

(** The tables; the [id] columns are primary keys. *)
Record user : Type := mkUser { u_id : Z; u_name : pystr }.
Record meeting_row : Type := mkMeetingRow { m_id : Z; m_title : pystr; m_host_user_id : Z }.
Record meeting_result : Type := mkMeetingResult { mr_id : Z; mr_meeting_id : Z }.
Record task : Type := mkTask {
  t_id : Z; t_user_id : Z; t_meeting_id : Z; t_title : pystr;
  t_assignee_name : option pystr; t_due_date : option date; t_status : pystr;
  t_updated_at : Z }.
Record action_item : Type := mkActionItem {
  ai_id : Z; ai_task : pystr; ai_assignee_user_id : option Z;
  ai_due_date : option date; ai_is_completed : bool; ai_source : option pystr;
  ai_meeting_result_id : option Z }.

Record db : Type := mkDb {
  users : list user;
  meetings : list meeting_row;
  meeting_results : list meeting_result;
  tasks : list task;
  action_items : list action_item;
  curdate : date }.

(** A row of a task statement or of the action-item statement, in the
    shape [merge_tasks_and_actions] sorts. *)
Record item : Type := mkItem {
  i_id : Z;
  i_title : pystr;
  i_user_id : option Z;
  i_assignee_name : option pystr;
  i_due_date : option date;
  i_status : pystr;
  i_meeting_id : option Z;
  i_meeting_title : option pystr;
  i_source_table : option pystr }.

#[export] Instance item_eq_dec : EqDecision item.
Proof. solve_decision. Defined.

Definition meeting_by_id (d : db) (i : Z) : option meeting_row :=
  find (fun m => m_id m =? i) (meetings d).
Definition user_by_id (d : db) (i : Z) : option user :=
  find (fun u => u_id u =? i) (users d).

(** [SELECT t.*, m.title as meeting_title FROM task t LEFT JOIN meeting m
    ON t.meeting_id = m.id] for one task. *)
Definition task_item (d : db) (t : task) : item :=
  mkItem (t_id t) (t_title t) (Some (t_user_id t)) (t_assignee_name t) (t_due_date t)
         (t_status t) (Some (t_meeting_id t))
         (option_map m_title (meeting_by_id d (t_meeting_id t))) None.

(** [ORDER BY CASE WHEN t.due_date < CURDATE() THEN 0 ELSE 1 END, t.due_date ASC]:
    a NULL date is not overdue and sorts before the dates of its group. *)
Definition overdue_flag (d : db) (due : option date) : Z :=
  match due with
  | Some x => if date_lt x (curdate d) then 0 else 1
  | None => 1
  end.
Definition null_first_le (a b : option date) : bool :=
  match a, b with
  | None, _ => true
  | Some _, None => false
  | Some x, Some y => date_le x y
  end.
Definition overdue_first_le (d : db) (a b : option date) : bool :=
  (overdue_flag d a <? overdue_flag d b)
  || ((overdue_flag d a =? overdue_flag d b) && null_first_le a b).

(** The task statements: a WHERE clause, one of the two orders, LIMIT 10.
    Rows with equal sort keys keep the order of the table. *)
Definition select_tasks_by_due (d : db) (where_ : task -> bool) : list item :=
  map (task_item d)
      (take 10 (sorted_by (overdue_first_le d) t_due_date (filter where_ (tasks d)))).
Definition select_tasks_by_update (d : db) (where_ : task -> bool) : list item :=
  map (task_item d)
      (take 10 (sorted_by Z.geb t_updated_at (filter where_ (tasks d)))).

(** The status filter of a request. *)
Inductive status_filter : Type := OnlyCompleted | OnlyTodo.

Definition task_status_ok (f : status_filter) (t : task) : bool :=
  match f with
  | OnlyCompleted => eqb (t_status t) (py "COMPLETED")
  | OnlyTodo => eqb (t_status t) (py "TODO")
  end.

(** The joins of the action-item statement for one action item. *)
Definition action_meeting (d : db) (a : action_item) : option meeting_row :=
  match ai_meeting_result_id a with
  | Some r =>
      match find (fun mr => mr_id mr =? r) (meeting_results d) with
      | Some mr => meeting_by_id d (mr_meeting_id mr)
      | None => None
      end
  | None => None
  end.

Definition action_row (d : db) (a : action_item) : item :=
  let m := action_meeting d a in
  let assignee :=
    match ai_assignee_user_id a with
    | Some u => option_map u_name (user_by_id d u)
    | None => None
    end in
  mkItem (ai_id a) (ai_task a) None (Some (default (py "미지정") assignee)) (ai_due_date a)
         (if ai_is_completed a then py "COMPLETED" else py "TODO")
         (option_map m_id m) (option_map m_title m) (Some (py "action_item")).

Definition action_status_ok (f : status_filter) (a : action_item) : bool :=
  match f with
  | OnlyCompleted => ai_is_completed a
  | OnlyTodo => negb (ai_is_completed a)
  end.

(** The WHERE clause of the action-item statement: a condition on the
    joined meeting and the completion flag. *)
Definition action_where (d : db) (where_ : meeting_row -> bool) (f : status_filter)
    (a : action_item) : bool :=
  match action_meeting d a with
  | Some m => where_ m && action_status_ok f a
  | None => false
  end.

(** [fetch_action_items]: by meeting when a meeting is given, else by
    the host of the meeting, else nothing; ordered by due date, 20 rows.
    The status filter of every caller names one of the two states. *)
Definition fetch_action_items (d : db) (meeting_id user_id : option Z) (f : status_filter)
  : list item :=
  let select (where_ : meeting_row -> bool) :=
    map (action_row d)
        (take 20 (sorted_by null_first_le ai_due_date
                    (filter (fun a => action_where d where_ f a) (action_items d)))) in
  match meeting_id with
  | Some mid => if mid =? 0 then
                  match user_id with
                  | Some uid => if uid =? 0 then []
                                else select (fun m => m_host_user_id m =? uid)
                  | None => []
                  end
                else select (fun m => m_id m =? mid)
  | None =>
      match user_id with
      | Some uid => if uid =? 0 then [] else select (fun m => m_host_user_id m =? uid)
      | None => []
      end
  end.

(** [sort_key]: rows with a due date first, by the text of the date. *)
Definition sort_key (x : item) : Z * pystr :=
  match i_due_date x with
  | Some due => (0, str_date due)
  | None => (1, [])
  end.
Definition key_le (a b : Z * pystr) : bool :=
  (a.1 <? b.1) || ((a.1 =? b.1) && str_le a.2 b.2).

Definition set_source_table (x : item) : item :=
  mkItem (i_id x) (i_title x) (i_user_id x) (i_assignee_name x) (i_due_date x)
         (i_status x) (i_meeting_id x) (i_meeting_title x) (Some (py "task")).

Definition merge_tasks_and_actions (tasks action_items : list item) : list item :=
  let combined := map set_source_table tasks ++ action_items in
  take 30 (sorted_by key_le sort_key combined).

(** [\w] *)
Definition is_word (c : N) : bool := Unicode.in_ranges Unicode.word_table c.

(** [s.split()] *)
Definition split_ws (s : pystr) : list pystr := findall_runs (fun c => negb (is_space c)) s.

#[warnings="-inexact-float"]
Definition half : float := 0.5%float.

(** The token after a demonstrative looks like the word for "meeting". *)
Definition meeting_like (next_token : pystr) : bool :=
  let next_token_no_josa :=
    sub_empty (words ["에서"; "에게"; "한테"; "부터"; "까지"]) next_token in
  let next_token_clean := filter (fun c => is_hangul c) next_token_no_josa in
  PrimFloat.leb half (Difflib.ratio next_token_clean (py "회의")).

Fixpoint pronoun_then_meeting (tokens : list pystr) : bool :=
  match tokens with
  | [] => false
  | t :: rest =>
      match rest with
      | next_token :: _ =>
          (bool_decide (t ∈ map py ["저"; "그"; "이"; "해당"]) && meeting_like next_token)
          || pronoun_then_meeting rest
      | [] => false
      end
  end.

Definition has_meeting_pronoun (query : pystr) : bool :=
  let cleaned := filter (fun c => is_word c || is_space c) query in
  pronoun_then_meeting (split_ws cleaned)
  || contains_any query (map py ["거기"; "여기"]).

(** The formatting collaborators of the resolver. *)
Record formatters : Type := mkFormatters {
  format_my_tasks : list item -> pystr -> result pystr;
  format_meeting_tasks : list item -> option pystr -> result pystr;
  format_assignee_tasks : list item -> pystr -> pystr -> result pystr }.

(** Python's truth value of an optional identifier. *)
Definition truthy_name (x : option pystr) : option pystr :=
  match x with
  | Some (c :: n) => Some (c :: n)
  | _ => None
  end.

Definition given (x : option Z) : bool :=
  match x with
  | Some i => negb (i =? 0)
  | None => false
  end.

(** The first other user named in the query, and the context meeting
    that survives it. *)
Definition named_other (d : db) (user_query : pystr) (user_id : Z) : option pystr :=
  find (fun name => contains user_query name)
       (map u_name (filter (fun u => negb (u_id u =? user_id)) (users d))).

Definition context_meeting (d : db) (user_query : pystr) (user_id : Z)
    (meeting_id : option Z) : option Z :=
  match named_other d user_query user_id with
  | Some _ => if has_meeting_pronoun user_query then meeting_id else None
  | None => meeting_id
  end.

Definition status_filter_of (query_lower : pystr) : status_filter * pystr :=
  if contains_any query_lower (map py ["완료"; "끝난"; "완료한"])
  then (OnlyCompleted, py "완료한")
  else if contains_any query_lower (map py ["미완료"; "남은"; "해야"; "할"])
  then (OnlyTodo, py "해야 할")
  else (OnlyTodo, []).

Definition my_task_keywords : list pystr :=
  map py ["내가"; "나의"; "내 할일"; "내 할 일"; "나는?"; "나는"; "내꺼는?"; "내꺼는"; "내가?";
          "내가"; "해야 될"; "해야될"; "해야 되는"; "해야되는"; "남은"; "미완료"; "할일";
          "할 일"; "뭐야"; "뭐있"; "뭐 있"].

(** The branch a request takes. *)
Inductive branch : Type :=
| AskWhichMeeting | CompletedTasks | MyTasksInMeeting | MyTasksEverywhere
| OthersInMeeting | OthersNoMeeting | ContextOthers | ContextAll | NamedAssignee.

#[export] Instance branch_eq_dec : EqDecision branch.
Proof. solve_decision. Defined.

Definition is_completed_request (query_lower : pystr) : bool :=
  contains_any query_lower (map py ["이미"; "완료"; "끝난"; "다 한"; "한 거"; "한 것"]).
Definition is_my_tasks_request (query_lower : pystr) : bool :=
  contains_any query_lower my_task_keywords
  || (startswith query_lower (py "아니")
      && contains_any query_lower (map py ["할일"; "할 일"; "task"])).
Definition is_others_request (query_lower : pystr) : bool :=
  contains_any query_lower (map py ["다른 사람"; "다른사람"; "다른 담당"; "다른담당"])
  || (contains query_lower (py "회의에서")
      && contains_any query_lower (map py ["다른 사람"; "다른사람"; "아무도"; "전체"; "모두"])).
Definition suspect_patterns : list pystr :=
  map py ["다른"; "다름"; "딴"; "사람"; "담당"; "팀원"; "멤버"; "누가"; "아무"; "모두"; "전체";
          "나머지"; "누구"; "그외"; "그 외"; "다른이"; "다른 이"; "다른애"; "다른 애"].

Definition branch_of (d : db) (user_query : pystr) (user_id : Z) (meeting_id : option Z)
  : branch :=
  let query_lower := lower user_query in
  let found_name := named_other d user_query user_id in
  let meeting_id := context_meeting d user_query user_id meeting_id in
  let has_global_keywords :=
    contains_any query_lower (map py ["전체"; "모든"; "전부"; "다른"; "말고"]) in
  if negb (given meeting_id) && negb has_global_keywords
     && contains_any query_lower (map py ["저 회의"; "그 회의"; "이 회의"; "거기"])
  then AskWhichMeeting
  else if is_completed_request query_lower then CompletedTasks
  else if is_my_tasks_request query_lower then
    if given meeting_id
       && negb (contains_any query_lower (map py ["전체"; "모든"; "다"; "전부"]))
    then MyTasksInMeeting else MyTasksEverywhere
  else if is_others_request query_lower then
    if given meeting_id then OthersInMeeting else OthersNoMeeting
  else if given meeting_id && negb (bool_decide (is_Some (truthy_name found_name))) then
    if contains_any query_lower suspect_patterns then ContextOthers else ContextAll
  else NamedAssignee.

Definition meeting_title_of (d : db) (meeting_id : Z) : option pystr :=
  option_map m_title (meeting_by_id d meeting_id).

(** [tasks[0].get('meeting_title') if tasks else None], else the title
    read from the meeting table. *)
Definition title_for (d : db) (tasks : list item) (mid : Z) : option pystr :=
  match tasks with
  | x :: _ =>
      match i_meeting_title x with
      | Some (c :: t) => Some (c :: t)
      | _ => meeting_title_of d mid
      end
  | [] => meeting_title_of d mid
  end.

(** The message of the my-tasks branch inside a meeting. *)
Definition my_task_line (n : nat) (x : item) : pystr :=
  let status_emoji := if eqb (i_status x) (py "COMPLETED") then py "✅" else py "⏳" in
  let due_str :=
    match i_due_date x with
    | Some due => py "📅 " ++ pad 2 (d_month due) ++ py "월 " ++ pad 2 (d_day due) ++ py "일"
    | None => py "📅 기한 없음"
    end in
  status_emoji ++ py " " ++ str_of_N (N.of_nat n) ++ py ". " ++ i_title x ++ py "
   " ++ due_str ++ py "

".

Definition my_tasks_message (meeting_title : option pystr) (tasks : list item) : pystr :=
  py "📋 " ++ default (py "None") meeting_title ++ py " 회의에서 맡은 할 일 "
  ++ str_of_N (N.of_nat (length tasks)) ++ py "개:

" ++ concat (imap (fun i x => my_task_line (S i) x) (take 10 tasks)).

(** The body of the [try] block of [search_tasks]. *)
Definition tasks_body (d : db) (fm : formatters) (user_query : pystr) (user_id : Z)
    (requested_meeting_id : option Z) (user_name : option pystr)
  : result (pystr * list item) :=
  let query_lower := lower user_query in
  let found_name := named_other d user_query user_id in
  let meeting_id := context_meeting d user_query user_id requested_meeting_id in
  let mid := default 0 meeting_id in
  let '(status_filter, status_text) := status_filter_of query_lower in
  let with_actions f rows :=
    merge_tasks_and_actions rows (fetch_action_items d meeting_id (Some user_id) f) in
  let named := truthy_name user_name in
  match branch_of d user_query user_id requested_meeting_id with
  | AskWhichMeeting =>
      Ok (py "어떤 회의인지 먼저 말씀해주세요! 😊
예: '채용 전략 회의에서 할 일'", [])
  | CompletedTasks =>
      let rows :=
        if given meeting_id
           && negb (contains_any query_lower (map py ["전체"; "모든"; "전부"]))
        then select_tasks_by_update d (fun t => (t_user_id t =? user_id)
                                                 && (t_meeting_id t =? mid)
                                                 && task_status_ok OnlyCompleted t)
        else select_tasks_by_update d (fun t => (t_user_id t =? user_id)
                                                 && task_status_ok OnlyCompleted t) in
      let tasks := with_actions OnlyCompleted rows in
      match tasks with
      | [] => Ok (py "아직 완료한 일이 없어요! 😊", [])
      | _ => message ← format_my_tasks fm tasks (py "완료한"); Ok (message, tasks)
      end
  | MyTasksInMeeting =>
      let rows := select_tasks_by_due d (fun t => (t_user_id t =? user_id)
                                                  && (t_meeting_id t =? mid)
                                                  && task_status_ok status_filter t) in
      let tasks := with_actions status_filter rows in
      let meeting_title := title_for d tasks mid in
      match tasks with
      | [] =>
          match meeting_title, named with
          | Some (c :: t), Some n =>
              Ok ((c :: t) ++ py "에서 " ++ n ++ py "님이 맡은 일이 없어요! 😊", [])
          | Some (c :: t), None => Ok ((c :: t) ++ py "에서 맡은 일이 없어요! 😊", [])
          | _, Some n => Ok (py "이 회의에서 " ++ n ++ py "님이 맡은 일이 없어요! 😊", [])
          | _, None => Ok (py "이 회의에서 맡은 일이 없어요! 😊", [])
          end
      | _ => Ok (my_tasks_message meeting_title tasks, tasks)
      end
  | MyTasksEverywhere =>
      let rows := select_tasks_by_due d
                    (fun t => (t_user_id t =? user_id)
                              && match t_due_date t with
                                 | Some due => date_le (curdate d) due
                                 | None => false
                                 end
                              && task_status_ok status_filter t) in
      let tasks := with_actions status_filter rows in
      match tasks with
      | [] =>
          match status_text, named with
          | _ :: _, Some n => Ok (n ++ py "님의 " ++ status_text ++ py " 일이 없어요! 😊", [])
          | _ :: _, None => Ok (status_text ++ py " 일이 없어요! 😊", [])
          | [], Some n => Ok (n ++ py "님이 아직 맡은 일이 없어요! 😊", [])
          | [], None => Ok (py "아직 맡은 일이 없어요! 😊", [])
          end
      | _ => message ← format_my_tasks fm tasks status_text; Ok (message, tasks)
      end
  | OthersNoMeeting => Ok (py "어떤 회의의 담당자를 보고 싶으신가요? 😊", [])
  | OthersInMeeting =>
      let rows := select_tasks_by_due d (fun t => (t_meeting_id t =? mid)
                                                  && negb (t_user_id t =? user_id)
                                                  && task_status_ok status_filter t) in
      let tasks := with_actions status_filter rows in
      match tasks with
      | [] =>
          match meeting_title_of d mid with
          | Some (c :: t) => Ok ((c :: t) ++ py "에서 다른 사람이 맡은 할 일은 없어요! 😊", [])
          | _ => Ok (py "이 회의에서 다른 사람이 맡은 할 일은 없어요! 😊", [])
          end
      | x :: _ =>
          message ← format_meeting_tasks fm tasks (i_meeting_title x); Ok (message, tasks)
      end
  | ContextOthers =>
      let rows := select_tasks_by_due d (fun t => (t_meeting_id t =? mid)
                                                  && negb (t_user_id t =? user_id)
                                                  && task_status_ok status_filter t) in
      let tasks := with_actions status_filter rows in
      match tasks with
      | [] =>
          match meeting_title_of d mid with
          | Some (c :: t) =>
              Ok (py "네, " ++ (c :: t) ++ py "에서 다른 사람이 맡은 할 일은 없어요! 😊", [])
          | _ => Ok (py "네, 이 회의에서 다른 사람이 맡은 할 일은 없어요! 😊", [])
          end
      | x :: _ =>
          message ← format_meeting_tasks fm tasks (i_meeting_title x); Ok (message, tasks)
      end
  | ContextAll =>
      let rows := select_tasks_by_due d (fun t => (t_meeting_id t =? mid)
                                                  && task_status_ok status_filter t) in
      let tasks := with_actions status_filter rows in
      let meeting_title := title_for d tasks mid in
      match tasks with
      | [] =>
          match meeting_title with
          | Some (c :: t) => Ok (py "네, " ++ (c :: t) ++ py "에서 정한 할 일이 없어요! 😊", [])
          | _ => Ok (py "네, 이 회의에서 정한 할 일이 없어요! 😊", [])
          end
      | _ => message ← format_meeting_tasks fm tasks meeting_title; Ok (message, tasks)
      end
  | NamedAssignee =>
      match found_name with
      | Some (c :: n) =>
          let name := c :: n in
          let has_global_intent :=
            contains_any query_lower (map py ["전체"; "모든"; "전부"; "전체에서"; "전체적"])
            || (contains query_lower (py "다른")
                && contains_any query_lower (map py ["회의"; "일"; "할일"; "것"])) in
          let named_like (t : task) : bool :=
            match t_assignee_name t with
            | Some a => contains (lower a) (lower name)
            | None => false
            end in
          let rows :=
            if given meeting_id && negb has_global_intent
            then select_tasks_by_due d (fun t => named_like t && (t_meeting_id t =? mid)
                                                 && task_status_ok status_filter t)
            else select_tasks_by_due d (fun t => named_like t
                                                 && task_status_ok status_filter t) in
          let tasks := with_actions status_filter rows in
          match tasks with
          | [] =>
              match status_text with
              | _ :: _ => Ok (name ++ py "님이 " ++ status_text ++ py " 일을 찾을 수 없어요! 😊", [])
              | [] => Ok (name ++ py "님이 담당한 일을 찾을 수 없어요! 😊", [])
              end
          | _ =>
              message ← format_assignee_tasks fm tasks name status_text; Ok (message, tasks)
          end
      | _ => Ok (py "담당자 이름을 말씀해주세요! 😊", [])
      end
  end.

Definition search_tasks (d : db) (fm : formatters) (user_query : pystr) (user_id : Z)
    (meeting_id : option Z) (user_name : option pystr) : result (pystr * list item) :=
  except_Exception (tasks_body d fm user_query user_id meeting_id user_name)
                   (fun _ => Ok (py "Task 검색 중 오류가 발생했어요. 😢", [])).

End Tasks.

(** ** Concrete requests and stores used by the theorems *)

Module Examples.
Import Calendar Rows DateParser Search Engine.
Local Open Scope Z_scope.

(** Wednesday 5 November 2025, 10:30:15. *)
Definition a_wednesday : datetime := mkDatetime 2025 11 5 10 30 15 0.

Definition frontend : pystr := py "FRONTEND_DEVELOPER".

(** Ten October meetings whose persona scores for a front-end developer
    are pairwise distinct: 0, 3, 5, 8, 10, 13, 15, 18, 20, 23. *)
Definition october (i : Z) (t d s : string) : meeting :=
  fetched i (Some (py t)) (Some (py d)) (Some (py s))
          (Some (mkDatetime 2025 10 i 9 0 0 0)) (py "COMPLETED").

Definition ten_rows : list meeting :=
  [ october 1 "주간 회의" "" "";      october 2 "주간 회의" "ui" "";
    october 3 "주간 회의" "" "ui";    october 4 "주간 회의" "ui" "ui";
    october 5 "UI 회의" "" "";        october 6 "UI 회의" "ui" "";
    october 7 "UI 회의" "" "ui";      october 8 "UI 회의" "ui" "ui";
    october 9 "UI UX 회의" "" "";     october 10 "UI UX 회의" "ui" "" ].

Definition ten_refs : list loc := seq 0 10.
Definition ten_heap : heap := list_to_map (zip ten_refs ten_rows).

(** The same ten rows with the dates in the opposite order: the better
    the score, the farther the meeting. *)
Definition receding (i : Z) (t d s : string) : meeting :=
  fetched i (Some (py t)) (Some (py d)) (Some (py s))
          (Some (mkDatetime 2025 10 (11 - i) 9 0 0 0)) (py "COMPLETED").

Definition receding_rows : list meeting :=
  [ receding 1 "주간 회의" "" "";      receding 2 "주간 회의" "ui" "";
    receding 3 "주간 회의" "" "ui";    receding 4 "주간 회의" "ui" "ui";
    receding 5 "UI 회의" "" "";        receding 6 "UI 회의" "ui" "";
    receding 7 "UI 회의" "" "ui";      receding 8 "UI 회의" "ui" "ui";
    receding 9 "UI UX 회의" "" "";     receding 10 "UI UX 회의" "ui" "" ].
Definition receding_heap : heap := list_to_map (zip ten_refs receding_rows).

(** Two rows, the second one not scheduled yet. *)
Definition undated_rows : list meeting :=
  [ october 1 "주간 회의" "" "";
    fetched 2 (Some (py "UI 회의")) None None None (py "SCHEDULED") ].
Definition undated_heap : heap := list_to_map (zip [0; 1]%nat undated_rows).

(** Two meetings found for the query "개발전략 회의". *)
Definition titled (i : Z) (t : string) : meeting :=
  fetched i (Some (py t)) None None None (py "COMPLETED").
Definition strategy_query : pystr := py "개발전략 회의".
Definition strategy_rows : list meeting :=
  [titled 1 "개발전략2차 회의"; titled 2 "개발전략 미팅"].

(** A store that cannot be reached, and one that answers every
    statement with no row. *)
Definition empty_store (up : bool) : env :=
  mkEnv true a_wednesday (fun _ => up)
        (fun _ => Ok None) (Ok []) (fun _ => Ok []) (fun _ => Ok []) (fun _ => Ok [])
        (fun _ => Ok None) (Ok tt)
        (fun _ => Ok []) (fun _ _ => Ok []) (fun _ _ _ _ _ => Ok [])
        (fun _ => Ok (mkParsed None None None None))
        remove_dups.

(** A store whose only meeting is scheduled, for a request for the
    completed ones. *)
Definition one_scheduled : meeting :=
  fetched 3 (Some (py "디자인 회의")) None None
          (Some (mkDatetime 2025 11 20 14 0 0 0)) (py "SCHEDULED").
Definition scheduled_store : env :=
  mkEnv false a_wednesday (fun _ => true)
        (fun _ => Ok None) (Ok [])
        (fun q => if bool_decide (q = rung1_statement None [py "디자인"] None)
                  then Ok [one_scheduled] else Ok [])
        (fun _ => Ok []) (fun _ => Ok [])
        (fun _ => Ok None) (Ok tt)
        (fun m => Ok (default [] (title m))) (fun m _ => Ok (default [] (title m)))
        (fun _ _ _ _ _ => Ok [])
        (fun _ => Ok (mkParsed None None None None))
        remove_dups.

(** A store that is reached but fails on the first statement of the
    requester lookup (2006: the server has gone away). *)
Definition lookup_fails_store : env :=
  mkEnv true a_wednesday (fun _ => true)
        (fun _ => Raise (StoreError 2006)) (Ok []) (fun _ => Ok []) (fun _ => Ok [])
        (fun _ => Ok []) (fun _ => Ok None) (Ok tt)
        (fun _ => Ok []) (fun _ _ => Ok []) (fun _ _ _ _ _ => Ok [])
        (fun _ => Ok (mkParsed None None None None))
        remove_dups.

End Examples.

Module TaskExamples.
Import Tasks.
Local Open Scope Z_scope.

(** One meeting with a task of the requester, a task of a colleague and
    an action item assigned to the colleague. *)
Definition office : db :=
  mkDb [mkUser 1 (py "김철수"); mkUser 2 (py "이영희")]
       [mkMeetingRow 10 (py "주간 회의") 1]
       [mkMeetingResult 100 10]
       [ mkTask 1 1 10 (py "보고서 작성") (Some (py "김철수"))
                (Some (mkDate 2025 11 1)) (py "TODO") 0;
         mkTask 2 2 10 (py "디자인 검토") (Some (py "이영희"))
                (Some (mkDate 2025 11 20)) (py "TODO") 0 ]
       [ mkActionItem 7 (py "서버 점검") (Some 2) (Some (mkDate 2025 11 10)) false None
                      (Some 100) ]
       (mkDate 2025 11 5).

Definition plain : formatters :=
  mkFormatters (fun _ _ => Ok []) (fun _ _ => Ok []) (fun _ _ _ => Ok []).

Definition my_tasks_query : pystr := py "내가 해야 할 일".

End TaskExamples.

(** * Theorems *)

(** ** Sorting, the heap passes of the ranker *)

Section SortedFacts.
Context {A K : Type} (le : K -> K -> bool) (key : A -> K).

Lemma insert_sorted_perm (x : A) (l : list A) :
  insert_sorted le key x l ≡ₚ x :: l.
Proof.
  induction l as [|y l IH]; simpl; [done|].
  destruct (le (key x) (key y)); [done|].
  rewrite IH. apply Permutation_swap.
Qed.

Lemma sorted_by_perm (l : list A) : sorted_by le key l ≡ₚ l.
Proof.
  induction l as [|x l IH]; simpl; [done|].
  rewrite insert_sorted_perm. by f_equiv.
Qed.
End SortedFacts.

Section PersonaFacts.
Import Calendar Rows Persona.
Context (current_time : datetime) (user_job : pystr).

Abbreviation dec := (decorate current_time user_job).

Lemma decorate_idem (m : meeting) : dec (dec m) = dec m.
Proof. by destruct m. Qed.

Lemma strip_idem (m : meeting) :
  set_time_distance None (set_time_distance None m) = set_time_distance None m.
Proof. by destruct m. Qed.

(** A pass that rewrites the dict behind every reference with an
    idempotent update [f]. *)
Lemma rewrite_pass (f : meeting -> meeting) (pass : list loc -> M unit) :
  (forall m, f (f m) = f m) ->
  pass [] = mret tt ->
  (forall l rest, pass (l :: rest) = (m ← get l; _ ← put l (f m); pass rest)) ->
  forall (ms : list loc) (h : heap),
  live h ms ->
  exists h1, pass ms h = (h1, Ok tt)
    /\ (forall l, l ∈ ms -> exists m, h !! l = Some m /\ h1 !! l = Some (f m))
    /\ (forall l, l ∉ ms -> h1 !! l = h !! l).
Proof.
  intros Hidem Hnil Hcons ms.
  induction ms as [|l0 rest IH]; intros h Hlive.
  - exists h. rewrite Hnil. split; [done|]. split; [|done].
    intros l Hl. by apply elem_of_nil in Hl.
  - destruct (Hlive l0) as [m0 Hm0]; [left|].
    destruct (IH (<[l0 := f m0]> h)) as (h1 & Hrun & Hin & Hout).
    { intros l Hl. destruct (decide (l = l0)) as [->|Hne].
      - rewrite lookup_insert_eq. eauto.
      - rewrite lookup_insert_ne by done. apply Hlive. by right. }
    exists h1. split.
    { rewrite Hcons. unfold mbind, M_bind, get, put, read. rewrite Hm0. exact Hrun. }
    split.
    + intros l Hl. destruct (decide (l ∈ rest)) as [Hr|Hr].
      * destruct (Hin l Hr) as (m & Hm & Hm1).
        destruct (decide (l = l0)) as [->|Hne].
        -- rewrite lookup_insert_eq in Hm. injection Hm as <-.
           exists m0. split; [done|]. by rewrite Hm1, Hidem.
        -- rewrite lookup_insert_ne in Hm by done. eauto.
      * apply elem_of_cons in Hl as [->|?]; [|done].
        exists m0. split; [done|]. by rewrite Hout, lookup_insert_eq.
    + intros l Hl. apply not_elem_of_cons in Hl as [Hne Hr].
      rewrite Hout by done. by rewrite lookup_insert_ne.
Qed.

Lemma decorate_all_spec (ms : list loc) (h : heap) :
  live h ms ->
  exists h1, decorate_all current_time user_job ms h = (h1, Ok tt)
    /\ (forall l, l ∈ ms -> exists m, h !! l = Some m /\ h1 !! l = Some (dec m))
    /\ (forall l, l ∉ ms -> h1 !! l = h !! l).
Proof. apply rewrite_pass; [apply decorate_idem|done|done]. Qed.

Lemma strip_all_spec (ms : list loc) (h : heap) :
  live h ms ->
  exists h2, strip_all ms h = (h2, Ok tt)
    /\ (forall l, l ∈ ms -> exists m, h !! l = Some m
                                    /\ h2 !! l = Some (set_time_distance None m))
    /\ (forall l, l ∉ ms -> h2 !! l = h !! l).
Proof. apply rewrite_pass; [apply strip_idem|done|done]. Qed.

(** Reading the keys back succeeds on decorated dicts and leaves the
    heap as it is. *)
Lemma read_all_spec (ms : list loc) (h : heap) :
  (forall l, l ∈ ms -> exists m, h !! l = Some m /\ is_Some (relevance_score m)
                                 /\ is_Some (time_distance m)) ->
  exists xs, read_all ms h = (h, Ok xs) /\ map k_loc xs = ms
    /\ Forall (fun x => exists m, h !! (k_loc x) = Some m
                         /\ relevance_score m = Some (k_score x)
                         /\ time_distance m = Some (k_distance x)) xs.
Proof.
  induction ms as [|l0 rest IH]; intros Hall.
  - exists []. by repeat split.
  - destruct (Hall l0) as (m0 & Hm0 & [s Hs] & [d Hd]); [left|].
    destruct IH as (xs & Hrun & Hmap & Hfa).
    { intros l Hl. apply Hall. by right. }
    exists ((l0, s, d) :: xs). split.
    { cbn [read_all]. unfold mbind, M_bind, read_keys, mbind, M_bind, get, lift, read,
        get_relevance_score, get_time_distance.
      rewrite Hm0; simpl; rewrite Hs; simpl; rewrite Hd; simpl; rewrite Hrun. done. }
    split; [simpl; by rewrite Hmap|].
    constructor; [|done]. exists m0. by repeat split.
Qed.

(** The report on dicts that carry a distance: it passes when all the
    distances are finite and raises when one is infinite; the heap stays
    as it is. *)
Lemma report_after_finite (ms : list loc) (h : heap) :
  (forall l, l ∈ ms -> exists m a b, h !! l = Some m
                                     /\ time_distance m = Some (Finite a b)) ->
  report_after ms h = (h, Ok tt).
Proof.
  induction ms as [|l0 rest IH]; intros Hall; [done|].
  destruct (Hall l0) as (m0 & a & b & Hm0 & Hd); [left|].
  cbn [report_after]. unfold mbind, M_bind, get, lift, read, get_time_distance.
  rewrite Hm0, Hd. simpl. apply IH. intros l Hl. apply Hall. by right.
Qed.

Lemma report_after_infinite (ms : list loc) (h : heap) (l : loc) (m : meeting) :
  (forall l, l ∈ ms -> exists m, h !! l = Some m /\ is_Some (time_distance m)) ->
  l ∈ ms -> h !! l = Some m -> time_distance m = Some Infinite ->
  report_after ms h = (h, Raise OverflowError).
Proof.
  intros Hall Hl Hm Hd.
  induction ms as [|l0 rest IH]; [by apply elem_of_nil in Hl|].
  destruct (Hall l0) as (m0 & Hm0 & [d0 Hd0]); [left|].
  cbn [report_after]. unfold mbind, M_bind, get, lift, read, get_time_distance.
  rewrite Hm0, Hd0. destruct d0 as [a b|]; [|done]. simpl.
  apply IH.
  - intros l' Hl'. apply Hall. by right.
  - apply elem_of_cons in Hl as [->|Hl]; [|done]. congruence.
Qed.

Lemma tiers_partition (xs : list keyed) :
  high_relevance xs ++ low_relevance xs ≡ₚ xs.
Proof.
  unfold high_relevance, low_relevance.
  generalize (threshold_of xs) as t. intros t.
  induction xs as [|x xs IH]; [done|].
  rewrite !filter_cons.
  destruct (decide (t <= k_score x)%Z), (decide (k_score x < t)%Z); try lia.
  - simpl. by f_equiv.
  - rewrite <- Permutation_middle. by f_equiv.
Qed.

Lemma final_sorted_perm (xs : list keyed) : final_sorted xs ≡ₚ xs.
Proof.
  unfold final_sorted. rewrite !sorted_by_perm. apply tiers_partition.
Qed.

(** The distance of a scheduled row is finite. *)
Lemma distance_from_dated (t : datetime) :
  exists a b, distance_from current_time (Some t) = Finite a b.
Proof.
  unfold distance_from, seconds_between, true_divide.
  destruct (_ =? 0)%Z; eauto.
Qed.

(** The first two steps of the ranker on live references. *)
Lemma decorate_then_read (ms : list loc) (h : heap) :
  live h ms ->
  exists h1 xs,
    decorate_all current_time user_job ms h = (h1, Ok tt)
    /\ read_all ms h1 = (h1, Ok xs)
    /\ map k_loc xs = ms
    /\ (forall l, l ∈ ms -> exists m, h !! l = Some m /\ h1 !! l = Some (dec m))
    /\ (forall l, l ∉ ms -> h1 !! l = h !! l).
Proof.
  intros Hlive.
  destruct (decorate_all_spec ms h Hlive) as (h1 & Hdec & Hin1 & Hout1).
  destruct (read_all_spec ms h1) as (xs & Hread & Hlocs & _).
  { intros l Hl. destruct (Hin1 l Hl) as (m & _ & ->). eexists. split; [done|].
    split; eexists; reflexivity. }
  by exists h1, xs.
Qed.

End PersonaFacts.

Section PersonaTheorems.
Import Calendar Rows Persona Examples.

(** On live references to scheduled rows the ranker returns a
    permutation of its input list; the dict behind every returned
    reference is the input dict with the relevance score attached and
    no time-distance key, and the dicts outside the list are untouched. *)
Theorem ranker_permutes_scheduled_rows
    (current_time : datetime) (h : heap) (meetings : list loc) (user_job : pystr) :
  (forall l, l ∈ meetings -> exists m, h !! l = Some m /\ is_Some (scheduled_at m)) ->
  exists h' out,
    search_with_persona current_time meetings user_job h = (h', Ok out)
    /\ out ≡ₚ meetings
    /\ (forall l, l ∈ out ->
          exists m m', h !! l = Some m /\ h' !! l = Some m'
            /\ m' = ranked_row user_job m
            /\ time_distance m' = None
            /\ relevance_score m' = Some (calculate_relevance m user_job))
    /\ (forall l, l ∉ meetings -> h' !! l = h !! l).
Proof.
  intros Hdated.
  assert (Hlive : live h meetings).
  { intros l Hl. destruct (Hdated l Hl) as (m & -> & _). eauto. }
  destruct (decorate_then_read current_time user_job meetings h Hlive)
    as (h1 & xs & Hdec & Hread & Hlocs & Hin1 & Hout1).
  set (final := map k_loc (final_sorted xs)).
  assert (Hperm : final ≡ₚ meetings).
  { unfold final. rewrite final_sorted_perm. by rewrite Hlocs. }
  assert (Hreport : report_after (take 3 final) h1 = (h1, Ok tt)).
  { apply report_after_finite. intros l Hl.
    apply elem_of_take in Hl as (i & Hl & _). apply list_elem_of_lookup_2 in Hl.
    rewrite Hperm in Hl. destruct (Hin1 l Hl) as (m & Hm & ->).
    destruct (Hdated l Hl) as (m' & Hm' & [t Ht]). rewrite Hm in Hm'. injection Hm' as <-.
    destruct (distance_from_dated current_time t) as (a & b & Hd).
    exists (decorate current_time user_job m), a, b. split; [done|].
    rewrite <- Hd, <- Ht. by destruct m. }
  destruct (strip_all_spec final h1) as (h2 & Hstrip & Hin2 & Hout2).
  { intros l Hl. rewrite Hperm in Hl. destruct (Hin1 l Hl) as (m & _ & ->). eauto. }
  exists h2, final. split.
  { unfold search_with_persona, mbind, M_bind. rewrite Hdec, Hread. fold final.
    rewrite Hreport, Hstrip. done. }
  split; [done|]. split.
  - intros l Hl. destruct (Hin2 l Hl) as (m1 & Hm1 & Hm2).
    rewrite Hperm in Hl. destruct (Hin1 l Hl) as (m & Hm & Hm1').
    rewrite Hm1' in Hm1. injection Hm1 as <-.
    exists m, (set_time_distance None (decorate current_time user_job m)).
    repeat split; try done; by destruct m.
  - intros l Hl. rewrite Hout2, Hout1; [done|done|]. by rewrite Hperm.
Qed.

Lemma ranker_permutes_scheduled_rows_witness :
  (forall l, l ∈ ten_refs -> exists m, ten_heap !! l = Some m /\ is_Some (scheduled_at m))
  /\ exists h' out,
       search_with_persona a_wednesday ten_refs frontend ten_heap = (h', Ok out)
       /\ out ≡ₚ ten_refs
       /\ (forall l, l ∈ out ->
             exists m m', ten_heap !! l = Some m /\ h' !! l = Some m'
               /\ m' = ranked_row frontend m
               /\ time_distance m' = None
               /\ relevance_score m' = Some (calculate_relevance m frontend))
       /\ (forall l, l ∉ ten_refs -> h' !! l = ten_heap !! l).
Proof.
  assert (Hdated : forall l, l ∈ ten_refs ->
            exists m, ten_heap !! l = Some m /\ is_Some (scheduled_at m)).
  { intros l Hl. unfold ten_refs in Hl. simpl in Hl.
    repeat (apply elem_of_cons in Hl as [->|Hl]; [vm_compute; eauto|]).
    by apply elem_of_nil in Hl. }
  split; [exact Hdated|].
  exact (ranker_permutes_scheduled_rows a_wednesday ten_heap ten_refs frontend Hdated).
Defined.

(** On at most three live references of which one denotes a row without
    a schedule, the ranker raises [OverflowError], whatever the scores;
    it leaves every dict with both keys attached. *)
Theorem ranker_raises_on_unscheduled_row
    (current_time : datetime) (h : heap) (meetings : list loc) (user_job : pystr)
    (l : loc) (m : meeting) :
  live h meetings -> (length meetings <= 3)%nat ->
  l ∈ meetings -> h !! l = Some m -> scheduled_at m = None ->
  exists h',
    search_with_persona current_time meetings user_job h = (h', Raise OverflowError)
    /\ forall l', l' ∈ meetings ->
         exists m', h !! l' = Some m'
           /\ h' !! l' = Some (decorate current_time user_job m').
Proof.
  intros Hlive Hlen Hl Hm Hnone.
  destruct (decorate_then_read current_time user_job meetings h Hlive)
    as (h1 & xs & Hdec & Hread & Hlocs & Hin1 & Hout1).
  set (final := map k_loc (final_sorted xs)).
  assert (Hperm : final ≡ₚ meetings).
  { unfold final. rewrite final_sorted_perm. by rewrite Hlocs. }
  assert (Htake : take 3 final = final).
  { apply take_ge. by rewrite Hperm. }
  exists h1. split; [|done].
  unfold search_with_persona, mbind, M_bind. rewrite Hdec, Hread. fold final. rewrite Htake.
  destruct (Hin1 l Hl) as (m0 & Hm0 & Hm1). rewrite Hm in Hm0. injection Hm0 as <-.
  rewrite (report_after_infinite final h1 l (decorate current_time user_job m)); try done.
  - intros l' Hl'. rewrite Hperm in Hl'. destruct (Hin1 l' Hl') as (m' & _ & ->).
    eexists. split; [done|]. eexists; reflexivity.
  - by rewrite Hperm.
  - change Infinite with (distance_from current_time None). rewrite <- Hnone. by destruct m.
Qed.

Lemma ranker_raises_on_unscheduled_row_witness :
  live undated_heap [0; 1]%nat /\ (length [0; 1]%nat <= 3)%nat
  /\ 1%nat ∈ [0; 1]%nat
  /\ exists h',
       search_with_persona a_wednesday [0; 1]%nat frontend undated_heap
       = (h', Raise OverflowError)
       /\ forall l', l' ∈ [0; 1]%nat ->
            exists m', undated_heap !! l' = Some m'
              /\ h' !! l' = Some (decorate a_wednesday frontend m').
Proof.
  assert (Hlive : live undated_heap [0; 1]%nat).
  { intros l Hl. repeat (apply elem_of_cons in Hl as [->|Hl]; [vm_compute; eauto|]).
    by apply elem_of_nil in Hl. }
  assert (Hin : 1%nat ∈ [0; 1]%nat) by (right; left).
  split; [exact Hlive|]. split; [simpl; lia|]. split; [exact Hin|].
  exact (ranker_raises_on_unscheduled_row a_wednesday undated_heap [0; 1]%nat frontend 1%nat
           (fetched 2 (Some (py "UI 회의")) None None None (py "SCHEDULED"))
           Hlive ltac:(simpl; lia) Hin eq_refl eq_refl).
Defined.

(** C10 (the code departs from the claim).  On two meeting records of
    which the second has no schedule the ranker returns no list: the
    report on the first rows of the final order divides the infinite
    distance of that record and raises [OverflowError]; both dicts keep
    their time-distance key.  The engine, which ranks the rows of a
    result through this function, gets the exception. *)
Theorem persona_ranker_raises_on_undated_record :
  map scheduled_at undated_rows = [Some (mkDatetime 2025 10 1 9 0 0 0); None]
  /\ (search_with_persona a_wednesday [0; 1]%nat frontend undated_heap).2
     = Raise OverflowError
  /\ map (fun l => time_distance <$>
                     (search_with_persona a_wednesday [0; 1]%nat frontend undated_heap).1 !! l)
         [0; 1]%nat
     = [Some (Some (Finite 6505619175505920 (-31))); Some (Some Infinite)]
  /\ Engine.rank_rows a_wednesday undated_rows frontend = Raise OverflowError.
Proof. repeat split; vm_compute; reflexivity. Qed.

(** C1 (the code departs from the claim).  Ten candidates with the
    persona scores 0, 3, 5, 8, 10, 13, 15, 18, 20, 23, the better the
    score the farther the meeting.  The code takes as threshold the
    score at index 3 of the descending score list, so the tier it sorts
    by time holds the 4 best records and not the top 70%: it returns
    the records 6 to 9 by time and then the six others by score, where
    the split at the 30th percentile gives the records 3 to 9 by time
    and then the three others. *)
Theorem persona_time_tier_holds_top_three_tenths :
  map (fun m => calculate_relevance m frontend) receding_rows
    = [0; 3; 5; 8; 10; 13; 15; 18; 20; 23]%Z
  /\ map (fun m => day <$> scheduled_at m) receding_rows
     = map Some [10; 9; 8; 7; 6; 5; 4; 3; 2; 1]%Z
  /\ (search_with_persona a_wednesday ten_refs frontend receding_heap).2
     = Ok [6; 7; 8; 9; 5; 4; 3; 2; 1; 0]%nat
  /\ (ranking_as_specified a_wednesday ten_refs frontend receding_heap).2
     = Ok [3; 4; 5; 6; 7; 8; 9; 2; 1; 0]%nat.
Proof. repeat split; vm_compute; reflexivity. Qed.

End PersonaTheorems.

(** ** Strings and statements *)

Section StringFacts.

Lemma startswith_app (x s : pystr) : startswith (x ++ s) x = true.
Proof.
  induction x as [|c x IH]; simpl; [by destruct s|].
  by rewrite N.eqb_refl, IH.
Qed.

Lemma contains_app (pre x post : pystr) : contains (pre ++ x ++ post) x = true.
Proof.
  induction pre as [|c pre IH]; simpl.
  - pose proof (startswith_app x post) as H.
    destruct (x ++ post); cbn [contains]; by rewrite H.
  - rewrite IH. apply orb_true_r.
Qed.

Lemma contains_middle (a x b : pystr) : contains (a ++ x ++ b) x = true.
Proof. apply contains_app. Qed.

Lemma elem_of_join (sep : pystr) (l : list pystr) (x : pystr) :
  x ∈ l -> exists pre post, join sep l = pre ++ x ++ post.
Proof.
  induction l as [|y l IH]; intros Hx; [by apply elem_of_nil in Hx|].
  apply elem_of_cons in Hx as [->|Hx].
  - destruct l as [|z l]; simpl.
    + exists [], []. by rewrite app_nil_r.
    + exists [], (sep ++ join sep (z :: l)). done.
  - destruct (IH Hx) as (pre & post & E). destruct l as [|z l]; [by apply elem_of_nil in Hx|].
    exists (y ++ sep ++ pre), post. simpl in *. rewrite E. by rewrite <- !app_assoc.
Qed.

End StringFacts.

Section StatementFacts.
Import Calendar Rows DateParser Search.

Lemma add_date_bounds_split (d : option date_info) (q : statement) :
  st_head (add_date_bounds d q) = st_head q
  /\ st_text (add_date_bounds d q)
     = st_text q ++ st_text (add_date_bounds d (mkStatement (st_head q) [] []))
  /\ st_params (add_date_bounds d q)
     = st_params q ++ st_params (add_date_bounds d (mkStatement (st_head q) [] [])).
Proof.
  destruct q as [h t ps]. unfold add_date_bounds.
  destruct d as [[k [s|] [e|] o r]|]; simpl; rewrite ?app_nil_r, <- ?app_assoc; done.
Qed.

End StatementFacts.

Section Rung1.
Import Calendar Rows DateParser Search Engine Examples.

Lemma rung1_params (now : datetime) (user_name : option pystr) (keywords : list pystr)
    (date_info : option date_info) :
  st_params (rung1_statement user_name keywords date_info)
  = st_params (primary_statement now user_name keywords date_info None None).
Proof.
  unfold rung1_statement, primary_statement, add_status.
  destruct keywords as [|k1 [|k2 ks]]; simpl; try reflexivity.
  match goal with
  | |- st_params (add_date_bounds _ ?q1) ++ [] = st_params (add_date_bounds _ ?q2) ++ [] =>
      destruct (add_date_bounds_split date_info q1) as (_ & _ & ->);
      destruct (add_date_bounds_split date_info q2) as (_ & _ & ->)
  end.
  reflexivity.
Qed.

Lemma rung1_same_for_one_keyword (now : datetime) (user_name : option pystr)
    (keywords : list pystr) (date_info : option date_info) :
  (length keywords <= 1)%nat ->
  rung1_statement user_name keywords date_info
  = primary_statement now user_name keywords date_info None None.
Proof.
  intros Hlen. unfold rung1_statement, primary_statement, add_status.
  destruct keywords as [|k1 [|k2 ks]]; simpl in *; [reflexivity|reflexivity|lia].
Qed.

Lemma rung1_text_joiner (now : datetime) (user_name : option pystr)
    (keywords : list pystr) (date_info : option date_info) :
  exists pre post,
    st_text (rung1_statement user_name keywords date_info)
    = pre ++ join (py " OR ") (keyword_groups keywords) ++ post
    /\ st_text (primary_statement now user_name keywords date_info None None)
       = pre ++ join (py (if (1 <? length keywords)%nat then " AND " else " OR "))
                     (keyword_groups keywords) ++ post.
Proof.
  unfold rung1_statement, primary_statement, add_status.
  set (q0 := match user_name with
             | Some n => if truthy user_name
                         then add " AND p.name = %s" [PStr n] (mkStatement MeetingsWhere [] [])
                         else mkStatement MeetingsWhere [] []
             | None => mkStatement MeetingsWhere [] []
             end).
  destruct keywords as [|k1 ks].
  - exists (st_text (add " GROUP BY m.id ORDER BY scheduled_at DESC LIMIT 50" []
                         (add_date_bounds date_info q0))), [].
    simpl. by rewrite app_nil_r.
  - exists (st_text q0 ++ py " AND ("),
           (py ")" ++ st_text (add_date_bounds date_info (mkStatement (st_head q0) [] []))
            ++ py " GROUP BY m.id ORDER BY scheduled_at DESC LIMIT 50").
    split.
    + cbn [add st_text st_head st_params].
      destruct (add_date_bounds_split date_info (add_keywords " OR " (k1 :: ks) q0))
        as (_ & -> & _).
      unfold add_keywords, add_text, keyword_groups. cbn [st_text st_head].
      rewrite <- !app_assoc. reflexivity.
    + destruct (1 <? length (k1 :: ks))%nat;
        cbn [add st_text st_head st_params];
        match goal with
        | |- context [add_date_bounds date_info (add_keywords ?j ?k ?q)] =>
            destruct (add_date_bounds_split date_info (add_keywords j k q)) as (_ & -> & _)
        end;
        unfold add_keywords, add_text, keyword_groups; cbn [st_text st_head];
        rewrite <- !app_assoc; reflexivity.
Qed.

Lemma single_tail_split :
  py " 회의가 있습니다! 📌

" = py " 회의가 있습니다! 📌" ++ py "

".
Proof. vm_compute. reflexivity. Qed.

Lemma multi_tail_split :
  py " 회의들이 있습니다! 📋

" = py " 회의들이 있습니다! 📋" ++ py "

".
Proof. vm_compute. reflexivity. Qed.

Lemma ok_some_pair_inv {A B : Type} (a a' : A) (b b' : B) :
  Ok (Some (a, b)) = Ok (Some (a', b')) -> a = a' /\ b = b'.
Proof. intros H. by injection H. Qed.

(** The message of rung 1 for one row: the requested state is denied and
    the state of the row is named. *)
Lemma single_message_shape (st found_status detail : pystr) :
  truthy (Some st) = true ->
  exists rest,
    rung1_single_message (Some st) found_status detail
    = py "❌ " ++ status_label st ++ py " 회의는 없어요.

하지만 " ++ (found_status ++ py " 회의가 있습니다! 📌") ++ rest.
Proof.
  intros Ht. unfold rung1_single_message. rewrite Ht, single_tail_split.
  exists (py "

" ++ detail ++ py "

이 회의를 확인해보시겠어요?").
  by rewrite <- !app_assoc.
Qed.

(** The message of rung 1 for several rows: the requested state is
    denied and the other states found are named. *)
Lemma multi_message_shape (st : pystr) (statuses : list pystr) (detail : pystr) :
  truthy (Some st) = true ->
  exists rest,
    rung1_multi_message (Some st) statuses detail
    = py "❌ " ++ status_label st ++ py " 회의는 없어요.

하지만 "
      ++ (match filter (fun s => s <> st) statuses with
          | [] => py "다른"
          | _ => join (py "/") (map status_label (filter (fun s => s <> st) statuses))
          end ++ py " 회의들이 있습니다! 📋") ++ rest.
Proof.
  intros Ht. unfold rung1_multi_message, rung1_found_status_text.
  rewrite Ht, multi_tail_split.
  exists (py "

" ++ detail).
  destruct (filter (fun s => s <> st) statuses); by rewrite <- !app_assoc.
Qed.

(** C2, as the code has it.  Rung 1 binds the parameters of the primary
    statement without its state and context filters; its text is that
    statement's with the keyword groups joined by OR whatever their
    number, so the two statements are equal for at most one keyword.
    When rung 1 finds rows, its message denies the requested state and
    then names, for a single row, the state of that row, and for
    several rows, each state found other than the requested one, or
    "다른" when every row found is in the requested state. *)
Theorem rung1_drops_state_and_joins_by_or
    (e : env) (user_query : pystr) (keywords : list pystr)
    (date_info : option date_info) (status user_job user_name : option pystr) :
  set_like e ->
  let relaxed := rung1_statement user_name keywords date_info in
  let primary := primary_statement (now e) user_name keywords date_info None None in
  st_params relaxed = st_params primary
  /\ ((length keywords <= 1)%nat -> relaxed = primary)
  /\ (exists pre post,
        st_text relaxed = pre ++ join (py " OR ") (keyword_groups keywords) ++ post
        /\ st_text primary
           = pre ++ join (py (if (1 <? length keywords)%nat then " AND " else " OR "))
                         (keyword_groups keywords) ++ post)
  /\ (forall message records,
        rung1 e user_query keywords date_info status user_job user_name
          = Ok (Some (message, records)) ->
        exists st, status = Some st /\ st <> []
        /\ select_meetings e relaxed = Ok records
        /\ records <> []
        /\ exists found rest,
             message = py "❌ " ++ status_label st ++ py " 회의는 없어요.

하지만 " ++ found ++ rest
             /\ match records with
                | [r] =>
                    found = status_label (Rows.status r) ++ py " 회의가 있습니다! 📌"
                | _ =>
                    exists others,
                      NoDup others
                      /\ (forall s, s ∈ others <->
                            s <> st /\ exists r, r ∈ records /\ Rows.status r = s)
                      /\ found
                         = match others with
                           | [] => py "다른"
                           | _ => join (py "/") (map status_label others)
                           end ++ py " 회의들이 있습니다! 📋"
                end).
Proof.
  intros Hset relaxed primary.
  split; [apply rung1_params|].
  split; [apply rung1_same_for_one_keyword|].
  split; [apply rung1_text_joiner|].
  intros message records Hrun. unfold rung1 in Hrun.
  destruct (truthy status) eqn:Ht; [|discriminate].
  destruct status as [st|]; [|discriminate].
  assert (Hne : st <> []) by (intros ->; discriminate).
  exists st. split; [done|]. split; [done|].
  fold relaxed in Hrun.
  destruct (select_meetings e relaxed) as [rows|x] eqn:Hsel; [|discriminate].
  unfold mbind, result_bind, bind in Hrun; cbv beta iota in Hrun.
  destruct rows as [|m [|m2 rest]]; [discriminate| |].
  - destruct (single_detail e user_job m) as [detail|x]; [|discriminate].
    apply ok_some_pair_inv in Hrun as [<- <-].
    split; [done|]. split; [done|].
    destruct (single_message_shape st (status_label (Rows.status m)) detail Ht) as [tl ->].
    by exists (status_label (Rows.status m) ++ py " 회의가 있습니다! 📌"), tl.
  - destruct (format_multiple_meetings_short e _ _ _ _ _) as [detail|x]; [|discriminate].
    apply ok_some_pair_inv in Hrun as [<- <-].
    split; [done|]. split; [done|].
    set (statuses := set_iteration e (map Rows.status (m :: m2 :: rest))).
    destruct (multi_message_shape st statuses detail Ht) as [tl ->].
    eexists _, tl. split; [reflexivity|].
    exists (filter (fun s => s <> st) statuses).
    destruct (Hset (map Rows.status (m :: m2 :: rest))) as [Hnd Hin].
    split; [by apply NoDup_filter|]. split; [|done].
    intros s. rewrite list_elem_of_filter. unfold statuses. rewrite Hin, list_elem_of_fmap.
    split.
    + intros [Hs (r & -> & Hr)]. eauto.
    + intros [Hs (r & Hr & <-)]. eauto.
Qed.

Lemma rung1_drops_state_and_joins_by_or_witness :
  set_like scheduled_store
  /\ rung1 scheduled_store (py "완료된 디자인 회의") [py "디자인"] None
           (Some (py "COMPLETED")) None None
     = Ok (Some (py "❌ 완료된 회의는 없어요.

하지만 예정된 회의가 있습니다! 📌

디자인 회의

이 회의를 확인해보시겠어요?", [one_scheduled]))
  /\ exists found rest,
       py "❌ 완료된 회의는 없어요.

하지만 예정된 회의가 있습니다! 📌

디자인 회의

이 회의를 확인해보시겠어요?"
       = py "❌ " ++ status_label (py "COMPLETED") ++ py " 회의는 없어요.

하지만 " ++ found ++ rest
       /\ found = status_label (Rows.status one_scheduled) ++ py " 회의가 있습니다! 📌".
Proof.
  assert (Hset : set_like scheduled_store).
  { intros xs. split; [apply NoDup_remove_dups|]. intros x. apply elem_of_remove_dups. }
  split; [exact Hset|].
  assert (Hrun : rung1 scheduled_store (py "완료된 디자인 회의") [py "디자인"] None
                   (Some (py "COMPLETED")) None None
     = Ok (Some (py "❌ 완료된 회의는 없어요.

하지만 예정된 회의가 있습니다! 📌

디자인 회의

이 회의를 확인해보시겠어요?", [one_scheduled]))) by (vm_compute; reflexivity).
  split; [exact Hrun|].
  destruct (rung1_drops_state_and_joins_by_or scheduled_store (py "완료된 디자인 회의")
              [py "디자인"] None (Some (py "COMPLETED")) None None Hset)
    as (_ & _ & _ & Hmsg).
  destruct (Hmsg _ _ Hrun) as (st & Hst & _ & _ & _ & found & rest & Hmsg' & Hfound).
  injection Hst as <-. by exists found, rest.
Defined.

(** C2 as stated fails: with two keywords the statement of rung 1 is not
    the primary statement without its state filter. *)
Lemma rung1_is_not_primary_without_state :
  rung1_statement None [py "예산"; py "디자인"] None
  <> primary_statement a_wednesday None [py "예산"; py "디자인"] None None None.
Proof. vm_compute. discriminate. Qed.

End Rung1.

Section Boundary.
Import Calendar Rows DateParser Search Engine Examples.

(** On a store that cannot be reached the statistics variant returns
    [None], not a (message, records) pair. *)
Lemma count_returns_none_not_a_pair :
  ~ pair_shaped (value_of_count <$>
                   search_meeting_count (empty_store false) 0 [] None None None None).
Proof. intros (m & r & H). vm_compute in H. discriminate. Qed.

(** Under its main connection the search never raises: an unreachable
    store gives the fixed sentence, any exception of the body gives the
    generic sentence, both with no record; an exception of the store on
    the primary statement is such an exception.  The statistics variant
    never raises either, and returns [None] in both cases of failure. *)
Theorem failures_stop_under_the_main_connection
    (e : env) (conn : nat) (user_query : pystr) (keywords : list pystr)
    (date_info : option date_info) (status user_job : option pystr)
    (selected_meeting_id user_id : option Z) (user_name : option pystr)
    (names : list pystr) :
  let guarded := search_guarded e conn user_query date_info status user_job
                                selected_meeting_id user_id user_name names in
  let body := search_body e conn user_query date_info status user_job
                          selected_meeting_id user_id user_name names in
  let counted := search_meeting_count e conn keywords date_info status user_job user_name in
  returns guarded
  /\ (connect e conn = false -> guarded = Ok (py "데이터베이스 연결 실패", []))
  /\ (forall x, connect e conn = true -> body = Raise x ->
        guarded = Ok (py "검색 중 오류가 발생했어요.", []))
  /\ (forall x,
        select_meetings e
          (primary_statement (now e) user_name keywords date_info status selected_meeting_id)
          = Raise x ->
        ladder e user_query keywords date_info status user_job selected_meeting_id
               user_id user_name = Raise x)
  /\ returns counted
  /\ (connect e conn = false -> counted = Ok None)
  /\ (forall x, count_body e keywords date_info status user_job user_name = Raise x ->
        counted = Ok None).
Proof.
  intros guarded body counted.
  split.
  { unfold guarded, search_guarded, returns.
    destruct (connect e conn); [|eauto].
    destruct (search_body e conn _ _ _ _ _ _ _ _); simpl; eauto. }
  split.
  { intros Hc. unfold guarded, search_guarded. by rewrite Hc. }
  split.
  { intros x Hc Hb. unfold guarded, search_guarded. rewrite Hc. fold body. by rewrite Hb. }
  split.
  { intros x Hx. unfold ladder. by rewrite Hx. }
  split.
  { unfold counted, search_meeting_count, returns.
    destruct (connect e conn); [|eauto].
    destruct (count_body e keywords date_info status user_job user_name); simpl; eauto. }
  split.
  { intros Hc. unfold counted, search_meeting_count. by rewrite Hc. }
  intros x Hx. unfold counted, search_meeting_count.
  destruct (connect e conn); [|done]. by rewrite Hx.
Qed.

(** With a requester the entry point raises exactly what the lookup
    raises, and returns a pair when the lookup returns. *)
Theorem entry_point_raises_what_the_lookup_raises
    (e : env) (user_query : pystr) (date_info : option date_info)
    (status user_job : option pystr) (selected_meeting_id : option Z) (uid : Z) :
  uid <> 0%Z ->
  match lookup_requester e user_query uid with
  | Raise x =>
      search_meetings_direct e user_query date_info status user_job selected_meeting_id
                             (Some uid) = Raise x
  | Ok _ =>
      returns (search_meetings_direct e user_query date_info status user_job
                                      selected_meeting_id (Some uid))
  end.
Proof.
  intros Hne. unfold search_meetings_direct.
  destruct (Z.eqb_spec uid 0) as [->|_]; [done|].
  destruct (lookup_requester e user_query uid) as [r|x]; [|done].
  unfold mbind, result_bind, bind, search_guarded, returns.
  destruct (connect e 1); [|eauto].
  destruct (search_body e 1 _ _ _ _ _ _ _ _); simpl; eauto.
Qed.

Lemma entry_point_raises_what_the_lookup_raises_witness :
  1%Z <> 0%Z
  /\ search_meetings_direct lookup_fails_store (py "디자인 회의") None None None None
                            (Some 1%Z) = Raise (StoreError 2006).
Proof.
  split; [done|].
  exact (entry_point_raises_what_the_lookup_raises lookup_fails_store (py "디자인 회의")
           None None None None 1%Z ltac:(done)).
Defined.

(** C5 (the code departs from the claim).  Called without a requester,
    the default, or with the requester 0, the entry point raises
    [UnboundLocalError] whatever the store and the query are: the name
    of the connection factory is bound by an import inside
    [if user_id:] and is read, before the [try], when that branch was
    skipped.  With a requester, an exception of the store during the
    lookup of the requester's name, which also stands before the [try],
    leaves the entry point as it is. *)
Theorem entry_point_raises_before_its_try :
  (forall e user_query date_info status user_job selected_meeting_id,
     search_meetings_direct e user_query date_info status user_job selected_meeting_id None
     = Raise UnboundLocalError)
  /\ (forall e user_query date_info status user_job selected_meeting_id,
        search_meetings_direct e user_query date_info status user_job selected_meeting_id
                               (Some 0%Z)
        = Raise UnboundLocalError)
  /\ search_meetings_direct (empty_store true) (py "디자인 회의") None None None None None
     = Raise UnboundLocalError
  /\ search_meetings_direct lookup_fails_store (py "디자인 회의") None None None None
                            (Some 1%Z)
     = Raise (StoreError 2006).
Proof. repeat split; vm_compute; reflexivity. Qed.

End Boundary.

(** ** Collapse-to-single on a concrete result set *)

Section CollapseExample.
Import Rows Search Examples.

(** C6 (the code departs from the claim).  For the query "개발전략 회의"
    the two titles have similarity 1 and 4/5 to the query: the best is
    at least 0.70 and ahead by exactly 0.20, yet both records are kept,
    because the binary64 difference 1.0 - 0.8 is below the binary64
    0.2. *)
Theorem collapse_misses_gap_of_one_fifth :
  Difflib.exact_ratio (remove_meeting_word (strip (lower strategy_query)))
                      (remove_meeting_word (strip (lower (py "개발전략 미팅")))) = (8, 8)%Z
  /\ Difflib.exact_ratio (remove_meeting_word (strip (lower strategy_query)))
                         (remove_meeting_word (strip (lower (py "개발전략2차 회의")))) = (8, 10)%Z
  /\ Keywords.extract_keywords_from_query strategy_query = [py "개발전략"]
  /\ option_map (map row_id)
       (match keyword_rank strategy_query [py "개발전략"] strategy_rows with
        | Ok l => Some l
        | Raise _ => None
        end) = Some [1; 2]%Z.
Proof. repeat split; vm_compute; reflexivity. Qed.

End CollapseExample.

(** ** The my-tasks request on a concrete store *)

Section MyTasksExample.
Import Tasks TaskExamples.

(** C4 (the code departs from the claim).  The request "내가 해야 할 일"
    of user 1 inside meeting 10 takes the my-tasks branch, and the
    records returned hold, next to the requester's own task, the action
    item of the meeting that is assigned to another user. *)
Theorem my_tasks_include_foreign_action_item :
  branch_of office my_tasks_query 1 (Some 10%Z) = MyTasksInMeeting
  /\ (exists message records,
        search_tasks office plain my_tasks_query 1 (Some 10%Z) None = Ok (message, records)
        /\ map (fun x => (i_id x, i_assignee_name x, i_status x)) records
           = [ (1%Z, Some (py "김철수"), py "TODO"); (7%Z, Some (py "이영희"), py "TODO") ]).
Proof.
  split; [vm_compute; reflexivity|].
  eexists _, _. split; vm_compute; reflexivity.
Qed.

End MyTasksExample.
